(** * Oil tonnage calculator: the VCF resolver, the tonnage computation and
      the calculation history of [server.js]

    The server is an Express application over a PostgreSQL store.  The
    development embeds the request handlers as functions over an explicit
    database state; every SQL statement of the source is given its meaning
    on lists of rows, and the column types of [CREATE TABLE oil_tonnages]
    are applied when a row is inserted.  The store is taken to be
    reachable: a handler that cannot get a connection answers 500 and
    changes nothing.

    Numbers.  JavaScript numbers are binary64 values.  A number of a
    request is embedded as the rational ([Q]) it is written as: the
    shortest decimal that reads back as the same double, which is what
    [JS.toString] gives and what the server echoes and sends to the
    store; [JS.binary64] gives the double a decimal is read as.  The
    comparisons of the validation with 0, 700, 1000, -20 and 60 are the
    same on a double and on the decimal it is written as, and so is,
    for the values the server meets, the rounding to the grid: the scaling
    by the steps 0.5 and 0.25 in [roundToNearest] is exact in binary64,
    so the rounding of the source is the rational function below.  The
    tonnage formula is evaluated on the doubles, with the roundings of
    binary64.  [-0] and [0] are not distinguished. *)

From Stdlib Require Import ZArith QArith Qround Qabs Lia Lqa.
From Stdlib Require Import List Bool Ascii String.
From Stdlib Require Import Permutation Sorted.
From Stdlib Require Import DecimalString.
From Stdlib Require Import Floats.
Import ListNotations.

Set Warnings "-inexact-float".
Local Open Scope Q_scope.

(** ** Results of fallible operations *)

Inductive result (A : Type) : Type :=
| Ok (a : A)
| Error (message : string).
Arguments Ok {A} a.
Arguments Error {A} message.

Definition bind {A B : Type} (m : result A) (k : A -> result B) : result B :=
  match m with
  | Ok a => k a
  | Error e => Error e
  end.

Notation "x <- m ;; k" := (bind m (fun x => k))
  (at level 61, m at next level, right associativity).

(** ** The JavaScript side *)

Module JS.

(** [Math.round]: the nearest integer, a tie going to the larger one. *)
Definition Math_round (x : Q) : Z := Qfloor (x + (1 # 2)).

(** *** Numbers

    [binary64 x] is the double nearest to the rational [x], a tie going
    to the even mantissa: the Number a decimal text is read as.  The
    quotient of the numerator by the denominator is rounded once, by the
    division of the floating-point specification. *)
Definition binary64 (x : Q) : float :=
  match Qnum x with
  | Z0 => PrimFloat.zero
  | Zpos n =>
      SF2Prim (SFdiv prec emax (S754_finite false n 0)
                 (S754_finite false (Qden x) 0))
  | Zneg n =>
      SF2Prim (SFdiv prec emax (S754_finite true n 0)
                 (S754_finite false (Qden x) 0))
  end.

Definition power_of_two (e : Z) : Q :=
  match e with
  | Z0 => 1
  | Zpos p => inject_Z (2 ^ Zpos p)
  | Zneg p => 1 # (2 ^ p)
  end.

Definition power_of_ten (e : Z) : Q :=
  match e with
  | Z0 => 1
  | Zpos p => inject_Z (10 ^ Zpos p)
  | Zneg p => 1 # (10 ^ p)
  end.

(** The rational a finite double is; [None] for [NaN] and the
    infinities. *)
Definition exact_value (f : float) : option Q :=
  match Prim2SF f with
  | S754_zero _ => Some 0
  | S754_finite s m e =>
      Some (inject_Z (if s then Zneg m else Zpos m) * power_of_two e)
  | _ => None
  end.

(** The decimal exponent of a positive rational [v]: the [n] with
    [10^n <= v < 10^(n+1)], from an estimate that is at most four
    below. *)
Fixpoint raise (fuel : nat) (v : Q) (n : Z) : Z :=
  match fuel with
  | O => n
  | S k => if Qle_bool (power_of_ten (n + 1)) v then raise k v (n + 1) else n
  end.

Definition exponent10 (v : Q) : Z :=
  let estimate :=
    ((Z.log2 (Qnum v) - Z.log2 (Zpos (Qden v)) - 1) * 30102 / 100000 - 1)%Z in
  raise 4 v estimate.

(** The decimals of [p] significant digits next to [v], below and above:
    the one that reads back as [f], the nearer to [v] when both do. *)
Definition candidate (f : float) (v : Q) (n : Z) (p : Z) : option Q :=
  let unit := power_of_ten (n - p + 1) in
  let lo := Qfloor (v / unit) in
  let below := Qred (inject_Z lo * unit) in
  let above := Qred (inject_Z (lo + 1) * unit) in
  let ok_below := PrimFloat.eqb (binary64 below) f in
  let ok_above := PrimFloat.eqb (binary64 above) f in
  match ok_below, ok_above with
  | true, true =>
      match Qcompare (v - below) (above - v) with
      | Lt => Some below
      | Gt => Some above
      | Eq => Some (if Z.even lo then below else above)
      end
  | true, false => Some below
  | false, true => Some above
  | false, false => None
  end.

(** The first number of digits, from [p] on, at which there is such a
    decimal; seventeen digits always suffice. *)
Fixpoint shortest (fuel : nat) (f : float) (v : Q) (n : Z) (p : Z) : Q :=
  match fuel with
  | O => v
  | S k =>
      match candidate f v n p with
      | Some c => c
      | None => shortest k f v n (p + 1)
      end
  end.

(** [Number.prototype.toString], as the rational the text denotes:
    what [String(x)] and [JSON.stringify(x)] write for a finite [x], and
    what the database driver sends for a number among the parameters of
    a statement. *)
Definition toString (f : float) : option Q :=
  match exact_value f with
  | None => None
  | Some v =>
      match Qcompare v 0 with
      | Eq => Some 0
      | Gt => Some (shortest 17 f v (exponent10 v) 1)
      | Lt => Some (- shortest 17 (PrimFloat.opp f) (- v) (exponent10 (- v)) 1)
      end
  end.

(** [Number.MAX_SAFE_INTEGER]: up to it, in absolute value, every
    integer is a double, and so are the sums, differences and products
    of integers that stay within it. *)
Definition MAX_SAFE_INTEGER : Z := 9007199254740991.

(** *** Strings

    Strings are sequences of bytes, a character outside ASCII being the
    bytes of its UTF-8 encoding. *)
Definition upper_ascii (c : ascii) : ascii :=
  let n := nat_of_ascii c in
  if (97 <=? n)%nat && (n <=? 122)%nat then ascii_of_nat (n - 32) else c.

Definition byte (n : nat) (c : ascii) : bool := Ascii.eqb c (ascii_of_nat n).

(** The upper case of the ligatures U+FB00 to U+FB06, by the last byte of
    their encoding. *)
Definition ligature (c : ascii) : option string :=
  if byte 128 c then Some "FF"%string
  else if byte 129 c then Some "FI"%string
  else if byte 130 c then Some "FL"%string
  else if byte 131 c then Some "FFI"%string
  else if byte 132 c then Some "FFL"%string
  else if byte 133 c then Some "ST"%string
  else if byte 134 c then Some "ST"%string
  else None.

(** [String.prototype.toUpperCase], as far as ASCII goes: the letters a
    to z, and the characters outside ASCII whose upper case is made of
    ASCII letters, which are the long s (U+017F, S), the dotless i
    (U+0131, I), the sharp s (U+00DF, SS) and the ligatures (U+FB00 to
    U+FB06).  Every other character outside ASCII is left as it is; its
    upper case is outside ASCII too, so the comparison of the result
    with an ASCII string is the one of the source. *)
Fixpoint toUpperCase (s : string) : string :=
  match s with
  | EmptyString => EmptyString
  | String c1 s1 =>
      let plain := String (upper_ascii c1) (toUpperCase s1) in
      match s1 with
      | EmptyString => plain
      | String c2 s2 =>
          if byte 197 c1 && byte 191 c2 then String "S" (toUpperCase s2)
          else if byte 196 c1 && byte 177 c2 then String "I" (toUpperCase s2)
          else if byte 195 c1 && byte 159 c2
          then String "S" (String "S" (toUpperCase s2))
          else
            match s2 with
            | EmptyString => plain
            | String c3 s3 =>
                if byte 239 c1 && byte 172 c2 then
                  match ligature c3 with
                  | Some upper => (upper ++ toUpperCase s3)%string
                  | None => plain
                  end
                else plain
            end
      end
  end.

(** [Array.prototype.includes] on an array of strings. *)
Definition includes (a : list string) (s : string) : bool :=
  existsb (String.eqb s) a.

End JS.

(** ** The SQL side: the clauses the statements of the source use *)

Module SQL.

Section Clauses.
Context {A : Type}.

(** [WHERE]. *)
Definition where_ (p : A -> bool) (rows : list A) : list A := filter p rows.

(** [ORDER BY]: a stable insertion sort.  The store leaves the order of
    rows with equal keys open; the model keeps them in table order. *)
Fixpoint insert_by (leb : A -> A -> bool) (x : A) (l : list A) : list A :=
  match l with
  | [] => [x]
  | y :: l' => if leb x y then x :: l else y :: insert_by leb x l'
  end.

Fixpoint order_by (leb : A -> A -> bool) (rows : list A) : list A :=
  match rows with
  | [] => []
  | x :: l => insert_by leb x (order_by leb l)
  end.

(** [LIMIT n] and [OFFSET n]. *)
Definition limit (n : nat) (rows : list A) : list A := firstn n rows.
Definition offset (n : nat) (rows : list A) : list A := skipn n rows.
End Clauses.

(** Ascending order on a rational key, [ORDER BY key]. *)
Definition asc {A : Type} (key : A -> Q) : A -> A -> bool :=
  fun a b => Qle_bool (key a) (key b).

(** [ABS]. *)
Definition ABS (x : Q) : Q := Qabs x.

(** *** Integer types

    The values of [integer] (the type of a [SERIAL] column) and of
    [bigint] (the type of the parameters of [LIMIT] and [OFFSET]). *)
Definition integer (n : Z) : bool :=
  (-2147483648 <=? n)%Z && (n <=? 2147483647)%Z.

Definition bigint (n : Z) : bool :=
  (-9223372036854775808 <=? n)%Z && (n <=? 9223372036854775807)%Z.

(** The texts the store takes as a parameter: those without the
    character of code 0. *)
Fixpoint text (s : string) : bool :=
  match s with
  | EmptyString => true
  | String c s' => negb (Ascii.eqb c Ascii.zero) && text s'
  end.

Definition invalid_byte_sequence : string :=
  "invalid byte sequence for encoding UTF8: 0x00".

Definition integer_out_of_range : string := "out of range for type integer".
Definition bigint_out_of_range : string := "out of range for type bigint".

(** *** Decimal columns

    A value assigned to a [DECIMAL(p,s)] column is rounded to [s]
    fractional digits, a tie going away from zero, and refused when more
    than [p - s] digits are left before the point. *)
Definition round_numeric (x : Q) : Z :=
  if Qle_bool 0 x then Qfloor (x + (1 # 2)) else Qceiling (x - (1 # 2)).

Definition unscaled (s : nat) (x : Q) : Z :=
  round_numeric (x * inject_Z (10 ^ Z.of_nat s)).

Definition numeric_overflow : string := "numeric field overflow".

Definition DECIMAL (p s : nat) (x : Q) : result Q :=
  let n := unscaled s x in
  if (Z.abs n <? 10 ^ Z.of_nat p)%Z
  then Ok (n # Z.to_pos (10 ^ Z.of_nat s))
  else Error numeric_overflow.

(** *** Text

    [digits n] is the decimal numeral of a natural number, [lpad w s]
    fills [s] with zeros on the left up to [w] characters. *)
Definition digits (n : Z) : string :=
  NilZero.string_of_uint (N.to_uint (Z.to_N n)).

Fixpoint zeros (n : nat) : string :=
  match n with
  | O => EmptyString
  | S n' => String "0" (zeros n')
  end.

Definition lpad (w : nat) (s : string) : string :=
  (zeros (w - String.length s) ++ s)%string.

(** [x::text] for a column of scale [s], with [s] positive: the sign, the
    integer part, and exactly [s] fractional digits. *)
Definition numeric_text (s : nat) (x : Q) : string :=
  let n := unscaled s x in
  let a := Z.abs n in
  let scale := (10 ^ Z.of_nat s)%Z in
  ((if (n <? 0)%Z then "-" else "")
     ++ digits (a / scale) ++ "." ++ lpad s (digits (a mod scale)))%string.

(** A [TIMESTAMP] value, broken down. *)
Record timestamp : Type := mkTimestamp {
  year : Z; month : Z; day : Z;
  hour : Z; minute : Z; second : Z; microsecond : Z
}.

(** The position of a timestamp on the time line, for comparisons: on
    well-formed timestamps (month 1-12, day 1-31, hour 0-23, minute and
    second 0-59, microsecond below a million) it grows with time. *)
Definition instant (t : timestamp) : Z :=
  ((((((year t * 13 + month t) * 32 + day t) * 24 + hour t) * 60
      + minute t) * 60 + second t) * 1000000 + microsecond t)%Z.

(** [to_char(t, 'YYYY-MM-DD HH24:MI:SS')]. *)
Definition to_char (t : timestamp) : string :=
  (lpad 4 (digits (year t)) ++ "-" ++ lpad 2 (digits (month t)) ++ "-"
     ++ lpad 2 (digits (day t)) ++ " " ++ lpad 2 (digits (hour t)) ++ ":"
     ++ lpad 2 (digits (minute t)) ++ ":" ++ lpad 2 (digits (second t)))%string.

(** *** [LIKE]

    In a pattern [%] stands for any run of characters, [_] for any one
    character, and a backslash makes the character after it stand for
    itself.  A pattern that ends in a lone backslash is refused by the
    store; the function answers [false] there (the patterns of the
    source end in [%], so a backslash is never last). *)
Fixpoint like_match (p : string) : string -> bool :=
  match p with
  | EmptyString =>
      fun t => match t with EmptyString => true | String _ _ => false end
  | String c p' =>
      if Ascii.eqb c "%" then
        fix any (t : string) : bool :=
          like_match p' t
          || match t with EmptyString => false | String _ t' => any t' end
      else if Ascii.eqb c "_" then
        fun t =>
          match t with EmptyString => false | String _ t' => like_match p' t' end
      else if Ascii.eqb c "\" then
        match p' with
        | EmptyString => fun _ => false
        | String e p'' =>
            fun t =>
              match t with
              | EmptyString => false
              | String x t' => Ascii.eqb x e && like_match p'' t'
              end
        end
      else
        fun t =>
          match t with
          | EmptyString => false
          | String x t' => Ascii.eqb x c && like_match p' t'
          end
  end.

Definition LIKE (text pattern : string) : bool := like_match pattern text.

End SQL.

(** ** The reference table *)

(** Modelled from the spec: the table [vcftable] is imported from
    [vcftable.sql], which is not part of the sources; its rows are the
    VCFEntry of the data model, three decimal columns.  The driver hands a
    decimal column over as its decimal text, which is why the source
    applies [parseFloat] to [vcf]; such a text is never empty, hence never
    falsy. *)
Module vcftable.
Record row : Type := mk { density : Q; temperature : Q; vcf : Q }.
End vcftable.

(** What [getVCFFromDatabase] returns. *)
Record vcfData : Type := mkVcfData {
  vcf : Q;
  usedDensity : Q;
  usedTemp : Q
}.

Definition roundToNearest (value step : Q) : Q :=
  inject_Z (JS.Math_round (value / step)) * step.

(** The three statements of [getVCFFromDatabase]. *)
Definition exactMatchQuery (tbl : list vcftable.row) (d t : Q) : list vcftable.row :=
  SQL.limit 1
    (SQL.where_ (fun r => Qeq_bool (vcftable.density r) d
                          && Qeq_bool (vcftable.temperature r) t) tbl).

Definition closestDensityQuery (tbl : list vcftable.row) (d : Q) : list vcftable.row :=
  SQL.limit 1
    (SQL.order_by (SQL.asc (fun r => SQL.ABS (vcftable.density r - d))) tbl).

Definition closestTempQuery (tbl : list vcftable.row) (d t : Q) : list vcftable.row :=
  SQL.limit 1
    (SQL.order_by (SQL.asc (fun r => SQL.ABS (vcftable.temperature r - t)))
       (SQL.where_ (fun r => Qeq_bool (vcftable.density r) d) tbl)).

Definition not_found : string := "VCF data not found for given parameters".

Definition getVCFFromDatabase (tbl : list vcftable.row) (density temperature : Q)
  : result vcfData :=
  let roundedDensity := roundToNearest density (1 # 2) in
  let roundedTemp := roundToNearest temperature (1 # 4) in
  match exactMatchQuery tbl roundedDensity roundedTemp with
  | r :: _ =>
      Ok {| vcf := vcftable.vcf r;
            usedDensity := roundedDensity;
            usedTemp := roundedTemp |}
  | [] =>
      (* [rows[0]?.density || roundedDensity]: the density of the row when
         there is one, a decimal text and so truthy. *)
      let closestDensity :=
        match closestDensityQuery tbl roundedDensity with
        | r :: _ => vcftable.density r
        | [] => roundedDensity
        end in
      match closestTempQuery tbl closestDensity roundedTemp with
      | r :: _ =>
          Ok {| vcf := vcftable.vcf r;
                usedDensity := closestDensity;
                usedTemp := vcftable.temperature r |}
      | [] => Error not_found
      end
  end.

(** ** The tonnage formula *)

(** [(volume * density * vcfData.vcf) / 1000000] on binary64 values:
    two products and a quotient, each rounded to the nearest double. *)
Definition compute_binary64 (volume density vcf : float) : float :=
  ((volume * density * vcf) / 1000000)%float.

(** The tonnage of the handler: the expression on the doubles of its
    three numbers, as the decimal the result is written as in the response
    and among the parameters of the [INSERT]; [None] when the result is
    not finite. *)
Definition compute (volume density vcf : Q) : option Q :=
  JS.toString
    (compute_binary64 (JS.binary64 volume) (JS.binary64 density)
       (JS.binary64 vcf)).

(** ** The calculation history *)

(** The table [oil_tonnages] as [initializeDatabase] creates it. *)
Module oil_tonnages.
Record row : Type := mk {
  id : Z;
  volume : Q;
  density : Q;
  temperature : Q;
  vcf : Q;
  used_density : Q;
  used_temperature : Q;
  tonnage : Q;
  created_at : SQL.timestamp
}.
End oil_tonnages.

(** The state of the store: the two tables and the sequence behind the
    [SERIAL] column. *)
Record database : Type := mkDatabase {
  vcftable_rows : list vcftable.row;
  oil_tonnages_rows : list oil_tonnages.row;
  oil_tonnages_id_seq : Z
}.

Definition with_rows (db : database) (rows : list oil_tonnages.row) : database :=
  {| vcftable_rows := vcftable_rows db;
     oil_tonnages_rows := rows;
     oil_tonnages_id_seq := oil_tonnages_id_seq db |}.

Definition with_seq (db : database) (n : Z) : database :=
  {| vcftable_rows := vcftable_rows db;
     oil_tonnages_rows := oil_tonnages_rows db;
     oil_tonnages_id_seq := n |}.

(** [INSERT INTO oil_tonnages (...) VALUES ($1, ..., $7) RETURNING id,
    created_at]: each value is brought to the type of its column, the
    next value of the sequence is drawn for [id], [created_at] takes the
    current time [now], and the row goes to the end of the table.  A value
    that does not fit its column fails the statement before an id is
    drawn, and so does an id beyond the [integer] type of the column; the
    store is then unchanged. *)
Definition insert_row (now : SQL.timestamp) (db : database)
    (volume density temperature vcf usedDensity usedTemp tonnage : Q)
  : result oil_tonnages.row * database :=
  let id := oil_tonnages_id_seq db in
  let r :=
    c_volume <- SQL.DECIMAL 15 2 volume ;;
    c_density <- SQL.DECIMAL 8 2 density ;;
    c_temperature <- SQL.DECIMAL 6 2 temperature ;;
    c_vcf <- SQL.DECIMAL 10 6 vcf ;;
    c_used_density <- SQL.DECIMAL 8 2 usedDensity ;;
    c_used_temperature <- SQL.DECIMAL 6 2 usedTemp ;;
    c_tonnage <- SQL.DECIMAL 15 8 tonnage ;;
    if SQL.integer id
    then Ok (oil_tonnages.mk id c_volume c_density c_temperature c_vcf
               c_used_density c_used_temperature c_tonnage now)
    else Error SQL.integer_out_of_range in
  match r with
  | Ok row =>
      (Ok row, with_rows (with_seq db (id + 1)%Z) (oil_tonnages_rows db ++ [row]))
  | Error e => (Error e, db)
  end.

(** ** Requests and responses *)

(** The body of a calculate request: an object whose fields, where it
    has them, are JSON numbers.  A field is [None] when the body leaves
    it out.  (Fields of other JSON types are compared after the coercions
    of JavaScript; they are outside this type.) *)
Record calculate_body : Type := mkBody {
  body_volume : option Q;
  body_density : option Q;
  body_temperature : option Q
}.

(** The [data] of a successful calculate response. *)
Record calculation : Type := mkCalculation {
  data_id : Z;
  data_volume : Q;
  data_density : Q;
  data_temperature : Q;
  data_vcf : Q;
  data_usedDensity : Q;
  data_usedTemp : Q;
  data_tonnage : Q;
  data_timestamp : SQL.timestamp
}.

(** A response: its status and what the body carries. *)
Inductive response (A : Type) : Type :=
| Status200 (data : A)
| Status400 (error : string) (details : list string)
| Status404 (error : string)
| Status500 (error : string) (message : string).
Arguments Status200 {A} data.
Arguments Status400 {A} error details.
Arguments Status404 {A} error.
Arguments Status500 {A} error message.

(** ** [validateCalculationInput] *)

Definition volume_error : string := "Volume must be a positive number".
Definition density_error : string := "Density must be between 700-1000 kg/m³".
Definition temperature_error : string :=
  "Temperature must be between -20°C and 60°C".

Definition volume_errors (v : option Q) : list string :=
  match v with
  | Some volume => if Qle_bool volume 0 then [volume_error] else []
  | None => [volume_error]
  end.

Definition density_errors (d : option Q) : list string :=
  match d with
  | Some density =>
      if negb (Qle_bool 700 density) || negb (Qle_bool density 1000)
      then [density_error] else []
  | None => [density_error]
  end.

Definition temperature_errors (t : option Q) : list string :=
  match t with
  | Some temperature =>
      if negb (Qle_bool (-20) temperature) || negb (Qle_bool temperature 60)
      then [temperature_error] else []
  | None => [temperature_error]
  end.

Definition validateCalculationInput (body : calculate_body) : list string :=
  volume_errors (body_volume body)
    ++ density_errors (body_density body)
    ++ temperature_errors (body_temperature body).

(** ** [POST /api/calculate] *)

Definition calculate_failed : string := "Failed to calculate tonnage".

(** The [Date] the driver makes of a [TIMESTAMP]: the same time, cut to
    the millisecond.  ([toISOString] writes it in UTC.) *)
Definition to_Date (t : SQL.timestamp) : SQL.timestamp :=
  {| SQL.year := SQL.year t; SQL.month := SQL.month t; SQL.day := SQL.day t;
     SQL.hour := SQL.hour t; SQL.minute := SQL.minute t;
     SQL.second := SQL.second t;
     SQL.microsecond := (SQL.microsecond t / 1000 * 1000)%Z |}.

(** The handler behind the validation.  A tonnage that is not finite is
    refused by the [tonnage] column. *)
Definition calculate (now : SQL.timestamp) (db : database)
    (volume density temperature : Q) : response calculation * database :=
  match getVCFFromDatabase (vcftable_rows db) density temperature with
  | Error message => (Status500 calculate_failed message, db)
  | Ok vcfData =>
      match compute volume density (vcf vcfData) with
      | None => (Status500 calculate_failed SQL.numeric_overflow, db)
      | Some tonnage =>
          match insert_row now db volume density temperature (vcf vcfData)
                  (usedDensity vcfData) (usedTemp vcfData) tonnage with
          | (Error message, db') => (Status500 calculate_failed message, db')
          | (Ok row, db') =>
              (Status200
                 {| data_id := oil_tonnages.id row;
                    data_volume := volume;
                    data_density := density;
                    data_temperature := temperature;
                    data_vcf := vcf vcfData;
                    data_usedDensity := usedDensity vcfData;
                    data_usedTemp := usedTemp vcfData;
                    data_tonnage := tonnage;
                    data_timestamp := to_Date (oil_tonnages.created_at row) |},
               db')
          end
      end
  end.

(** The route: the validation, then the handler. *)
Definition post_calculate (now : SQL.timestamp) (db : database)
    (body : calculate_body) : response calculation * database :=
  match validateCalculationInput body with
  | [] =>
      match body_volume body, body_density body, body_temperature body with
      | Some volume, Some density, Some temperature =>
          calculate now db volume density temperature
      | _, _, _ =>
          (* not reached: the validation lets no such body through *)
          (Status500 calculate_failed "not a number", db)
      end
  | details => (Status400 "Validation failed" details, db)
  end.

(** ** [GET /api/calculations] *)

(** A parameter of the query string as the handler gets it: a string, or
    an array or object when the query string repeats the parameter or
    writes it with brackets. *)
Inductive query_value : Type :=
| Text (s : string)
| NotText.

(** The query string; a parameter is [None] when the request leaves it
    out.  [page] and [limit] are decimal numerals, taken as the integers
    they denote; the arithmetic of the handler on them, which is that of
    doubles, is the arithmetic of the integers as long as they and the
    offset stay within the safe integers.  [search] and [sort] are
    strings. *)
Record list_query : Type := mkQuery {
  query_page : option Z;
  query_limit : option Z;
  query_search : option string;
  query_sort : option string;
  query_order : option query_value
}.

Definition or_default {A : Type} (o : option A) (d : A) : A :=
  match o with Some a => a | None => d end.

Definition validSortColumns : list string :=
  ["created_at"; "volume"; "density"; "temperature"; "tonnage"]%string.

Definition sortColumn (sort : string) : string :=
  if JS.includes validSortColumns sort then sort else "created_at"%string.

Definition sortOrder (order : string) : string :=
  if String.eqb (JS.toUpperCase order) "ASC" then "ASC"%string else "DESC"%string.

Definition searchPattern (search : string) : string :=
  ("%" ++ search ++ "%")%string.

(** The five texts the search looks at. *)
Definition searched_texts (r : oil_tonnages.row) : list string :=
  [ SQL.numeric_text 2 (oil_tonnages.volume r);
    SQL.numeric_text 2 (oil_tonnages.density r);
    SQL.numeric_text 2 (oil_tonnages.temperature r);
    SQL.numeric_text 8 (oil_tonnages.tonnage r);
    SQL.to_char (oil_tonnages.created_at r) ].

(** [whereClause] with its parameters: nothing when [search] is empty,
    else the disjunction of five [LIKE] tests against [searchPattern]. *)
Definition whereClause (search : string) (r : oil_tonnages.row) : bool :=
  match search with
  | EmptyString => true
  | _ => existsb (fun text => SQL.LIKE text (searchPattern search))
           (searched_texts r)
  end.

(** The order of two rows in time. *)
Definition by_instant (a b : oil_tonnages.row) : bool :=
  (SQL.instant (oil_tonnages.created_at a)
     <=? SQL.instant (oil_tonnages.created_at b))%Z.

(** [ORDER BY column direction] as the store reads it: the column must be
    one of the table, the direction [ASC] or [DESC]. *)
Definition column_order (column : string)
  : result (oil_tonnages.row -> oil_tonnages.row -> bool) :=
  if String.eqb column "created_at" then Ok by_instant
  else if String.eqb column "volume" then Ok (SQL.asc oil_tonnages.volume)
  else if String.eqb column "density" then Ok (SQL.asc oil_tonnages.density)
  else if String.eqb column "temperature" then Ok (SQL.asc oil_tonnages.temperature)
  else if String.eqb column "tonnage" then Ok (SQL.asc oil_tonnages.tonnage)
  else if String.eqb column "vcf" then Ok (SQL.asc oil_tonnages.vcf)
  else if String.eqb column "used_density" then Ok (SQL.asc oil_tonnages.used_density)
  else if String.eqb column "used_temperature"
       then Ok (SQL.asc oil_tonnages.used_temperature)
  else if String.eqb column "id"
       then Ok (fun a b => (oil_tonnages.id a <=? oil_tonnages.id b)%Z)
  else Error "column does not exist".

Definition order_clause (column direction : string)
  : result (oil_tonnages.row -> oil_tonnages.row -> bool) :=
  leb <- column_order column ;;
  if String.eqb direction "ASC" then Ok leb
  else if String.eqb direction "DESC" then Ok (fun a b => leb b a)
  else Error "syntax error".

(** What a successful listing carries.  [pages] is [None] where the
    source divides by a zero [limit]. *)
Record listing : Type := mkListing {
  rows : list oil_tonnages.row;
  pagination_page : Z;
  pagination_limit : Z;
  pagination_total : Z;
  pagination_pages : option Z
}.

Definition list_failed : string := "Failed to fetch calculations".

(** The parameters with their defaults,
    [{ page = 1, limit = 50, search = '', sort = 'created_at', order = 'DESC' }],
    and the offset. *)
Definition page_of (q : list_query) : Z := or_default (query_page q) 1%Z.
Definition limit_of (q : list_query) : Z := or_default (query_limit q) 50%Z.
Definition search_of (q : list_query) : string :=
  or_default (query_search q) ""%string.
Definition sort_of (q : list_query) : string :=
  or_default (query_sort q) "created_at"%string.
Definition order_of (q : list_query) : query_value :=
  or_default (query_order q) (Text "DESC").
Definition offset_of (q : list_query) : Z := ((page_of q - 1) * limit_of q)%Z.

(** The handler.  An [order] that is no string has no [toUpperCase]; the
    call throws and the handler answers 500.  The pattern of a search
    goes to the store as a text parameter, [limit] and [offset] as
    [bigint] parameters; the store looks at [OFFSET] before [LIMIT]. *)
Definition get_calculations (db : database) (q : list_query) : response listing :=
  let page := page_of q in
  let limit := limit_of q in
  let search := search_of q in
  let sort := sort_of q in
  let offset := offset_of q in
  let matching := SQL.where_ (whereClause search) (oil_tonnages_rows db) in
  let total := Z.of_nat (List.length matching) in
  match order_of q with
  | NotText => Status500 list_failed "order.toUpperCase is not a function"
  | Text order =>
      match order_clause (sortColumn sort) (sortOrder order) with
      | Error message => Status500 list_failed message
      | Ok leb =>
          if negb (SQL.text search)
          then Status500 list_failed SQL.invalid_byte_sequence
          else if negb (SQL.bigint limit) || negb (SQL.bigint offset)
          then Status500 list_failed SQL.bigint_out_of_range
          else if (offset <? 0)%Z
          then Status500 list_failed "OFFSET must not be negative"
          else if (limit <? 0)%Z
          then Status500 list_failed "LIMIT must not be negative"
          else
            Status200
              {| rows := SQL.limit (Z.to_nat limit)
                           (SQL.offset (Z.to_nat offset)
                              (SQL.order_by leb matching));
                 pagination_page := page;
                 pagination_limit := limit;
                 pagination_total := total;
                 pagination_pages :=
                   if (limit =? 0)%Z then None
                   else Some (Qceiling (inject_Z total / inject_Z limit)) |}
      end
  end.

(** ** [DELETE /api/calculations/:id] and [DELETE /api/calculations] *)

(** [DELETE FROM oil_tonnages WHERE id = $1 RETURNING *]: the rows deleted
    and the table without them. *)
Definition delete_returning (id : Z) (table : list oil_tonnages.row)
  : list oil_tonnages.row * list oil_tonnages.row :=
  (SQL.where_ (fun r => (oil_tonnages.id r =? id)%Z) table,
   SQL.where_ (fun r => negb (oil_tonnages.id r =? id)%Z) table).

Definition delete_failed : string := "Failed to delete calculation".

(** The handler; [id] is the integer the path parameter denotes.  The
    parameter is compared with the [integer] column [id]: a value beyond
    that type fails the statement. *)
Definition delete_calculation (db : database) (id : Z) : response string * database :=
  if SQL.integer id then
    let (deleted, remaining) := delete_returning id (oil_tonnages_rows db) in
    let db' := with_rows db remaining in
    match deleted with
    | [] => (Status404 "Calculation not found", db')
    | _ :: _ => (Status200 "Calculation deleted successfully"%string, db')
    end
  else (Status500 delete_failed SQL.integer_out_of_range, db).

Definition clear_calculations (db : database) : response string * database :=
  (Status200 "All calculations cleared successfully"%string, with_rows db []).

(** ** Notions the statements use *)

(** A row of the reference table sits at the grid point [(d, t)]. *)
Definition at_key (d t : Q) (e : vcftable.row) : Prop :=
  vcftable.density e == d /\ vcftable.temperature e == t.

(** The rounding as the specification words it: the nearest integer to
    the scaled value, a tie going away from zero. *)
Definition round_half_away_from_zero (x : Q) : Z :=
  if Qle_bool 0 x then Qfloor (x + (1 # 2)) else (- Qfloor (- x + (1 # 2)))%Z.

Definition spec_roundToGrid (value step : Q) : Q :=
  inject_Z (round_half_away_from_zero (value / step)) * step.

(** [value] lies exactly halfway between two points of the grid. *)
Definition grid_tie (value step : Q) : Prop :=
  exists k : Z, value / step == inject_Z k + (1 # 2).

(** [s] occurs in [t]: [t] is some text, then [s], then some text. *)
Definition occurs_in (s t : string) : Prop :=
  exists a b : string, t = (a ++ s ++ b)%string.

(** The test for it, case-sensitive. *)
Fixpoint contains (s t : string) {struct t} : bool :=
  String.prefix s t
  || match t with
     | EmptyString => false
     | String _ t' => contains s t'
     end.

(** The search as the specification words it: [s] occurs in one of the
    five texts. *)
Definition spec_search (s : string) (r : oil_tonnages.row) : bool :=
  existsb (contains s) (searched_texts r).

(** The characters [LIKE] gives a meaning to, and the strings free of
    them. *)
Definition wildcard (c : ascii) : bool :=
  Ascii.eqb c "%" || Ascii.eqb c "_" || Ascii.eqb c "\".

Fixpoint literal (s : string) : bool :=
  match s with
  | EmptyString => true
  | String c s' => negb (wildcard c) && literal s'
  end.

(** Equality of two strings up to the case of the ASCII letters. *)
Definition lower_ascii (c : ascii) : ascii :=
  let n := nat_of_ascii c in
  if (65 <=? n)%nat && (n <=? 90)%nat then ascii_of_nat (n + 32) else c.

Fixpoint toLowerCase (s : string) : string :=
  match s with
  | EmptyString => EmptyString
  | String c s' => String (lower_ascii c) (toLowerCase s')
  end.

Definition equal_ignoring_case (a b : string) : bool :=
  String.eqb (toLowerCase a) (toLowerCase b).

(** The spellings of an order that upper-case to [ASC]: a or A, then s,
    S or the long s (U+017F), then c or C. *)
Definition long_s : string := "ſ".

Definition asc_spellings : list string :=
  flat_map
    (fun a =>
       flat_map (fun s => map (fun c => (a ++ s ++ c)%string) ["c"; "C"]%string)
         ["s"%string; "S"%string; long_s])
    ["a"; "A"]%string.

(** The double [f] is written as the decimal [q]. *)
Definition written_as (f : float) (q : Q) : bool :=
  match JS.toString f with
  | Some t => Qeq_bool t q
  | None => false
  end.

(** The tonnage as the specification words it: the exact value of the
    formula. *)
Definition exact_tonnage (volume density vcf : Q) : Q :=
  (volume * density * vcf) / 1000000.

(** The steps of the server's grid, and the values on which the rounding
    of the source, which works on doubles, is the rational function
    [roundToNearest]: up to a million millions the doubles lie close
    enough for the halves, quarters and eighths to be written out in
    full. *)
Definition grid_step (step : Q) : Prop := step = 1 # 2 \/ step = 1 # 4.

Definition within_grid_range (value : Q) : Prop := Qabs value <= 1000000000000.

(** The integers on which the arithmetic of the handler, which works on
    doubles, is that of the integers. *)
Definition safe_integer (n : Z) : Prop := (Z.abs n <= JS.MAX_SAFE_INTEGER)%Z.

(** The two orders a listing can come in, on a key of the rows. *)
Definition ascending_by_created_at (l : list oil_tonnages.row) : Prop :=
  StronglySorted
    (fun a b => (SQL.instant (oil_tonnages.created_at a)
                 <= SQL.instant (oil_tonnages.created_at b))%Z) l.

Definition descending_by_created_at (l : list oil_tonnages.row) : Prop :=
  StronglySorted
    (fun a b => (SQL.instant (oil_tonnages.created_at b)
                 <= SQL.instant (oil_tonnages.created_at a))%Z) l.

Definition ascending_by_volume (l : list oil_tonnages.row) : Prop :=
  StronglySorted (fun a b => oil_tonnages.volume a <= oil_tonnages.volume b) l.

(** What the primary key and the sequence keep true of the history: no
    two rows share an id, and every id was drawn from the sequence. *)
Definition ids_distinct (db : database) : Prop :=
  NoDup (map oil_tonnages.id (oil_tonnages_rows db))
  /\ forall r, In r (oil_tonnages_rows db) ->
       (oil_tonnages.id r < oil_tonnages_id_seq db)%Z.

(** ** The server as a whole *)

(** The requests that reach the store, and the state each one leaves.
    Every handler runs one statement that changes the store, so requests
    are taken one after the other. *)
Inductive request : Type :=
| PostCalculate (now : SQL.timestamp) (body : calculate_body)
| GetCalculations (q : list_query)
| DeleteCalculation (id : Z)
| ClearCalculations.

Definition handle (db : database) (r : request) : database :=
  match r with
  | PostCalculate now body => snd (post_calculate now db body)
  | GetCalculations _ => db
  | DeleteCalculation id => snd (delete_calculation db id)
  | ClearCalculations => snd (clear_calculations db)
  end.

Definition serve (db : database) (requests : list request) : database :=
  fold_left handle requests db.

(** A query string with [page] and [limit] given and the rest as in [q]. *)
Definition with_paging (q : list_query) (page limit : Z) : list_query :=
  {| query_page := Some page;
     query_limit := Some limit;
     query_search := query_search q;
     query_sort := query_sort q;
     query_order := query_order q |}.

(** The [data] array of a listing response, empty for a failure. *)
Definition rows_of (r : response listing) : list oil_tonnages.row :=
  match r with
  | Status200 l => rows l
  | _ => []
  end.

(** The decimal columns a listing can be sorted by. *)
Definition numeric_column (column : string)
  : option (oil_tonnages.row -> Q) :=
  if String.eqb column "volume" then Some oil_tonnages.volume
  else if String.eqb column "density" then Some oil_tonnages.density
  else if String.eqb column "temperature" then Some oil_tonnages.temperature
  else if String.eqb column "tonnage" then Some oil_tonnages.tonnage
  else None.

(** ** The set-up script *)

(** What [setupDatabase] finds out about [vcftable] after it has created
    the history table.  The catalogue entry of the table is [None] when
    there is no such table, else its column names and its number of
    rows. *)
Definition requiredColumns : list string :=
  ["density"; "temperature"; "vcf"]%string.

Definition missingColumns (existingColumns : list string) : list string :=
  filter (fun col => negb (JS.includes existingColumns col)) requiredColumns.

Inductive vcf_check : Type :=
| VcfTableNotFound
| VcfColumnsMissing (missing : list string)
| VcfTableFound (count : nat).

Definition check_vcftable (entry : option (list string * nat)) : vcf_check :=
  match entry with
  | None => VcfTableNotFound
  | Some (existingColumns, count) =>
      match missingColumns existingColumns with
      | [] => VcfTableFound count
      | missing => VcfColumnsMissing missing
      end
  end.

(** * Properties *)

(** ** The JavaScript side, on examples *)

Example numbers_are_written_shortest :
  written_as (JS.binary64 (1 # 10) + JS.binary64 (2 # 10))
    (30000000000000004 # 100000000000000000) = true
  /\ written_as (JS.binary64 (1 # 3)) (3333333333333333 # 10000000000000000) = true
  /\ written_as (JS.binary64 (9005 # 10)) (9005 # 10) = true
  /\ written_as (JS.binary64 (2 ^ 53 + 1)) (inject_Z (2 ^ 53)) = true
  /\ written_as (JS.binary64 (5 # 1000000000)) (5 # 1000000000) = true
  /\ JS.toString (1 / 0) = None.
Proof.
  repeat split; vm_compute; reflexivity.
Qed.

Example strings_are_upper_cased :
  JS.toUpperCase "desc" = "DESC"%string
  /\ JS.toUpperCase "aSc" = "ASC"%string
  /\ JS.toUpperCase "aſc" = "ASC"%string
  /\ JS.toUpperCase "straße" = "STRASSE"%string
  /\ JS.toUpperCase "2500.00" = "2500.00"%string.
Proof.
  repeat split; reflexivity.
Qed.

(** ** Facts about the clauses *)

Section OrderBy.
Context {A : Type} (leb : A -> A -> bool).
Hypothesis leb_total : forall a b, leb a b = true \/ leb b a = true.
Hypothesis leb_trans :
  forall a b c, leb a b = true -> leb b c = true -> leb a c = true.

Let le (a b : A) : Prop := leb a b = true.

Lemma insert_by_perm (x : A) (l : list A) :
  Permutation (SQL.insert_by leb x l) (x :: l).
Proof.
  induction l as [|y l IH]; simpl.
  - apply Permutation_refl.
  - destruct (leb x y).
    + apply Permutation_refl.
    + apply Permutation_trans with (y :: x :: l).
      * apply perm_skip, IH.
      * apply perm_swap.
Qed.

Lemma order_by_perm (l : list A) : Permutation (SQL.order_by leb l) l.
Proof.
  induction l as [|x l IH]; simpl.
  - apply perm_nil.
  - eapply Permutation_trans; [apply insert_by_perm|].
    apply perm_skip, IH.
Qed.

Lemma order_by_In (l : list A) (x : A) : In x (SQL.order_by leb l) <-> In x l.
Proof.
  split; apply Permutation_in;
    [apply order_by_perm | apply Permutation_sym, order_by_perm].
Qed.

Lemma insert_by_sorted (x : A) (l : list A) :
  StronglySorted le l -> StronglySorted le (SQL.insert_by leb x l).
Proof using leb_total leb_trans.
  induction l as [|y l IH]; simpl; intros Hs.
  - constructor; [constructor | constructor].
  - inversion Hs as [|? ? Hl Hy]; subst.
    destruct (leb x y) eqn:E.
    + constructor; [exact Hs|].
      constructor; [exact E|].
      rewrite Forall_forall in *. intros z Hz.
      unfold le. eapply leb_trans; [exact E | apply Hy, Hz].
    + constructor; [apply IH, Hl|].
      rewrite Forall_forall in *. intros z Hz.
      apply (Permutation_in _ (insert_by_perm x l)) in Hz.
      destruct Hz as [<-|Hz]; [|apply Hy, Hz].
      destruct (leb_total x y) as [C|C]; [congruence | exact C].
Qed.

Lemma order_by_sorted (l : list A) : StronglySorted le (SQL.order_by leb l).
Proof using leb_total leb_trans.
  induction l as [|x l IH]; simpl.
  - constructor.
  - apply insert_by_sorted, IH.
Qed.

(** The first row of an ordered table is below every row of the table. *)
Lemma order_by_head (l : list A) (x : A) (rest : list A) :
  SQL.order_by leb l = x :: rest ->
  In x l /\ forall y, In y l -> leb x y = true.
Proof using leb_total leb_trans.
  intros E. split.
  - apply order_by_In. rewrite E. left; reflexivity.
  - intros y Hy. apply order_by_In in Hy. rewrite E in Hy.
    pose proof (order_by_sorted l) as Hs. rewrite E in Hs.
    inversion Hs as [|? ? _ Hall]; subst.
    destruct Hy as [<-|Hy].
    + destruct (leb_total x x); assumption.
    + rewrite Forall_forall in Hall. apply Hall, Hy.
Qed.
End OrderBy.

Lemma order_by_nonempty {A : Type} (leb : A -> A -> bool) (l : list A) :
  l <> [] -> exists x rest, SQL.order_by leb l = x :: rest.
Proof.
  intros Hne. destruct (SQL.order_by leb l) as [|x rest] eqn:E.
  - exfalso. apply Hne.
    apply Permutation_nil. rewrite <- E. apply order_by_perm.
  - eauto.
Qed.

Lemma limit_In {A : Type} (n : nat) (l : list A) (x : A) :
  In x (SQL.limit n l) -> In x l.
Proof.
  unfold SQL.limit. revert l. induction n as [|n IH]; intros [|y l]; simpl; try tauto.
  intros [H|H]; [left; exact H | right; apply IH, H].
Qed.

Lemma offset_In {A : Type} (n : nat) (l : list A) (x : A) :
  In x (SQL.offset n l) -> In x l.
Proof.
  unfold SQL.offset. revert l. induction n as [|n IH]; intros [|y l]; simpl; try tauto.
  intros H. right. apply IH, H.
Qed.

Lemma strongly_sorted_firstn {A : Type} (R : A -> A -> Prop) (n : nat) (l : list A) :
  StronglySorted R l -> StronglySorted R (firstn n l).
Proof.
  revert l. induction n as [|n IH]; intros l Hs; simpl.
  - constructor.
  - destruct l as [|x l]; [constructor|].
    inversion Hs as [|? ? Hl Hx]; subst.
    constructor; [apply IH, Hl|].
    rewrite Forall_forall in *. intros y Hy. apply Hx.
    eapply (limit_In n); exact Hy.
Qed.

Lemma strongly_sorted_skipn {A : Type} (R : A -> A -> Prop) (n : nat) (l : list A) :
  StronglySorted R l -> StronglySorted R (skipn n l).
Proof.
  revert l. induction n as [|n IH]; intros l Hs; simpl.
  - exact Hs.
  - destruct l as [|x l]; [constructor|].
    inversion Hs; subst. apply IH. assumption.
Qed.

Lemma asc_total {A : Type} (key : A -> Q) (a b : A) :
  SQL.asc key a b = true \/ SQL.asc key b a = true.
Proof.
  unfold SQL.asc. rewrite !Qle_bool_iff.
  destruct (Qlt_le_dec (key b) (key a)) as [H|H]; [right; apply Qlt_le_weak, H | left; exact H].
Qed.

Lemma asc_trans {A : Type} (key : A -> Q) (a b c : A) :
  SQL.asc key a b = true -> SQL.asc key b c = true -> SQL.asc key a c = true.
Proof.
  unfold SQL.asc. rewrite !Qle_bool_iff. apply Qle_trans.
Qed.

(** ** Facts about the three statements of the resolver *)

Lemma limit_one {A : Type} (l : list A) :
  SQL.limit 1 l = match l with [] => [] | x :: _ => [x] end.
Proof. destruct l; reflexivity. Qed.

Lemma exact_filter_spec (d t : Q) (e : vcftable.row) :
  Qeq_bool (vcftable.density e) d && Qeq_bool (vcftable.temperature e) t = true
  <-> at_key d t e.
Proof.
  unfold at_key. rewrite andb_true_iff, !Qeq_bool_iff. tauto.
Qed.

Lemma exactMatchQuery_nil (tbl : list vcftable.row) (d t : Q) :
  exactMatchQuery tbl d t = [] <-> forall e, In e tbl -> ~ at_key d t e.
Proof.
  unfold exactMatchQuery, SQL.where_. rewrite limit_one. split.
  - intros E e He Hk.
    destruct (filter _ tbl) as [|x l] eqn:F; [|discriminate].
    assert (Hin : In e []) by (rewrite <- F; apply filter_In; split;
      [exact He | apply exact_filter_spec, Hk]).
    destruct Hin.
  - intros Hno. destruct (filter _ tbl) as [|x l] eqn:F; [reflexivity|].
    exfalso. assert (Hin : In x (x :: l)) by (left; reflexivity).
    rewrite <- F in Hin. apply filter_In in Hin. destruct Hin as [Hx Hk].
    apply (Hno x Hx). apply exact_filter_spec, Hk.
Qed.

(** The row an exact match returns is the first row of the table at the
    key, in table order. *)
Lemma exactMatchQuery_cons (tbl : list vcftable.row) (d t : Q)
    (r : vcftable.row) (rest : list vcftable.row) :
  exactMatchQuery tbl d t = r :: rest ->
  rest = [] /\ In r tbl /\ at_key d t r.
Proof.
  unfold exactMatchQuery, SQL.where_. rewrite limit_one.
  destruct (filter _ tbl) as [|x l] eqn:F; [discriminate|].
  intros E. injection E as Ex Erest. subst x rest. split; [reflexivity|].
  assert (Hin : In r (r :: l)) by (left; reflexivity).
  rewrite <- F in Hin. apply filter_In in Hin. destruct Hin as [Hx Hk].
  split; [exact Hx | apply exact_filter_spec, Hk].
Qed.

Lemma closestDensityQuery_spec (tbl : list vcftable.row) (d : Q) :
  tbl <> [] ->
  exists r, closestDensityQuery tbl d = [r] /\ In r tbl /\
    forall x, In x tbl ->
      Qabs (vcftable.density r - d) <= Qabs (vcftable.density x - d).
Proof.
  intros Hne. unfold closestDensityQuery. rewrite limit_one.
  destruct (order_by_nonempty
              (SQL.asc (fun r => SQL.ABS (vcftable.density r - d))) tbl Hne)
    as (r & rest & E).
  rewrite E. exists r. split; [reflexivity|].
  destruct (order_by_head _ (asc_total _) (asc_trans _) _ _ _ E) as [Hin Hmin].
  split; [exact Hin|]. intros x Hx.
  apply Qle_bool_iff. exact (Hmin x Hx).
Qed.

Lemma closestDensityQuery_empty (d : Q) : closestDensityQuery [] d = [].
Proof. reflexivity. Qed.

Lemma closestTempQuery_spec (tbl : list vcftable.row) (d t : Q) (r : vcftable.row) :
  In r tbl -> vcftable.density r == d ->
  exists e, closestTempQuery tbl d t = [e] /\ In e tbl /\
    vcftable.density e == d /\
    forall y, In y tbl -> vcftable.density y == d ->
      Qabs (vcftable.temperature e - t) <= Qabs (vcftable.temperature y - t).
Proof.
  intros Hr Hd. unfold closestTempQuery, SQL.where_. rewrite limit_one.
  set (same := filter (fun r0 => Qeq_bool (vcftable.density r0) d) tbl).
  assert (Hsame : forall x, In x same <-> In x tbl /\ vcftable.density x == d).
  { intros x. unfold same. rewrite filter_In, Qeq_bool_iff. tauto. }
  assert (Hne : same <> []).
  { intros E. assert (Hin : In r same) by (apply Hsame; tauto).
    rewrite E in Hin. destruct Hin. }
  destruct (order_by_nonempty
              (SQL.asc (fun r0 => SQL.ABS (vcftable.temperature r0 - t))) same Hne)
    as (e & rest & E).
  rewrite E. exists e. split; [reflexivity|].
  destruct (order_by_head _ (asc_total _) (asc_trans _) _ _ _ E) as [Hin Hmin].
  apply Hsame in Hin. destruct Hin as [Hin He].
  split; [exact Hin|]. split; [exact He|].
  intros y Hy Hyd. apply Qle_bool_iff. apply (Hmin y). apply Hsame. tauto.
Qed.

Lemma closestTempQuery_empty (tbl : list vcftable.row) (d t : Q) :
  (forall r, In r tbl -> ~ vcftable.density r == d) ->
  closestTempQuery tbl d t = [].
Proof.
  intros Hno. unfold closestTempQuery, SQL.where_.
  replace (filter _ tbl) with (@nil vcftable.row); [reflexivity|].
  symmetry. induction tbl as [|x tbl IH]; [reflexivity|]. simpl.
  destruct (Qeq_bool (vcftable.density x) d) eqn:E.
  - exfalso. apply (Hno x); [left; reflexivity | apply Qeq_bool_iff, E].
  - apply IH. intros r Hr. apply Hno. right; exact Hr.
Qed.

(** The nearest-neighbour branch, reached when the exact match is empty. *)
Lemma closest_branch (tbl : list vcftable.row) (density temperature : Q) :
  tbl <> [] ->
  exactMatchQuery tbl (roundToNearest density (1 # 2))
    (roundToNearest temperature (1 # 4)) = [] ->
  exists r e,
    closestDensityQuery tbl (roundToNearest density (1 # 2)) = [r] /\
    closestTempQuery tbl (vcftable.density r)
      (roundToNearest temperature (1 # 4)) = [e] /\
    getVCFFromDatabase tbl density temperature
    = Ok {| vcf := vcftable.vcf e;
            usedDensity := vcftable.density r;
            usedTemp := vcftable.temperature e |}.
Proof.
  intros Hne Hex.
  destruct (closestDensityQuery_spec tbl (roundToNearest density (1 # 2)) Hne)
    as (r & Er & Hr & _).
  destruct (closestTempQuery_spec tbl (vcftable.density r)
              (roundToNearest temperature (1 # 4)) r Hr (Qeq_refl _))
    as (e & Ee & _).
  exists r, e. split; [exact Er|]. split; [exact Ee|].
  unfold getVCFFromDatabase. rewrite Hex, Er, Ee. reflexivity.
Qed.

(** ** The resolver *)

(** C1.  When the table is not empty and holds no row at the rounded grid
    point, the resolver answers with a row [e] of the table whose density
    is at the least distance from the rounded density among all rows, and
    whose temperature is at the least distance from the rounded
    temperature among the rows of that density; the answer carries the
    [vcf], the density and the temperature stored in [e]. *)
Theorem nearest_density_then_temperature
    (tbl : list vcftable.row) (density temperature : Q) :
  tbl <> [] ->
  (forall e, In e tbl ->
     ~ at_key (roundToNearest density (1 # 2))
         (roundToNearest temperature (1 # 4)) e) ->
  exists e res,
    In e tbl /\
    (forall x, In x tbl ->
       Qabs (vcftable.density e - roundToNearest density (1 # 2))
       <= Qabs (vcftable.density x - roundToNearest density (1 # 2))) /\
    (forall y, In y tbl -> vcftable.density y == vcftable.density e ->
       Qabs (vcftable.temperature e - roundToNearest temperature (1 # 4))
       <= Qabs (vcftable.temperature y - roundToNearest temperature (1 # 4))) /\
    getVCFFromDatabase tbl density temperature = Ok res /\
    vcf res = vcftable.vcf e /\
    usedDensity res == vcftable.density e /\
    usedTemp res = vcftable.temperature e.
Proof.
  intros Hne Hno.
  set (rd := roundToNearest density (1 # 2)) in *.
  set (rt := roundToNearest temperature (1 # 4)) in *.
  destruct (closestDensityQuery_spec tbl rd Hne) as (r & Er & Hr & Hrmin).
  destruct (closestTempQuery_spec tbl (vcftable.density r) rt r Hr (Qeq_refl _))
    as (e & Ee & He & Hed & Hemin).
  exists e.
  exists {| vcf := vcftable.vcf e;
            usedDensity := vcftable.density r;
            usedTemp := vcftable.temperature e |}.
  split; [exact He|]. split.
  { intros x Hx. rewrite Hed. apply Hrmin, Hx. }
  split.
  { intros y Hy Hyd. apply Hemin; [exact Hy|]. rewrite Hyd. exact Hed. }
  split.
  { unfold getVCFFromDatabase. fold rd rt.
    apply exactMatchQuery_nil in Hno. rewrite Hno, Er, Ee. reflexivity. }
  simpl. split; [reflexivity|]. split; [symmetry; exact Hed | reflexivity].
Qed.

Lemma nearest_density_then_temperature_witness :
  exists e res,
    In e [vcftable.mk 700 60 (9 # 10); vcftable.mk (1403 # 2) 20 (95 # 100)] /\
    getVCFFromDatabase
      [vcftable.mk 700 60 (9 # 10); vcftable.mk (1403 # 2) 20 (95 # 100)]
      (7004 # 10) 20 = Ok res /\
    vcf res = vcftable.vcf e.
Proof.
  destruct (nearest_density_then_temperature
              [vcftable.mk 700 60 (9 # 10); vcftable.mk (1403 # 2) 20 (95 # 100)]
              (7004 # 10) 20) as (e & res & He & _ & _ & Hres & Hv & _).
  - discriminate.
  - intros e [<-|[<-|[]]]; unfold at_key; simpl; intros [H1 H2];
      vm_compute in H1, H2; discriminate.
  - exists e, res. split; [exact He|]. split; [exact Hres | exact Hv].
Defined.

(** The two stages are not a nearest neighbour in the plane: the row the
    resolver picks can be much farther from the rounded point than
    another row of the table. *)
Example two_stage_is_not_planar_nearest :
  let tbl := [vcftable.mk 700 60 (9 # 10); vcftable.mk (1403 # 2) 20 (95 # 100)] in
  getVCFFromDatabase tbl (7004 # 10) 20
  = Ok {| vcf := 9 # 10; usedDensity := 700; usedTemp := 60 |}
  /\ roundToNearest (7004 # 10) (1 # 2) == 1401 # 2
  /\ (((1403 # 2) - (1401 # 2)) ^ 2 + (20 - 20) ^ 2
      < (700 - (1401 # 2)) ^ 2 + (60 - 20) ^ 2).
Proof.
  split; [reflexivity|]. split; reflexivity.
Qed.

(** C3.  When the table holds a row at the rounded grid point, the
    resolver answers with the [vcf] of a row [e0] at that point (the row
    [e] itself when no other row shares its key) and with the rounded
    inputs as [usedDensity] and [usedTemp]; the answer is the one the
    table reduced to that single row gives, so no other row has a part in
    it. *)
Theorem exact_match_returned_verbatim
    (tbl : list vcftable.row) (density temperature : Q) (e : vcftable.row) :
  In e tbl ->
  at_key (roundToNearest density (1 # 2)) (roundToNearest temperature (1 # 4)) e ->
  exists e0,
    In e0 tbl /\
    at_key (roundToNearest density (1 # 2)) (roundToNearest temperature (1 # 4)) e0 /\
    getVCFFromDatabase tbl density temperature
    = Ok {| vcf := vcftable.vcf e0;
            usedDensity := roundToNearest density (1 # 2);
            usedTemp := roundToNearest temperature (1 # 4) |} /\
    getVCFFromDatabase tbl density temperature
    = getVCFFromDatabase [e0] density temperature /\
    ((forall e', In e' tbl ->
        at_key (roundToNearest density (1 # 2))
          (roundToNearest temperature (1 # 4)) e' -> e' = e) ->
     e0 = e).
Proof.
  intros He Hk.
  set (rd := roundToNearest density (1 # 2)) in *.
  set (rt := roundToNearest temperature (1 # 4)) in *.
  destruct (exactMatchQuery tbl rd rt) as [|e0 rest] eqn:E.
  - exfalso. rewrite exactMatchQuery_nil in E. exact (E e He Hk).
  - destruct (exactMatchQuery_cons _ _ _ _ _ E) as (-> & He0 & Hk0).
    exists e0. split; [exact He0|]. split; [exact Hk0|].
    assert (E1 : exactMatchQuery [e0] rd rt = [e0]).
    { unfold exactMatchQuery, SQL.where_. simpl.
      apply exact_filter_spec in Hk0. rewrite Hk0. reflexivity. }
    split; [|split].
    + unfold getVCFFromDatabase. fold rd rt. rewrite E. reflexivity.
    + unfold getVCFFromDatabase. fold rd rt. rewrite E, E1. reflexivity.
    + intros Huniq. apply Huniq; assumption.
Qed.

Lemma exact_match_returned_verbatim_witness :
  getVCFFromDatabase
    [vcftable.mk 700 20 1; vcftable.mk (1701 # 2) (81 # 4) (98 # 100)]
    (85026 # 100) (203 # 10)
  = Ok {| vcf := 98 # 100;
          usedDensity := roundToNearest (85026 # 100) (1 # 2);
          usedTemp := roundToNearest (203 # 10) (1 # 4) |}.
Proof.
  destruct (exact_match_returned_verbatim
              [vcftable.mk 700 20 1; vcftable.mk (1701 # 2) (81 # 4) (98 # 100)]
              (85026 # 100) (203 # 10)
              (vcftable.mk (1701 # 2) (81 # 4) (98 # 100)))
    as (e0 & He0 & _ & Hres & _ & Huniq).
  - right; left; reflexivity.
  - split; reflexivity.
  - rewrite Hres. rewrite Huniq; [reflexivity|].
    intros e' [<-|[<-|[]]] [H1 H2]; [vm_compute in H1; discriminate | reflexivity].
Defined.

(** C10.  On a table that is not empty the resolver always answers: the
    closest-density statement returns a row of the table, the
    closest-temperature statement over the rows of that density returns a
    row, and so the not-found failure is not reached. *)
Theorem resolver_answers_on_nonempty_table
    (tbl : list vcftable.row) (density temperature : Q) :
  tbl <> [] ->
  (exists res, getVCFFromDatabase tbl density temperature = Ok res) /\
  (exists r e,
     closestDensityQuery tbl (roundToNearest density (1 # 2)) = [r] /\
     In r tbl /\
     closestTempQuery tbl (vcftable.density r)
       (roundToNearest temperature (1 # 4)) = [e]).
Proof.
  intros Hne. split.
  - destruct (exactMatchQuery tbl (roundToNearest density (1 # 2))
                (roundToNearest temperature (1 # 4))) as [|e0 rest] eqn:E.
    + destruct (closest_branch tbl density temperature Hne E) as (r & e & _ & _ & H).
      eexists; exact H.
    + unfold getVCFFromDatabase. rewrite E. eexists; reflexivity.
  - destruct (closestDensityQuery_spec tbl (roundToNearest density (1 # 2)) Hne)
      as (r & Er & Hr & _).
    destruct (closestTempQuery_spec tbl (vcftable.density r)
                (roundToNearest temperature (1 # 4)) r Hr (Qeq_refl _))
      as (e & Ee & _).
    exists r, e. split; [exact Er|]. split; [exact Hr | exact Ee].
Qed.

Lemma resolver_answers_on_nonempty_table_witness :
  exists res,
    getVCFFromDatabase [vcftable.mk 900 15 (1003 # 1000)] 850 (- (81 # 8)) = Ok res.
Proof.
  apply (resolver_answers_on_nonempty_table
           [vcftable.mk 900 15 (1003 # 1000)] 850 (- (81 # 8))).
  discriminate.
Defined.

(** The not-found failure is the answer on the empty table, and on no
    other. *)
Lemma not_found_only_on_empty_table
    (tbl : list vcftable.row) (density temperature : Q) :
  (exists message, getVCFFromDatabase tbl density temperature = Error message)
  <-> tbl = [].
Proof.
  split.
  - intros [message E]. destruct tbl as [|x tbl]; [reflexivity|].
    destruct (exactMatchQuery (x :: tbl) (roundToNearest density (1 # 2))
                (roundToNearest temperature (1 # 4))) as [|e0 rest] eqn:Ex.
    + destruct (closest_branch (x :: tbl) density temperature) as (r & e & _ & _ & H);
        [discriminate | exact Ex | congruence].
    + unfold getVCFFromDatabase in E. rewrite Ex in E. discriminate.
  - intros ->. exists not_found. reflexivity.
Qed.

(** ** Rounding to the grid *)

Lemma Qfloor_unique (x : Q) (a : Z) :
  inject_Z a <= x -> x < inject_Z (a + 1) -> Qfloor x = a.
Proof.
  intros Hlo Hhi.
  pose proof (Qfloor_le x) as H1. pose proof (Qlt_floor x) as H2.
  assert (L1 : inject_Z a < inject_Z (Qfloor x + 1)) by (eapply Qle_lt_trans; eassumption).
  assert (L2 : inject_Z (Qfloor x) < inject_Z (a + 1)) by (eapply Qle_lt_trans; eassumption).
  rewrite <- Zlt_Qlt in L1, L2. lia.
Qed.

Lemma Math_round_integer (k : Z) : JS.Math_round (inject_Z k) = k.
Proof.
  unfold JS.Math_round. apply Qfloor_unique.
  - lra.
  - rewrite inject_Z_plus. change (inject_Z 1) with 1. lra.
Qed.

Lemma roundToNearest_bounds (value step : Q) :
  0 < step ->
  value - step * (1 # 2) < roundToNearest value step
  /\ roundToNearest value step <= value + step * (1 # 2).
Proof.
  intros Hs. unfold roundToNearest, JS.Math_round.
  set (x := value / step + (1 # 2)).
  pose proof (Qfloor_le x) as H1. pose proof (Qlt_floor x) as H2.
  rewrite inject_Z_plus in H2. change (inject_Z 1) with 1 in H2.
  assert (Hx : x * step == value + step * (1 # 2)).
  { unfold x. field. intros E. rewrite E in Hs. revert Hs. apply Qlt_irrefl. }
  split.
  - apply (Qmult_lt_r _ _ step Hs) in H2.
    rewrite Hx in H2.
    assert (E : (inject_Z (Qfloor x) + 1) * step
                == inject_Z (Qfloor x) * step + step) by ring.
    rewrite E in H2. lra.
  - apply (Qmult_le_r _ _ step Hs) in H1. rewrite Hx in H1. exact H1.
Qed.

Lemma roundToNearest_idempotent (value step : Q) :
  ~ step == 0 ->
  roundToNearest (roundToNearest value step) step = roundToNearest value step.
Proof.
  intros Hs. unfold roundToNearest at 1 3.
  set (k := JS.Math_round (value / step)).
  f_equal. f_equal.
  transitivity (JS.Math_round (inject_Z k)); [|apply Math_round_integer].
  unfold JS.Math_round. apply Qfloor_comp.
  unfold roundToNearest. fold k. field. exact Hs.
Qed.

Lemma Math_round_half_away (x : Q) :
  0 <= x \/ ~ (exists k : Z, x == inject_Z k + (1 # 2)) ->
  round_half_away_from_zero x = JS.Math_round x.
Proof.
  intros H. unfold round_half_away_from_zero, JS.Math_round.
  destruct (Qle_bool 0 x) eqn:E; [reflexivity|].
  destruct H as [H|H]; [apply Qle_bool_iff in H; congruence|].
  set (f := Qfloor (x + (1 # 2))).
  pose proof (Qfloor_le (x + (1 # 2))) as H1.
  pose proof (Qlt_floor (x + (1 # 2))) as H2.
  fold f in H1, H2.
  rewrite inject_Z_plus in H2. change (inject_Z 1) with 1 in H2.
  assert (Hne : ~ inject_Z f == x + (1 # 2)).
  { intros Eq. apply H. exists (f - 1)%Z.
    unfold Z.sub. rewrite inject_Z_plus, inject_Z_opp.
    change (inject_Z 1) with 1. lra. }
  assert (Hlt : inject_Z f < x + (1 # 2)).
  { apply Qle_lteq in H1. destruct H1 as [H1|H1]; [exact H1 | contradiction]. }
  assert (F : Qfloor (- x + (1 # 2)) = (- f)%Z).
  { apply Qfloor_unique.
    - rewrite inject_Z_opp. lra.
    - rewrite inject_Z_plus, inject_Z_opp. change (inject_Z 1) with 1. lra. }
  rewrite F. lia.
Qed.

(** C2, as the code has it.  The resolver looks up nothing but the
    rounded pair: its answer is the one it gives on the rounded inputs.
    The rounded density is a multiple of 0.5 and the rounded temperature
    a multiple of 0.25, each within half a step of the input, and an
    input exactly halfway between two grid points goes to the larger one.
    That is rounding half away from zero for every input that is not
    negative and for every input that is not a tie; a negative tie goes
    toward zero. *)
Theorem rounding_before_lookup
    (tbl : list vcftable.row) (density temperature : Q) :
  getVCFFromDatabase tbl density temperature
  = getVCFFromDatabase tbl (roundToNearest density (1 # 2))
      (roundToNearest temperature (1 # 4))
  /\ (exists k : Z, roundToNearest density (1 # 2) = inject_Z k * (1 # 2))
  /\ (exists k : Z, roundToNearest temperature (1 # 4) = inject_Z k * (1 # 4))
  /\ (density - (1 # 4) < roundToNearest density (1 # 2)
      /\ roundToNearest density (1 # 2) <= density + (1 # 4))
  /\ (temperature - (1 # 8) < roundToNearest temperature (1 # 4)
      /\ roundToNearest temperature (1 # 4) <= temperature + (1 # 8))
  /\ (0 <= density \/ ~ grid_tie density (1 # 2) ->
      roundToNearest density (1 # 2) = spec_roundToGrid density (1 # 2))
  /\ (0 <= temperature \/ ~ grid_tie temperature (1 # 4) ->
      roundToNearest temperature (1 # 4) = spec_roundToGrid temperature (1 # 4)).
Proof.
  split.
  { unfold getVCFFromDatabase.
    rewrite !roundToNearest_idempotent by (intros E; discriminate E).
    reflexivity. }
  split; [eexists; reflexivity|]. split; [eexists; reflexivity|].
  split.
  { destruct (roundToNearest_bounds density (1 # 2)) as [H1 H2]; [reflexivity|].
    split; lra. }
  split.
  { destruct (roundToNearest_bounds temperature (1 # 4)) as [H1 H2]; [reflexivity|].
    split; lra. }
  split.
  - intros H. unfold spec_roundToGrid, roundToNearest.
    rewrite Math_round_half_away; [reflexivity|].
    destruct H as [H|H]; [left | right; exact H].
    unfold Qdiv. apply Qmult_le_0_compat; [exact H | discriminate].
  - intros H. unfold spec_roundToGrid, roundToNearest.
    rewrite Math_round_half_away; [reflexivity|].
    destruct H as [H|H]; [left | right; exact H].
    unfold Qdiv. apply Qmult_le_0_compat; [exact H | discriminate].
Qed.

Lemma rounding_before_lookup_witness :
  roundToNearest (85026 # 100) (1 # 2) = spec_roundToGrid (85026 # 100) (1 # 2)
  /\ roundToNearest (1 # 8) (1 # 4) = spec_roundToGrid (1 # 8) (1 # 4).
Proof.
  split.
  - apply (rounding_before_lookup [] (85026 # 100) (1 # 8)).
    left. discriminate.
  - apply (rounding_before_lookup [] (85026 # 100) (1 # 8)).
    left. discriminate.
Defined.

(** C2, as the specification words it, fails at the temperature -10.125: half away
    from zero gives -10.25, the resolver uses -10 and answers with the
    row stored there. *)
Lemma negative_tie_rounds_toward_zero :
  ~ roundToNearest (- (81 # 8)) (1 # 4) == spec_roundToGrid (- (81 # 8)) (1 # 4)
  /\ roundToNearest (- (81 # 8)) (1 # 4) == - (10)
  /\ spec_roundToGrid (- (81 # 8)) (1 # 4) == - (41 # 4)
  /\ getVCFFromDatabase
       [vcftable.mk 850 (- (41 # 4)) (1008 # 1000); vcftable.mk 850 (- (10)) (1007 # 1000)]
       850 (- (81 # 8))
     = Ok {| vcf := 1007 # 1000;
             usedDensity := roundToNearest 850 (1 # 2);
             usedTemp := roundToNearest (- (81 # 8)) (1 # 4) |}.
Proof.
  split; [intros H; vm_compute in H; discriminate|].
  split; [reflexivity|]. split; reflexivity.
Qed.

(** ** Decimal columns *)

Lemma round_numeric_comp (x y : Q) :
  x == y -> SQL.round_numeric x = SQL.round_numeric y.
Proof.
  intros E. unfold SQL.round_numeric.
  assert (B : Qle_bool 0 x = Qle_bool 0 y).
  { apply eq_true_iff_eq. rewrite !Qle_bool_iff, E. tauto. }
  rewrite B. destruct (Qle_bool 0 y).
  - apply Qfloor_comp. rewrite E. reflexivity.
  - apply Qceiling_comp. rewrite E. reflexivity.
Qed.

Lemma round_numeric_integer (k : Z) : SQL.round_numeric (inject_Z k) = k.
Proof.
  unfold SQL.round_numeric. destruct (Qle_bool 0 (inject_Z k)).
  - apply Math_round_integer.
  - unfold Qceiling.
    assert (F : Qfloor (- (inject_Z k - (1 # 2))) = (- k)%Z).
    { apply Qfloor_unique.
      - rewrite inject_Z_opp. lra.
      - rewrite inject_Z_plus, inject_Z_opp. change (inject_Z 1) with 1. lra. }
    rewrite F. lia.
Qed.

Lemma DECIMAL_value (p s : nat) (x y : Q) :
  SQL.DECIMAL p s x = Ok y ->
  y = SQL.unscaled s x # Z.to_pos (10 ^ Z.of_nat s).
Proof.
  unfold SQL.DECIMAL. destruct (_ <? _)%Z; [|discriminate].
  intros E. injection E as <-. reflexivity.
Qed.

(** A value that has no more than [s] fractional digits is stored as it
    is. *)
Lemma DECIMAL_exact (p s : nat) (x y : Q) (k : Z) :
  x == k # Z.to_pos (10 ^ Z.of_nat s) ->
  SQL.DECIMAL p s x = Ok y -> y == x.
Proof.
  intros Hx E. apply DECIMAL_value in E. subst y.
  assert (Hpos : (0 < 10 ^ Z.of_nat s)%Z) by (apply Z.pow_pos_nonneg; lia).
  assert (U : SQL.unscaled s x = k).
  { unfold SQL.unscaled.
    rewrite (round_numeric_comp _ (inject_Z k)); [apply round_numeric_integer|].
    rewrite Hx. unfold Qeq, Qmult, inject_Z. simpl.
    rewrite Pos.mul_1_r, Z2Pos.id by exact Hpos. ring. }
  rewrite U, Hx. reflexivity.
Qed.

Lemma insert_row_ok (now : SQL.timestamp) (db db' : database)
    (volume density temperature vcf0 ud ut tonnage : Q) (row : oil_tonnages.row) :
  insert_row now db volume density temperature vcf0 ud ut tonnage = (Ok row, db') ->
  oil_tonnages_rows db' = oil_tonnages_rows db ++ [row]
  /\ vcftable_rows db' = vcftable_rows db
  /\ oil_tonnages.id row = oil_tonnages_id_seq db
  /\ oil_tonnages_id_seq db' = (oil_tonnages_id_seq db + 1)%Z
  /\ oil_tonnages.created_at row = now
  /\ SQL.DECIMAL 15 2 volume = Ok (oil_tonnages.volume row)
  /\ SQL.DECIMAL 8 2 density = Ok (oil_tonnages.density row)
  /\ SQL.DECIMAL 6 2 temperature = Ok (oil_tonnages.temperature row)
  /\ SQL.DECIMAL 10 6 vcf0 = Ok (oil_tonnages.vcf row)
  /\ SQL.DECIMAL 8 2 ud = Ok (oil_tonnages.used_density row)
  /\ SQL.DECIMAL 6 2 ut = Ok (oil_tonnages.used_temperature row)
  /\ SQL.DECIMAL 15 8 tonnage = Ok (oil_tonnages.tonnage row).
Proof.
  unfold insert_row.
  destruct (SQL.DECIMAL 15 2 volume) as [c1|]; [|discriminate].
  destruct (SQL.DECIMAL 8 2 density) as [c2|]; [|discriminate].
  destruct (SQL.DECIMAL 6 2 temperature) as [c3|]; [|discriminate].
  destruct (SQL.DECIMAL 10 6 vcf0) as [c4|]; [|discriminate].
  destruct (SQL.DECIMAL 8 2 ud) as [c5|]; [|discriminate].
  destruct (SQL.DECIMAL 6 2 ut) as [c6|]; [|discriminate].
  destruct (SQL.DECIMAL 15 8 tonnage) as [c7|]; [|discriminate].
  simpl. destruct (SQL.integer (oil_tonnages_id_seq db)); [|discriminate].
  intros E. injection E as <- <-. simpl. repeat split; reflexivity.
Qed.

(** The id of an inserted row is a value of the [integer] type. *)
Lemma insert_row_integer (now : SQL.timestamp) (db db' : database)
    (volume density temperature vcf0 ud ut tonnage : Q) (row : oil_tonnages.row) :
  insert_row now db volume density temperature vcf0 ud ut tonnage = (Ok row, db') ->
  SQL.integer (oil_tonnages.id row) = true.
Proof.
  unfold insert_row.
  destruct (SQL.DECIMAL 15 2 volume) as [c1|]; [|discriminate].
  destruct (SQL.DECIMAL 8 2 density) as [c2|]; [|discriminate].
  destruct (SQL.DECIMAL 6 2 temperature) as [c3|]; [|discriminate].
  destruct (SQL.DECIMAL 10 6 vcf0) as [c4|]; [|discriminate].
  destruct (SQL.DECIMAL 8 2 ud) as [c5|]; [|discriminate].
  destruct (SQL.DECIMAL 6 2 ut) as [c6|]; [|discriminate].
  destruct (SQL.DECIMAL 15 8 tonnage) as [c7|]; [|discriminate].
  simpl. destruct (SQL.integer (oil_tonnages_id_seq db)) eqn:R; [|discriminate].
  intros E. injection E as <- _. exact R.
Qed.

Lemma insert_row_error (now : SQL.timestamp) (db db' : database)
    (volume density temperature vcf0 ud ut tonnage : Q) (message : string) :
  insert_row now db volume density temperature vcf0 ud ut tonnage
  = (Error message, db') ->
  db' = db.
Proof.
  unfold insert_row.
  destruct (_ <- SQL.DECIMAL 15 2 volume ;; _); [discriminate|].
  intros E. injection E as _ <-. reflexivity.
Qed.

(** After the validation the three fields are numbers in their ranges. *)
Lemma validateCalculationInput_ok (body : calculate_body) :
  validateCalculationInput body = [] ->
  exists volume density temperature,
    body_volume body = Some volume /\ body_density body = Some density
    /\ body_temperature body = Some temperature
    /\ 0 < volume /\ 700 <= density <= 1000 /\ -20 <= temperature <= 60.
Proof.
  unfold validateCalculationInput, volume_errors, density_errors, temperature_errors.
  destruct (body_volume body) as [v|]; [|discriminate].
  destruct (body_density body) as [d|];
    [|destruct (Qle_bool v 0); discriminate].
  destruct (body_temperature body) as [t|];
    [|destruct (Qle_bool v 0); destruct (negb _ || negb _); discriminate].
  destruct (Qle_bool v 0) eqn:Ev; [discriminate|].
  destruct (Qle_bool 700 d) eqn:Ed1; [|discriminate].
  destruct (Qle_bool d 1000) eqn:Ed2; [|discriminate].
  destruct (Qle_bool (-20) t) eqn:Et1; [|discriminate].
  destruct (Qle_bool t 60) eqn:Et2; [|discriminate].
  intros _. exists v, d, t.
  apply Qle_bool_iff in Ed1, Ed2, Et1, Et2.
  repeat split; try assumption.
  apply Qnot_le_lt. intros H. apply Qle_bool_iff in H. congruence.
Qed.

(** ** The calculate operation *)

Lemma post_calculate_validated (now : SQL.timestamp) (db : database)
    (body : calculate_body) (volume density temperature : Q) :
  validateCalculationInput body = [] ->
  body_volume body = Some volume -> body_density body = Some density ->
  body_temperature body = Some temperature ->
  post_calculate now db body = calculate now db volume density temperature.
Proof.
  intros V E1 E2 E3. unfold post_calculate. rewrite V, E1, E2, E3. reflexivity.
Qed.

Lemma post_calculate_success (now : SQL.timestamp) (db db' : database)
    (body : calculate_body) (data : calculation) :
  post_calculate now db body = (Status200 data, db') ->
  exists volume density temperature,
    body_volume body = Some volume /\ body_density body = Some density
    /\ body_temperature body = Some temperature
    /\ calculate now db volume density temperature = (Status200 data, db').
Proof.
  intros E. destruct (validateCalculationInput body) as [|m details] eqn:V.
  - destruct (validateCalculationInput_ok body V)
      as (v & d & t & E1 & E2 & E3 & _).
    exists v, d, t. rewrite <- E. repeat split; try assumption.
    symmetry. apply post_calculate_validated; assumption.
  - unfold post_calculate in E. rewrite V in E. discriminate.
Qed.

Lemma calculate_success (now : SQL.timestamp) (db db' : database)
    (volume density temperature : Q) (data : calculation) :
  calculate now db volume density temperature = (Status200 data, db') ->
  exists res tonnage row,
    getVCFFromDatabase (vcftable_rows db) density temperature = Ok res
    /\ compute volume density (vcf res) = Some tonnage
    /\ insert_row now db volume density temperature (vcf res) (usedDensity res)
         (usedTemp res) tonnage = (Ok row, db')
    /\ data = {| data_id := oil_tonnages.id row;
                 data_volume := volume;
                 data_density := density;
                 data_temperature := temperature;
                 data_vcf := vcf res;
                 data_usedDensity := usedDensity res;
                 data_usedTemp := usedTemp res;
                 data_tonnage := tonnage;
                 data_timestamp := to_Date (oil_tonnages.created_at row) |}.
Proof.
  unfold calculate.
  destruct (getVCFFromDatabase (vcftable_rows db) density temperature) as [res|];
    [|discriminate].
  destruct (compute volume density (vcf res)) as [tonnage|] eqn:T; [|discriminate].
  destruct (insert_row now db volume density temperature (vcf res)
              (usedDensity res) (usedTemp res) tonnage)
    as [[row|] db1] eqn:I; [|discriminate].
  intros E. injection E as <- <-. exists res, tonnage, row.
  split; [reflexivity|]. split; [exact T|]. split; [exact I | reflexivity].
Qed.

Lemma round_numeric_close (z : Q) :
  - (1 # 2) <= inject_Z (SQL.round_numeric z) - z <= 1 # 2.
Proof.
  unfold SQL.round_numeric. destruct (Qle_bool 0 z).
  - pose proof (Qfloor_le (z + (1 # 2))) as H1.
    pose proof (Qlt_floor (z + (1 # 2))) as H2.
    rewrite inject_Z_plus in H2. change (inject_Z 1) with 1 in H2.
    split; lra.
  - pose proof (Qle_ceiling (z - (1 # 2))) as H1.
    pose proof (Qceiling_lt (z - (1 # 2))) as H2.
    unfold Z.sub in H2. rewrite inject_Z_plus, inject_Z_opp in H2.
    change (inject_Z 1) with 1 in H2.
    split; lra.
Qed.

Lemma scaled_numerator (n P : Z) :
  (0 < P)%Z -> (n # Z.to_pos P) * inject_Z P == inject_Z n.
Proof.
  intros HP. unfold Qeq, Qmult, inject_Z. simpl.
  rewrite Pos.mul_1_r, Z2Pos.id by exact HP. ring.
Qed.

(** What a decimal column keeps of a value is off by at most half a unit
    of its last digit. *)
Lemma DECIMAL_close (p s : nat) (x y : Q) :
  SQL.DECIMAL p s x = Ok y ->
  Qabs (y - x) * inject_Z (10 ^ Z.of_nat s) <= 1 # 2.
Proof.
  intros E. apply DECIMAL_value in E. subst y.
  assert (HP : (0 < 10 ^ Z.of_nat s)%Z) by (apply Z.pow_pos_nonneg; lia).
  set (P := (10 ^ Z.of_nat s)%Z) in *.
  assert (HQ : 0 <= inject_Z P).
  { change 0 with (inject_Z 0). rewrite <- Zle_Qle. lia. }
  assert (A : Qabs (((SQL.unscaled s x # Z.to_pos P) - x) * inject_Z P)
              == Qabs ((SQL.unscaled s x # Z.to_pos P) - x) * inject_Z P).
  { rewrite Qabs_Qmult, (Qabs_pos (inject_Z P) HQ). reflexivity. }
  rewrite <- A.
  assert (E : ((SQL.unscaled s x # Z.to_pos P) - x) * inject_Z P
              == inject_Z (SQL.unscaled s x) - x * inject_Z P).
  { rewrite <- (scaled_numerator (SQL.unscaled s x) P HP). ring. }
  rewrite E. apply Qabs_Qle_condition.
  unfold SQL.unscaled. fold P.
  destruct (round_numeric_close (x * inject_Z P)) as [H1 H2]. split; assumption.
Qed.

(** The rounding of a decimal column: to the nearest number of its
    scale, a tie going away from zero. *)
Lemma round_numeric_tie (z : Q) :
  (0 <= z -> - (1 # 2) < inject_Z (SQL.round_numeric z) - z <= 1 # 2)
  /\ (z < 0 -> - (1 # 2) <= inject_Z (SQL.round_numeric z) - z < 1 # 2).
Proof.
  unfold SQL.round_numeric. split; intros Hz.
  - assert (P : Qle_bool 0 z = true) by (apply Qle_bool_iff; exact Hz).
    rewrite P.
    pose proof (Qfloor_le (z + (1 # 2))) as H1.
    pose proof (Qlt_floor (z + (1 # 2))) as H2.
    rewrite inject_Z_plus in H2. change (inject_Z 1) with 1 in H2.
    split; lra.
  - assert (P : Qle_bool 0 z = false).
    { destruct (Qle_bool 0 z) eqn:B; [|reflexivity].
      apply Qle_bool_iff in B. lra. }
    rewrite P.
    pose proof (Qle_ceiling (z - (1 # 2))) as H1.
    pose proof (Qceiling_lt (z - (1 # 2))) as H2.
    unfold Z.sub in H2. rewrite inject_Z_plus, inject_Z_opp in H2.
    change (inject_Z 1) with 1 in H2.
    split; lra.
Qed.

Lemma DECIMAL_tie (p s : nat) (x y : Q) :
  SQL.DECIMAL p s x = Ok y ->
  (0 <= x -> - (1 # 2) < (y - x) * inject_Z (10 ^ Z.of_nat s) <= 1 # 2)
  /\ (x < 0 -> - (1 # 2) <= (y - x) * inject_Z (10 ^ Z.of_nat s) < 1 # 2).
Proof.
  intros E. apply DECIMAL_value in E. subst y.
  assert (HP : (0 < 10 ^ Z.of_nat s)%Z) by (apply Z.pow_pos_nonneg; lia).
  set (P := (10 ^ Z.of_nat s)%Z) in *.
  assert (HQ : 0 < inject_Z P).
  { change 0 with (inject_Z 0). rewrite <- Zlt_Qlt. exact HP. }
  assert (E : ((SQL.unscaled s x # Z.to_pos P) - x) * inject_Z P
              == inject_Z (SQL.unscaled s x) - x * inject_Z P).
  { rewrite <- (scaled_numerator (SQL.unscaled s x) P HP). ring. }
  rewrite E. unfold SQL.unscaled. fold P.
  destruct (round_numeric_tie (x * inject_Z P)) as [H1 H2].
  split; intros Hx.
  - apply H1. apply Qmult_le_0_compat; [exact Hx | apply Qlt_le_weak, HQ].
  - apply H2. setoid_replace 0 with (0 * inject_Z P) by ring.
    apply Qmult_lt_compat_r; assumption.
Qed.

(** C4, as the code has it.  On every successful calculate operation the
    tonnage returned is [volume * density * vcf / 1000000] evaluated on
    binary64 values, each product and the quotient rounded to the nearest
    double, on the volume and the density of the request (not on the
    density used for the lookup) and the resolved vcf.  The row appended
    to the history holds that value brought to the type of its column,
    [DECIMAL(15,8)]: a number of eight fractional digits, the nearest one,
    a tie going away from zero; the stored tonnage equals the returned
    one whenever that has no more than eight fractional digits.  And
    [compute(1000, 850, 1.0)] is 0.85, as a decimal and as a double. *)
Theorem tonnage_returned_exact_and_stored_to_scale :
  (forall (now : SQL.timestamp) (db db' : database) (body : calculate_body)
          (data : calculation),
      post_calculate now db body = (Status200 data, db') ->
      body_volume body = Some (data_volume data)
      /\ body_density body = Some (data_density data)
      /\ compute (data_volume data) (data_density data) (data_vcf data)
         = Some (data_tonnage data)
      /\ exists row,
           oil_tonnages_rows db' = oil_tonnages_rows db ++ [row]
           /\ (exists k : Z, oil_tonnages.tonnage row = k # 100000000)
           /\ (0 <= data_tonnage data ->
               data_tonnage data - (1 # 200000000) < oil_tonnages.tonnage row
               /\ oil_tonnages.tonnage row
                  <= data_tonnage data + (1 # 200000000))
           /\ (data_tonnage data < 0 ->
               data_tonnage data - (1 # 200000000) <= oil_tonnages.tonnage row
               /\ oil_tonnages.tonnage row
                  < data_tonnage data + (1 # 200000000))
           /\ ((exists k : Z, data_tonnage data == k # 100000000) ->
               oil_tonnages.tonnage row == data_tonnage data))
  /\ (exists tonnage, compute 1000 850 1 = Some tonnage /\ tonnage == 85 # 100)
  /\ PrimFloat.eqb (compute_binary64 1000 850 1) 0.85 = true.
Proof.
  split;
    [|split; [exists (17 # 20); split; [vm_compute|]; reflexivity
             | vm_compute; reflexivity]].
  intros now db db' body data E.
  destruct (post_calculate_success _ _ _ _ _ E) as (v & d & t & E1 & E2 & _ & C).
  destruct (calculate_success _ _ _ _ _ _ _ C) as (res & n & row & _ & T & I & ->).
  cbn [data_volume data_density data_vcf data_tonnage].
  split; [exact E1|]. split; [exact E2|]. split; [exact T|].
  apply insert_row_ok in I.
  destruct I as (Hrows & _ & _ & _ & _ & _ & _ & _ & _ & _ & _ & Ht).
  exists row. split; [exact Hrows|].
  destruct (DECIMAL_tie _ _ _ _ Ht) as [Hpos Hneg].
  change (inject_Z (10 ^ Z.of_nat 8)) with 100000000 in Hpos, Hneg.
  split; [|split; [|split]].
  - exists (SQL.unscaled 8 n). apply DECIMAL_value in Ht. exact Ht.
  - intros H. specialize (Hpos H). split; lra.
  - intros H. specialize (Hneg H). split; lra.
  - intros [k Hk]. exact (DECIMAL_exact 15 8 _ _ k Hk Ht).
Qed.

Lemma tonnage_returned_exact_and_stored_to_scale_witness :
  compute 2500 890 (95 # 100) = Some (1691 # 800)
  /\ exists row k, oil_tonnages.tonnage row = k # 100000000.
Proof.
  destruct tonnage_returned_exact_and_stored_to_scale as [H _].
  destruct (H (SQL.mkTimestamp 2025 8 5 17 8 20 0)
              (mkDatabase [vcftable.mk 890 30 (95 # 100)] [] 1)
              (snd (post_calculate (SQL.mkTimestamp 2025 8 5 17 8 20 0)
                      (mkDatabase [vcftable.mk 890 30 (95 # 100)] [] 1)
                      (mkBody (Some 2500) (Some 890) (Some 30))))
              (mkBody (Some 2500) (Some 890) (Some 30))
              {| data_id := 1; data_volume := 2500; data_density := 890;
                 data_temperature := 30; data_vcf := 95 # 100;
                 data_usedDensity := roundToNearest 890 (1 # 2);
                 data_usedTemp := roundToNearest 30 (1 # 4);
                 data_tonnage := 1691 # 800;
                 data_timestamp := SQL.mkTimestamp 2025 8 5 17 8 20 0 |})
    as (_ & _ & T & row & _ & (k & Hk) & _).
  - vm_compute. reflexivity.
  - split; [exact T|]. exists row, k. exact Hk.
Defined.

(** C4, as the specification words it, fails for the returned and for the
    stored tonnage: with a vcf of 0.9875 the request (196, 900.5, 20),
    whose exact product is 0.174291775, is answered 0.17429177499999998,
    the value of the formula on doubles, and the history holds
    0.17429177. *)
Lemma tonnage_is_not_the_exact_product :
  exists data row db',
    post_calculate (SQL.mkTimestamp 2025 8 5 17 8 20 0)
      (mkDatabase [vcftable.mk (9005 # 10) 20 (9875 # 10000)] [] 1)
      (mkBody (Some 196) (Some (9005 # 10)) (Some 20)) = (Status200 data, db')
    /\ oil_tonnages_rows db' = [row]
    /\ exact_tonnage (data_volume data) (data_density data) (data_vcf data)
       == 174291775 # 1000000000
    /\ data_tonnage data == 17429177499999998 # 100000000000000000
    /\ oil_tonnages.tonnage row == 17429177 # 100000000
    /\ ~ data_tonnage data
         == exact_tonnage (data_volume data) (data_density data) (data_vcf data)
    /\ ~ oil_tonnages.tonnage row
         == exact_tonnage (data_volume data) (data_density data) (data_vcf data).
Proof.
  eexists. eexists. eexists.
  split; [vm_compute; reflexivity|].
  split; [reflexivity|].
  split; [reflexivity|]. split; [reflexivity|]. split; [reflexivity|].
  split; intros H; vm_compute in H; discriminate.
Qed.

(** C5.  When the resolver fails for the density and the temperature of
    the request, the calculate operation leaves the store as it was: the
    handler answers 500 with the resolver's message before any insert,
    and the route answers either that or the 400 of the validation. *)
Theorem no_record_when_unresolvable
    (now : SQL.timestamp) (db : database) (body : calculate_body)
    (density temperature : Q) (message : string) :
  body_density body = Some density ->
  body_temperature body = Some temperature ->
  getVCFFromDatabase (vcftable_rows db) density temperature = Error message ->
  snd (post_calculate now db body) = db
  /\ (forall volume,
        calculate now db volume density temperature
        = (Status500 calculate_failed message, db))
  /\ (validateCalculationInput body = [] ->
      fst (post_calculate now db body) = Status500 calculate_failed message).
Proof.
  intros E2 E3 R.
  assert (C : forall volume,
             calculate now db volume density temperature
             = (Status500 calculate_failed message, db)).
  { intros volume. unfold calculate. rewrite R. reflexivity. }
  split; [|split; [exact C|]].
  - unfold post_calculate.
    destruct (validateCalculationInput body) as [|m details]; [|reflexivity].
    rewrite E2, E3. destruct (body_volume body) as [v|]; [|reflexivity].
    rewrite C. reflexivity.
  - intros V. destruct (validateCalculationInput_ok body V)
      as (v & d & t & E1 & E2' & E3' & _).
    rewrite (post_calculate_validated now db body v density temperature V E1 E2 E3).
    rewrite C. reflexivity.
Qed.

Lemma no_record_when_unresolvable_witness :
  snd (post_calculate (SQL.mkTimestamp 2025 8 5 17 8 20 0)
         (mkDatabase [] [] 1) (mkBody (Some 2500) (Some 890) (Some 30)))
  = mkDatabase [] [] 1.
Proof.
  apply (no_record_when_unresolvable (SQL.mkTimestamp 2025 8 5 17 8 20 0)
           (mkDatabase [] [] 1) (mkBody (Some 2500) (Some 890) (Some 30))
           890 30 not_found); reflexivity.
Defined.

(** ** The search of the listing *)

Lemma like_percent (p t : string) :
  SQL.like_match (String "%" p) t
  = SQL.like_match p t
    || match t with
       | EmptyString => false
       | String _ t' => SQL.like_match (String "%" p) t'
       end.
Proof. destruct t; reflexivity. Qed.

Lemma like_percent_only (t : string) : SQL.like_match "%" t = true.
Proof.
  induction t as [|c t IH].
  - reflexivity.
  - rewrite like_percent, IH. apply orb_true_r.
Qed.

Lemma like_literal_char (c : ascii) (p t : string) :
  wildcard c = false ->
  SQL.like_match (String c p) t
  = match t with
    | EmptyString => false
    | String x t' => Ascii.eqb x c && SQL.like_match p t'
    end.
Proof.
  unfold wildcard. intros W.
  apply orb_false_iff in W. destruct W as [W Wb].
  apply orb_false_iff in W. destruct W as [Wp Wu].
  simpl. rewrite Wp, Wu, Wb. reflexivity.
Qed.

Lemma like_literal_prefix (s t : string) :
  literal s = true ->
  SQL.like_match (s ++ "%") t = String.prefix s t.
Proof.
  revert t. induction s as [|c s IH]; intros t L.
  - simpl append. rewrite like_percent_only. destruct t; reflexivity.
  - simpl in L. apply andb_true_iff in L. destruct L as [Lc Ls].
    apply negb_true_iff in Lc.
    change (String c s ++ "%")%string with (String c (s ++ "%")).
    rewrite (like_literal_char c _ t Lc).
    destruct t as [|x t]; [reflexivity|]. simpl.
    destruct (ascii_dec c x) as [->|N].
    + rewrite Ascii.eqb_refl. simpl. apply IH, Ls.
    + assert (E : Ascii.eqb x c = false)
        by (apply Ascii.eqb_neq; intros ->; apply N; reflexivity).
      rewrite E. reflexivity.
Qed.

(** For a search free of wildcards the pattern of the source tests for a
    substring. *)
Lemma like_contains (s t : string) :
  literal s = true -> SQL.LIKE t (searchPattern s) = contains s t.
Proof.
  intros L. unfold SQL.LIKE, searchPattern.
  change ("%" ++ s ++ "%")%string with (String "%" (s ++ "%")).
  induction t as [|c t IH].
  - rewrite like_percent, like_literal_prefix by exact L. reflexivity.
  - rewrite like_percent, like_literal_prefix by exact L.
    rewrite IH. reflexivity.
Qed.

Lemma prefix_spec (s t : string) :
  String.prefix s t = true <-> exists b : string, t = (s ++ b)%string.
Proof.
  revert t. induction s as [|c s IH]; intros t.
  - split; [intros _; exists t; reflexivity | intros _; destruct t; reflexivity].
  - destruct t as [|x t]; simpl.
    + split; [discriminate | intros [b E]; discriminate].
    + destruct (ascii_dec c x) as [->|N].
      * rewrite IH. split; intros [b E]; exists b; [rewrite E; reflexivity|].
        injection E as ->. reflexivity.
      * split; [discriminate|]. intros [b E]. injection E as -> _.
        exfalso. apply N. reflexivity.
Qed.

Lemma contains_unfold (s t : string) :
  contains s t
  = String.prefix s t
    || match t with
       | EmptyString => false
       | String _ t' => contains s t'
       end.
Proof. destruct t; reflexivity. Qed.

Lemma contains_spec (s t : string) : contains s t = true <-> occurs_in s t.
Proof.
  unfold occurs_in. split.
  - induction t as [|c t IH]; rewrite contains_unfold, orb_true_iff; intros [P|R].
    + apply prefix_spec in P. destruct P as [b E]. exists ""%string, b. exact E.
    + discriminate.
    + apply prefix_spec in P. destruct P as [b E]. exists ""%string, b. exact E.
    + destruct (IH R) as (a & b & ->). exists (String c a), b. reflexivity.
  - intros (a & b & ->). induction a as [|c a IH].
    + rewrite contains_unfold.
      assert (P : String.prefix s ("" ++ s ++ b) = true)
        by (apply prefix_spec; exists b; reflexivity).
      rewrite P. reflexivity.
    + change (String c a ++ s ++ b)%string with (String c (a ++ s ++ b)).
      rewrite contains_unfold, IH. apply orb_true_r.
Qed.

Lemma existsb_pointwise {A : Type} (f g : A -> bool) (l : list A) :
  (forall x, f x = g x) -> existsb f l = existsb g l.
Proof.
  intros E. induction l as [|x l IH]; simpl; [reflexivity|].
  rewrite E, IH. reflexivity.
Qed.

Lemma whereClause_literal (s : string) (r : oil_tonnages.row) :
  s <> ""%string -> literal s = true -> whereClause s r = spec_search s r.
Proof.
  intros Hne L. unfold whereClause, spec_search.
  destruct s as [|c s]; [congruence|].
  apply existsb_pointwise. intros text. apply like_contains, L.
Qed.

Lemma spec_search_spec (s : string) (r : oil_tonnages.row) :
  spec_search s r = true
  <-> exists text, In text (searched_texts r) /\ occurs_in s text.
Proof.
  unfold spec_search. rewrite existsb_exists.
  split; intros (text & Hin & H); exists text; (split; [exact Hin|]);
    apply contains_spec; exact H.
Qed.

(** ** The statement of the listing *)

Lemma get_calculations_ok (db : database) (q : list_query) (l : listing) :
  get_calculations db q = Status200 l ->
  exists order leb,
    order_of q = Text order
    /\ order_clause (sortColumn (sort_of q)) (sortOrder order) = Ok leb
    /\ (0 <= limit_of q)%Z
    /\ (0 <= offset_of q)%Z
    /\ rows l
       = SQL.limit (Z.to_nat (limit_of q))
           (SQL.offset (Z.to_nat (offset_of q))
              (SQL.order_by leb
                 (SQL.where_ (whereClause (search_of q)) (oil_tonnages_rows db))))
    /\ pagination_total l
       = Z.of_nat (List.length
                     (SQL.where_ (whereClause (search_of q))
                        (oil_tonnages_rows db))).
Proof.
  unfold get_calculations.
  destruct (order_of q) as [order|]; [|discriminate].
  destruct (order_clause _ _) as [leb|] eqn:C; [|discriminate].
  destruct (negb (SQL.text (search_of q))); [discriminate|].
  destruct (negb (SQL.bigint (limit_of q)) || negb (SQL.bigint (offset_of q)));
    [discriminate|].
  destruct (Z.ltb_spec (offset_of q) 0) as [|Ho]; [discriminate|].
  destruct (Z.ltb_spec (limit_of q) 0) as [|Hl]; [discriminate|].
  intros E. injection E as <-. exists order, leb. simpl.
  repeat split; assumption || reflexivity.
Qed.

Lemma sortColumn_valid (sort : string) : In (sortColumn sort) validSortColumns.
Proof.
  unfold sortColumn, JS.includes.
  destruct (existsb (String.eqb sort) validSortColumns) eqn:E.
  - apply existsb_exists in E. destruct E as (x & Hx & Ex).
    apply String.eqb_eq in Ex. subst x. exact Hx.
  - left. reflexivity.
Qed.

Lemma sortColumn_listed (sort : string) :
  In sort validSortColumns -> sortColumn sort = sort.
Proof.
  intros H. unfold sortColumn, JS.includes.
  replace (existsb (String.eqb sort) validSortColumns) with true; [reflexivity|].
  symmetry. apply existsb_exists. exists sort. split; [exact H | apply String.eqb_refl].
Qed.

Lemma sortColumn_fallback (sort : string) :
  ~ In sort validSortColumns -> sortColumn sort = "created_at"%string.
Proof.
  intros H. unfold sortColumn, JS.includes.
  destruct (existsb (String.eqb sort) validSortColumns) eqn:E; [|reflexivity].
  exfalso. apply H. apply existsb_exists in E. destruct E as (x & Hx & Ex).
  apply String.eqb_eq in Ex. subst x. exact Hx.
Qed.

(** *** The order that upper-cases to [ASC] *)

Lemma upper_ascii_letters (c : ascii) :
  (JS.upper_ascii c = "A"%char -> c = "a"%char \/ c = "A"%char)
  /\ (JS.upper_ascii c = "S"%char -> c = "s"%char \/ c = "S"%char)
  /\ (JS.upper_ascii c = "C"%char -> c = "c"%char \/ c = "C"%char).
Proof.
  destruct c as [[] [] [] [] [] [] [] []]; vm_compute;
    (split; [|split]); intros H; try discriminate H; auto.
Qed.

Lemma ligature_upper (c : ascii) (upper : string) :
  JS.ligature c = Some upper ->
  In upper ["FF"; "FI"; "FL"; "FFI"; "FFL"; "ST"]%string.
Proof.
  unfold JS.ligature.
  repeat (destruct (JS.byte _ c); [intros E; injection E as <-; simpl; tauto|]).
  discriminate.
Qed.

(** The first character [toUpperCase] writes comes from an ASCII
    character or a character that stays as it is, from the long s, or
    from one of the other characters with an upper case in ASCII, which
    write I, F, SS or ST. *)
Lemma toUpperCase_first (s : string) (x : ascii) (t : string) :
  JS.toUpperCase s = String x t ->
  (exists c s', s = String c s' /\ JS.upper_ascii c = x /\ JS.toUpperCase s' = t)
  \/ (exists s', s = (long_s ++ s')%string /\ x = "S"%char
                 /\ JS.toUpperCase s' = t)
  \/ x = "I"%char \/ x = "F"%char
  \/ (x = "S"%char
      /\ exists t', t = String "S" t' \/ t = String "T" t').
Proof.
  assert (P : forall c s',
              String (JS.upper_ascii c) (JS.toUpperCase s') = String x t ->
              exists c0 s0, String c s' = String c0 s0
                            /\ JS.upper_ascii c0 = x /\ JS.toUpperCase s0 = t).
  { intros c s' E. injection E as E1 E2. exists c, s'. auto. }
  destruct s as [|c1 [|c2 s2]]; [discriminate| |].
  - intros E. left. apply (P c1 EmptyString E).
  - cbn [JS.toUpperCase].
    destruct (JS.byte 197 c1 && JS.byte 191 c2) eqn:B1.
    { intros E. injection E as E1 E2. right; left. exists s2.
      apply andb_true_iff in B1. destruct B1 as [B1 B2].
      apply Ascii.eqb_eq in B1, B2. subst c1 c2. auto. }
    destruct (JS.byte 196 c1 && JS.byte 177 c2).
    { intros E. injection E as E1 E2. right; right; left. auto. }
    destruct (JS.byte 195 c1 && JS.byte 159 c2).
    { intros E. injection E as E1 E2. right; right; right; right.
      split; [auto|]. eexists. left. symmetry. exact E2. }
    destruct s2 as [|c3 s3].
    { intros E. left. apply (P c1 (String c2 EmptyString) E). }
    destruct (JS.byte 239 c1 && JS.byte 172 c2);
      [|intros E; left; apply (P c1 (String c2 (String c3 s3)) E)].
    destruct (JS.ligature c3) as [upper|] eqn:L;
      [|intros E; left; apply (P c1 (String c2 (String c3 s3)) E)].
    apply ligature_upper in L. simpl in L. intros E. right; right.
    repeat (destruct L as [<-|L];
            [injection E as E1 E2; subst x;
             first [ left; reflexivity
                   | right; left; reflexivity
                   | right; right; split; [reflexivity|];
                     eexists; right; symmetry; exact E2 ]|]).
    destruct L.
Qed.

Lemma toUpperCase_empty (s : string) : JS.toUpperCase s = EmptyString -> s = EmptyString.
Proof.
  destruct s as [|c1 [|c2 s2]]; [reflexivity|discriminate|].
  cbn [JS.toUpperCase].
  destruct (JS.byte 197 c1 && JS.byte 191 c2); [discriminate|].
  destruct (JS.byte 196 c1 && JS.byte 177 c2); [discriminate|].
  destruct (JS.byte 195 c1 && JS.byte 159 c2); [discriminate|].
  destruct s2 as [|c3 s3]; [discriminate|].
  destruct (JS.byte 239 c1 && JS.byte 172 c2); [|discriminate].
  destruct (JS.ligature c3) as [upper|] eqn:L; [|discriminate].
  apply ligature_upper in L. simpl in L.
  repeat (destruct L as [<-|L]; [discriminate|]). destruct L.
Qed.

(** One letter of the order: what is read, and what is left. *)
Lemma toUpperCase_letter (s : string) (x : ascii) (t : string) :
  JS.toUpperCase s = String x t ->
  x = "A"%char \/ x = "C"%char
  \/ (x = "S"%char /\ forall t', t <> String "S" t' /\ t <> String "T" t') ->
  (exists c s', s = String c s' /\ JS.upper_ascii c = x /\ JS.toUpperCase s' = t)
  \/ (exists s', s = (long_s ++ s')%string /\ x = "S"%char
                 /\ JS.toUpperCase s' = t).
Proof.
  intros E Hx.
  destruct (toUpperCase_first s x t E) as [H|[H|[H|[H|[H1 [t' H2]]]]]];
    [left; exact H | right; exact H | | |].
  - subst x. destruct Hx as [Hx|[Hx|[Hx _]]]; discriminate Hx.
  - subst x. destruct Hx as [Hx|[Hx|[Hx _]]]; discriminate Hx.
  - subst x. destruct Hx as [Hx|[Hx|[_ Hx]]]; [discriminate Hx|discriminate Hx|].
    exfalso. destruct (Hx t') as [N1 N2]. destruct H2; contradiction.
Qed.

Lemma sortOrder_spellings (order : string) :
  sortOrder order = "ASC"%string <-> In order asc_spellings.
Proof.
  split.
  - unfold sortOrder.
    destruct (String.eqb (JS.toUpperCase order) "ASC") eqn:E; [|discriminate].
    intros _. apply String.eqb_eq in E.
    destruct (toUpperCase_letter order _ _ E (or_introl eq_refl))
      as [(c1 & s1 & -> & U1 & E1)|(s1 & _ & D & _)]; [|discriminate D].
    assert (X2 : "S"%char = "A"%char \/ "S"%char = "C"%char
                 \/ ("S"%char = "S"%char
                     /\ forall t', "C"%string <> String "S" t'
                                   /\ "C"%string <> String "T" t')).
    { right; right. split; [reflexivity|]. intros t'. split; discriminate. }
    assert (X3 : "C"%char = "A"%char \/ "C"%char = "C"%char
                 \/ ("C"%char = "S"%char
                     /\ forall t', ""%string <> String "S" t'
                                   /\ ""%string <> String "T" t')).
    { right; left. reflexivity. }
    apply upper_ascii_letters in U1.
    assert (L3 : forall s2, JS.toUpperCase s2 = "C"%string ->
                 s2 = "c"%string \/ s2 = "C"%string).
    { intros s2 E2.
      destruct (toUpperCase_letter s2 _ _ E2 X3)
        as [(c3 & s3 & -> & U3 & E3)|(s3 & _ & D & _)]; [|discriminate D].
      apply toUpperCase_empty in E3. subst s3.
      apply upper_ascii_letters in U3. destruct U3 as [->| ->]; auto. }
    destruct (toUpperCase_letter s1 _ _ E1 X2)
      as [(c2 & s2 & -> & U2 & E2)|(s2 & -> & _ & E2)].
    + apply upper_ascii_letters in U2.
      destruct (L3 s2 E2) as [->| ->]; destruct U1 as [->| ->];
        destruct U2 as [->| ->]; vm_compute; tauto.
    + destruct (L3 s2 E2) as [->| ->]; destruct U1 as [->| ->];
        vm_compute; tauto.
  - intros H. unfold asc_spellings in H. simpl in H.
    repeat (destruct H as [<-|H]; [reflexivity|]). destruct H.
Qed.

Lemma sortOrder_asc (order : string) :
  In order asc_spellings -> sortOrder order = "ASC"%string.
Proof. apply sortOrder_spellings. Qed.

Lemma sortOrder_desc (order : string) :
  ~ In order asc_spellings -> sortOrder order = "DESC"%string.
Proof.
  intros H. unfold sortOrder.
  destruct (String.eqb (JS.toUpperCase order) "ASC") eqn:E; [|reflexivity].
  exfalso. apply H, sortOrder_spellings. unfold sortOrder. rewrite E. reflexivity.
Qed.

Lemma sortOrder_valid (order : string) :
  In (sortOrder order) ["ASC"; "DESC"]%string.
Proof.
  unfold sortOrder. destruct (String.eqb _ _); [left | right; left]; reflexivity.
Qed.

Lemma order_clause_accepts (column direction : string) :
  In column validSortColumns -> In direction ["ASC"; "DESC"]%string ->
  exists leb, order_clause column direction = Ok leb.
Proof.
  intros Hc Hd. simpl in Hc, Hd.
  repeat (destruct Hc as [<-|Hc]; [destruct Hd as [<-|[<-|[]]]; eexists; reflexivity|]).
  destruct Hc.
Qed.

Lemma by_instant_total (a b : oil_tonnages.row) :
  by_instant a b = true \/ by_instant b a = true.
Proof. unfold by_instant. rewrite !Z.leb_le. lia. Qed.

Lemma by_instant_trans (a b c : oil_tonnages.row) :
  by_instant a b = true -> by_instant b c = true -> by_instant a c = true.
Proof. unfold by_instant. rewrite !Z.leb_le. lia. Qed.

Lemma strongly_sorted_weaken {A : Type} (R R' : A -> A -> Prop) (l : list A) :
  (forall a b, R a b -> R' a b) -> StronglySorted R l -> StronglySorted R' l.
Proof.
  intros W. induction 1 as [|x l Hs IH Hx]; constructor; [exact IH|].
  rewrite Forall_forall in *. intros y Hy. apply W, Hx, Hy.
Qed.

(** A page of an ordered table is ordered. *)
Lemma page_sorted {A : Type} (leb : A -> A -> bool) (n m : nat) (l : list A) :
  (forall a b, leb a b = true \/ leb b a = true) ->
  (forall a b c, leb a b = true -> leb b c = true -> leb a c = true) ->
  StronglySorted (fun a b => leb a b = true)
    (SQL.limit n (SQL.offset m (SQL.order_by leb l))).
Proof.
  intros T R. apply strongly_sorted_firstn, strongly_sorted_skipn.
  apply order_by_sorted; assumption.
Qed.

Lemma page_In {A : Type} (leb : A -> A -> bool) (n m : nat) (l : list A) (x : A) :
  In x (SQL.limit n (SQL.offset m (SQL.order_by leb l))) -> In x l.
Proof.
  intros H. apply limit_In, offset_In in H. apply order_by_In in H. exact H.
Qed.

Lemma first_page_whole {A : Type} (leb : A -> A -> bool) (n : nat) (l : list A) :
  (List.length l <= n)%nat ->
  Permutation (SQL.limit n (SQL.offset 0 (SQL.order_by leb l))) l.
Proof.
  intros H. unfold SQL.limit, SQL.offset. simpl skipn.
  rewrite firstn_all2.
  - apply order_by_perm.
  - rewrite (Permutation_length (order_by_perm leb l)). exact H.
Qed.

(** C6, as the code has it.  For a search string that is not empty and
    holds none of the characters [%], [_] and backslash, the records the
    listing selects are the records in which the string occurs, with its
    case, in the text of the volume, the density, the temperature, the
    tonnage or the timestamp written as YYYY-MM-DD HH:MM:SS: the
    total counts them, every row returned is one of them, and the first
    page returns them all when the limit is not below the total. *)
Theorem search_selects_substring_matches
    (db : database) (q : list_query) (s : string) (l : listing) :
  query_search q = Some s -> s <> ""%string -> literal s = true ->
  get_calculations db q = Status200 l ->
  pagination_total l
  = Z.of_nat (List.length (filter (spec_search s) (oil_tonnages_rows db)))
  /\ (forall r, In r (rows l) ->
        In r (oil_tonnages_rows db)
        /\ exists text, In text (searched_texts r) /\ occurs_in s text)
  /\ (page_of q = 1%Z -> (pagination_total l <= limit_of q)%Z ->
      Permutation (rows l) (filter (spec_search s) (oil_tonnages_rows db)))
  /\ (forall r, spec_search s r = true
                <-> exists text, In text (searched_texts r) /\ occurs_in s text).
Proof.
  intros Hs Hne L E.
  destruct (get_calculations_ok db q l E)
    as (order & leb & _ & _ & Hl & _ & Hrows & Htotal).
  assert (S : search_of q = s) by (unfold search_of; rewrite Hs; reflexivity).
  rewrite S in Hrows, Htotal.
  assert (F : SQL.where_ (whereClause s) (oil_tonnages_rows db)
              = filter (spec_search s) (oil_tonnages_rows db)).
  { unfold SQL.where_. apply filter_ext. intros r.
    apply whereClause_literal; assumption. }
  rewrite F in Hrows, Htotal.
  split; [exact Htotal|]. split; [|split].
  - intros r Hr. rewrite Hrows in Hr. apply page_In in Hr.
    apply filter_In in Hr. destruct Hr as [Hin Hm].
    split; [exact Hin | apply spec_search_spec, Hm].
  - intros Hp Hfit. rewrite Hrows.
    unfold offset_of. rewrite Hp. simpl Z.to_nat.
    apply first_page_whole. rewrite Htotal in Hfit. lia.
  - intros r. apply spec_search_spec.
Qed.

Lemma search_selects_substring_matches_witness :
  exists l,
    get_calculations
      (mkDatabase []
         [oil_tonnages.mk 1 2500 890 30 (95 # 100) 890 30 (211375 # 100000)
            (SQL.mkTimestamp 2025 8 5 17 8 20 0);
          oil_tonnages.mk 2 1000 850 20 1 850 20 (85 # 100)
            (SQL.mkTimestamp 2025 8 5 17 9 0 0)] 3)
      (mkQuery None None (Some "2500"%string) None None) = Status200 l
    /\ pagination_total l = 1%Z.
Proof.
  eexists. split; [reflexivity|].
  apply (search_selects_substring_matches
           (mkDatabase []
              [oil_tonnages.mk 1 2500 890 30 (95 # 100) 890 30 (211375 # 100000)
                 (SQL.mkTimestamp 2025 8 5 17 8 20 0);
               oil_tonnages.mk 2 1000 850 20 1 850 20 (85 # 100)
                 (SQL.mkTimestamp 2025 8 5 17 9 0 0)] 3)
           (mkQuery None None (Some "2500"%string) None None) "2500"%string);
    [reflexivity | discriminate | reflexivity | reflexivity].
Defined.

(** C6, as the specification words it, fails for a search that holds a wildcard:
    the search [_] selects a record although no underscore occurs in any
    of its five texts, and so does [%]. *)
Lemma wildcard_search_is_not_a_substring_search :
  exists l,
    get_calculations
      (mkDatabase []
         [oil_tonnages.mk 1 2500 890 30 (95 # 100) 890 30 (211375 # 100000)
            (SQL.mkTimestamp 2025 8 5 17 8 20 0)] 2)
      (mkQuery None None (Some "_"%string) None None) = Status200 l
    /\ rows l
       = [oil_tonnages.mk 1 2500 890 30 (95 # 100) 890 30 (211375 # 100000)
            (SQL.mkTimestamp 2025 8 5 17 8 20 0)]
    /\ searched_texts
         (oil_tonnages.mk 1 2500 890 30 (95 # 100) 890 30 (211375 # 100000)
            (SQL.mkTimestamp 2025 8 5 17 8 20 0))
       = ["2500.00"; "890.00"; "30.00"; "2.11375000"; "2025-08-05 17:08:20"]%string
    /\ (forall text,
          In text ["2500.00"; "890.00"; "30.00"; "2.11375000";
                   "2025-08-05 17:08:20"]%string ->
          ~ occurs_in "_" text)
    /\ whereClause "%"
         (oil_tonnages.mk 1 2500 890 30 (95 # 100) 890 30 (211375 # 100000)
            (SQL.mkTimestamp 2025 8 5 17 8 20 0)) = true
    /\ spec_search "%"
         (oil_tonnages.mk 1 2500 890 30 (95 # 100) 890 30 (211375 # 100000)
            (SQL.mkTimestamp 2025 8 5 17 8 20 0)) = false.
Proof.
  eexists. split; [reflexivity|]. split; [reflexivity|]. split; [reflexivity|].
  split; [|split; reflexivity].
  intros text Hin Hocc. apply contains_spec in Hocc.
  simpl in Hin.
  repeat (destruct Hin as [<-|Hin]; [vm_compute in Hocc; discriminate|]).
  destruct Hin.
Qed.

(** *** What a listing answers *)

Lemma column_order_is_an_order (column : string)
    (leb : oil_tonnages.row -> oil_tonnages.row -> bool) :
  column_order column = Ok leb ->
  (forall a b, leb a b = true \/ leb b a = true)
  /\ (forall a b c, leb a b = true -> leb b c = true -> leb a c = true).
Proof.
  unfold column_order.
  repeat (destruct (String.eqb column _);
          [intros E; injection E as <-;
           first [ split; [apply by_instant_total | apply by_instant_trans]
                 | split; [apply asc_total | apply asc_trans]
                 | split; [intros a b; rewrite !Z.leb_le; lia
                          | intros a b c; rewrite !Z.leb_le; lia] ]|]).
  discriminate.
Qed.

Lemma order_clause_is_an_order (column direction : string)
    (leb : oil_tonnages.row -> oil_tonnages.row -> bool) :
  order_clause column direction = Ok leb ->
  (forall a b, leb a b = true \/ leb b a = true)
  /\ (forall a b c, leb a b = true -> leb b c = true -> leb a c = true).
Proof.
  unfold order_clause.
  destruct (column_order column) as [leb0|] eqn:C; [|discriminate].
  destruct (column_order_is_an_order _ _ C) as [T R]. simpl.
  destruct (String.eqb direction "ASC"); [intros E; injection E as <-; auto|].
  destruct (String.eqb direction "DESC"); [|discriminate].
  intros E. injection E as <-. split.
  - intros a b. destruct (T a b); auto.
  - intros a b c H1 H2. exact (R c b a H2 H1).
Qed.

(** The listing answers 200 when the order is a string and the store
    accepts the search, the limit and the offset. *)
Lemma get_calculations_shape (db : database) (q : list_query) (order : string) :
  order_of q = Text order ->
  SQL.text (search_of q) = true ->
  (0 <= limit_of q <= JS.MAX_SAFE_INTEGER)%Z ->
  (0 <= offset_of q <= JS.MAX_SAFE_INTEGER)%Z ->
  exists leb,
    order_clause (sortColumn (sort_of q)) (sortOrder order) = Ok leb
    /\ get_calculations db q
       = Status200
           {| rows :=
                SQL.limit (Z.to_nat (limit_of q))
                  (SQL.offset (Z.to_nat (offset_of q))
                     (SQL.order_by leb
                        (SQL.where_ (whereClause (search_of q))
                           (oil_tonnages_rows db))));
              pagination_page := page_of q;
              pagination_limit := limit_of q;
              pagination_total :=
                Z.of_nat (List.length
                            (SQL.where_ (whereClause (search_of q))
                               (oil_tonnages_rows db)));
              pagination_pages :=
                if (limit_of q =? 0)%Z then None
                else Some (Qceiling
                             (inject_Z
                                (Z.of_nat
                                   (List.length
                                      (SQL.where_ (whereClause (search_of q))
                                         (oil_tonnages_rows db))))
                              / inject_Z (limit_of q))) |}.
Proof.
  intros O Hs Hl Ho.
  destruct (order_clause_accepts (sortColumn (sort_of q)) (sortOrder order)
              (sortColumn_valid _) (sortOrder_valid _)) as [leb C].
  exists leb. split; [exact C|].
  unfold get_calculations. rewrite O, C, Hs. cbn [negb].
  assert (B1 : SQL.bigint (limit_of q) = true).
  { unfold SQL.bigint, JS.MAX_SAFE_INTEGER in *.
    apply andb_true_iff. rewrite !Z.leb_le. lia. }
  assert (B2 : SQL.bigint (offset_of q) = true).
  { unfold SQL.bigint, JS.MAX_SAFE_INTEGER in *.
    apply andb_true_iff. rewrite !Z.leb_le. lia. }
  rewrite B1, B2. simpl.
  destruct (Z.ltb_spec (offset_of q) 0); [lia|].
  destruct (Z.ltb_spec (limit_of q) 0); [lia|]. reflexivity.
Qed.

Lemma rows_sorted_by (db : database) (q : list_query) (l : listing)
    (order : string) (leb : oil_tonnages.row -> oil_tonnages.row -> bool) :
  get_calculations db q = Status200 l ->
  order_of q = Text order ->
  order_clause (sortColumn (sort_of q)) (sortOrder order) = Ok leb ->
  StronglySorted (fun a b => leb a b = true) (rows l).
Proof.
  intros E O C.
  destruct (get_calculations_ok db q l E) as (order' & leb' & O' & C' & _ & _ & Hrows & _).
  rewrite O in O'. injection O' as <-.
  rewrite C in C'. injection C' as <-.
  destruct (order_clause_is_an_order _ _ _ C) as [T R].
  rewrite Hrows. apply page_sorted; assumption.
Qed.

(** C7, as the code has it.  The column of the [ORDER BY] is the
    requested one when it is on the list of the five sortable columns and
    the creation time otherwise.  For an [order] that is a string the
    direction is [ASC] when the string upper-cases to ASC, which it does
    when it is a or A, then s, S or the long s, then c or C, and [DESC]
    for every other string.  Column and direction are always on their
    fixed lists and the store accepts the clause they form: the rows of
    every listing are in the order of that clause, and a listing whose
    search, limit and offset the store accepts is answered 200 whatever
    [sort] and the string [order] are. *)
Theorem sort_parameters_are_normalised (sort order : string) :
  (In sort validSortColumns -> sortColumn sort = sort)
  /\ (~ In sort validSortColumns -> sortColumn sort = "created_at"%string)
  /\ In (sortColumn sort) validSortColumns
  /\ (In order asc_spellings -> sortOrder order = "ASC"%string)
  /\ (~ In order asc_spellings -> sortOrder order = "DESC"%string)
  /\ In (sortOrder order) ["ASC"; "DESC"]%string
  /\ (exists leb,
        order_clause (sortColumn sort) (sortOrder order) = Ok leb
        /\ forall db q l,
             sort_of q = sort -> order_of q = Text order ->
             get_calculations db q = Status200 l ->
             StronglySorted (fun a b => leb a b = true) (rows l))
  /\ (forall db q,
        sort_of q = sort -> order_of q = Text order ->
        SQL.text (search_of q) = true ->
        (0 <= limit_of q <= JS.MAX_SAFE_INTEGER)%Z ->
        (0 <= offset_of q <= JS.MAX_SAFE_INTEGER)%Z ->
        exists l, get_calculations db q = Status200 l).
Proof.
  split; [apply sortColumn_listed|]. split; [apply sortColumn_fallback|].
  split; [apply sortColumn_valid|]. split; [apply sortOrder_asc|].
  split; [apply sortOrder_desc|]. split; [apply sortOrder_valid|].
  split.
  - destruct (order_clause_accepts (sortColumn sort) (sortOrder order)
                (sortColumn_valid _) (sortOrder_valid _)) as [leb C].
    exists leb. split; [exact C|].
    intros db q l Hs Ho E. subst sort.
    exact (rows_sorted_by db q l order leb E Ho C).
  - intros db q Hs Ho Ht Hl Hoff.
    destruct (get_calculations_shape db q order Ho Ht Hl Hoff) as (leb & _ & E).
    eexists. exact E.
Qed.

Lemma sort_parameters_are_normalised_witness :
  sortColumn "tonnage" = "tonnage"%string
  /\ sortColumn "createdAt; DROP TABLE oil_tonnages" = "created_at"%string
  /\ sortOrder "Asc" = "ASC"%string
  /\ sortOrder "ascending" = "DESC"%string
  /\ exists l,
       get_calculations (mkDatabase [] [] 1)
         (mkQuery None None None (Some "tonnage"%string) (Some (Text "Asc")))
       = Status200 l.
Proof.
  split; [|split; [|split; [|split]]].
  - apply (sort_parameters_are_normalised "tonnage" "Asc").
    right; right; right; right; left; reflexivity.
  - apply (sort_parameters_are_normalised "createdAt; DROP TABLE oil_tonnages" "Asc").
    simpl. intros H. repeat (destruct H as [H|H]; [discriminate H|]). exact H.
  - apply (sort_parameters_are_normalised "tonnage" "Asc").
    vm_compute. tauto.
  - apply (sort_parameters_are_normalised "tonnage" "ascending").
    vm_compute. intros H.
    repeat (destruct H as [H|H]; [discriminate H|]). exact H.
  - destruct (sort_parameters_are_normalised "tonnage" "Asc")
      as (_ & _ & _ & _ & _ & _ & _ & H).
    apply (H (mkDatabase [] [] 1)
             (mkQuery None None None (Some "tonnage"%string) (Some (Text "Asc"))));
      try reflexivity; vm_compute; split; discriminate.
Defined.

(** C7, as the specification words it, fails in two ways.  The order "aſc",
    written with the long s, is not "asc" up to case, and yet it
    upper-cases to ASC: the listing comes back ascending.  And an order
    that is no string, as the query string [order=a&order=b] gives, is
    not turned into [DESC]: the listing is answered 500. *)
Lemma order_is_upper_cased_not_matched :
  equal_ignoring_case "aſc" "asc" = false
  /\ sortOrder "aſc" = "ASC"%string
  /\ (exists l,
        get_calculations
          (mkDatabase []
             [oil_tonnages.mk 1 2500 890 30 (95 # 100) 890 30 (211375 # 100000)
                (SQL.mkTimestamp 2025 8 5 17 8 20 0);
              oil_tonnages.mk 2 1000 850 20 1 850 20 (85 # 100)
                (SQL.mkTimestamp 2025 8 5 17 9 0 0)] 3)
          (mkQuery None None None None (Some (Text "aſc")))
        = Status200 l
        /\ rows l
           = [oil_tonnages.mk 1 2500 890 30 (95 # 100) 890 30 (211375 # 100000)
                (SQL.mkTimestamp 2025 8 5 17 8 20 0);
              oil_tonnages.mk 2 1000 850 20 1 850 20 (85 # 100)
                (SQL.mkTimestamp 2025 8 5 17 9 0 0)]
        /\ ~ descending_by_created_at (rows l))
  /\ exists message,
       get_calculations
         (mkDatabase []
            [oil_tonnages.mk 1 2500 890 30 (95 # 100) 890 30 (211375 # 100000)
               (SQL.mkTimestamp 2025 8 5 17 8 20 0)] 2)
         (mkQuery None None None None (Some NotText))
       = Status500 list_failed message.
Proof.
  split; [reflexivity|]. split; [reflexivity|]. split; [|eexists; reflexivity].
  eexists. split; [reflexivity|]. split; [reflexivity|].
  simpl rows. unfold descending_by_created_at. intros S.
  inversion S as [|? ? _ Hall]; subst.
  inversion Hall as [|? ? Hle _]; subst.
  vm_compute in Hle. apply Hle. reflexivity.
Qed.

(** ** The order of the listing *)

(** C8, as the code has it.  With [sort] "volume" and an [order] that
    upper-cases to ASC, as "asc" does, the rows returned are
    non-decreasing in volume.  With a [sort] outside the list of sortable
    columns the rows are ordered by creation time, in the direction the
    [order] parameter asks for: descending unless it upper-cases to ASC,
    ascending when it does. *)
Theorem listing_is_ordered
    (db : database) (q : list_query) (order : string) (l : listing) :
  get_calculations db q = Status200 l ->
  order_of q = Text order ->
  (sort_of q = "volume"%string -> In order asc_spellings ->
   ascending_by_volume (rows l))
  /\ (~ In (sort_of q) validSortColumns -> ~ In order asc_spellings ->
      descending_by_created_at (rows l))
  /\ (~ In (sort_of q) validSortColumns -> In order asc_spellings ->
      ascending_by_created_at (rows l)).
Proof.
  intros E O. split; [|split].
  - intros Hs Ho.
    assert (C : order_clause (sortColumn (sort_of q)) (sortOrder order)
                = Ok (SQL.asc oil_tonnages.volume)).
    { rewrite Hs, (sortOrder_asc _ Ho). reflexivity. }
    pose proof (rows_sorted_by db q l order _ E O C) as S.
    revert S. apply strongly_sorted_weaken.
    intros a b H. apply Qle_bool_iff, H.
  - intros Hs Ho.
    assert (C : order_clause (sortColumn (sort_of q)) (sortOrder order)
                = Ok (fun a b => by_instant b a)).
    { rewrite (sortColumn_fallback _ Hs), (sortOrder_desc _ Ho). reflexivity. }
    pose proof (rows_sorted_by db q l order _ E O C) as S.
    revert S. apply strongly_sorted_weaken.
    intros a b H. apply Z.leb_le, H.
  - intros Hs Ho.
    assert (C : order_clause (sortColumn (sort_of q)) (sortOrder order)
                = Ok by_instant).
    { rewrite (sortColumn_fallback _ Hs), (sortOrder_asc _ Ho). reflexivity. }
    pose proof (rows_sorted_by db q l order _ E O C) as S.
    revert S. apply strongly_sorted_weaken.
    intros a b H. apply Z.leb_le, H.
Qed.

Lemma listing_is_ordered_witness :
  ascending_by_volume
    [oil_tonnages.mk 2 1000 850 20 1 850 20 (85 # 100)
       (SQL.mkTimestamp 2025 8 5 17 9 0 0);
     oil_tonnages.mk 1 2500 890 30 (95 # 100) 890 30 (211375 # 100000)
       (SQL.mkTimestamp 2025 8 5 17 8 20 0)].
Proof.
  apply (listing_is_ordered
           (mkDatabase []
              [oil_tonnages.mk 1 2500 890 30 (95 # 100) 890 30 (211375 # 100000)
                 (SQL.mkTimestamp 2025 8 5 17 8 20 0);
               oil_tonnages.mk 2 1000 850 20 1 850 20 (85 # 100)
                 (SQL.mkTimestamp 2025 8 5 17 9 0 0)] 3)
           (mkQuery None None None (Some "volume"%string) (Some (Text "asc")))
           "asc"%string
           {| rows :=
                [oil_tonnages.mk 2 1000 850 20 1 850 20 (85 # 100)
                   (SQL.mkTimestamp 2025 8 5 17 9 0 0);
                 oil_tonnages.mk 1 2500 890 30 (95 # 100) 890 30 (211375 # 100000)
                   (SQL.mkTimestamp 2025 8 5 17 8 20 0)];
              pagination_page := 1; pagination_limit := 50;
              pagination_total := 2; pagination_pages := Some 1%Z |});
    try reflexivity.
  vm_compute. tauto.
Defined.

(** C8, as the specification words it, fails when an invalid sort column comes
    with the order "asc": the rows come back by creation time ascending,
    the older first. *)
Lemma invalid_sort_with_asc_is_ascending :
  exists l,
    get_calculations
      (mkDatabase []
         [oil_tonnages.mk 1 2500 890 30 (95 # 100) 890 30 (211375 # 100000)
            (SQL.mkTimestamp 2025 8 5 17 8 20 0);
          oil_tonnages.mk 2 1000 850 20 1 850 20 (85 # 100)
            (SQL.mkTimestamp 2025 8 5 17 9 0 0)] 3)
      (mkQuery None None None (Some "name"%string) (Some (Text "asc")))
    = Status200 l
    /\ rows l
       = [oil_tonnages.mk 1 2500 890 30 (95 # 100) 890 30 (211375 # 100000)
            (SQL.mkTimestamp 2025 8 5 17 8 20 0);
          oil_tonnages.mk 2 1000 850 20 1 850 20 (85 # 100)
            (SQL.mkTimestamp 2025 8 5 17 9 0 0)]
    /\ ~ In "name"%string validSortColumns
    /\ ~ descending_by_created_at (rows l).
Proof.
  eexists. split; [reflexivity|]. split; [reflexivity|]. split.
  - simpl. intros H. repeat (destruct H as [H|H]; [discriminate H|]). exact H.
  - simpl rows. unfold descending_by_created_at. intros S.
    inversion S as [|? ? _ Hall]; subst.
    inversion Hall as [|? ? Hle _]; subst.
    vm_compute in Hle. apply Hle. reflexivity.
Qed.

(** ** Deleting *)

Lemma filter_all {A : Type} (p : A -> bool) (l : list A) :
  (forall x, In x l -> p x = true) -> filter p l = l.
Proof.
  induction l as [|x l IH]; intros H; simpl; [reflexivity|].
  rewrite (H x (or_introl eq_refl)). f_equal. apply IH.
  intros y Hy. apply H. right; exact Hy.
Qed.

Lemma filter_none {A : Type} (p : A -> bool) (l : list A) :
  (forall x, In x l -> p x = false) -> filter p l = [].
Proof.
  induction l as [|x l IH]; intros H; simpl; [reflexivity|].
  rewrite (H x (or_introl eq_refl)). apply IH.
  intros y Hy. apply H. right; exact Hy.
Qed.

Lemma with_rows_same (db : database) : with_rows db (oil_tonnages_rows db) = db.
Proof. destruct db; reflexivity. Qed.

(** With distinct ids, deleting by id takes one row out and leaves the
    others where they are. *)
Lemma delete_one (table : list oil_tonnages.row) (r : oil_tonnages.row) :
  NoDup (map oil_tonnages.id table) -> In r table ->
  exists before after,
    table = before ++ r :: after
    /\ snd (delete_returning (oil_tonnages.id r) table) = before ++ after
    /\ fst (delete_returning (oil_tonnages.id r) table) = [r].
Proof.
  unfold delete_returning, SQL.where_. simpl.
  induction table as [|x table IH]; intros ND Hin; [destruct Hin|].
  simpl in ND. inversion ND as [|? ? Hx ND']; subst.
  assert (Hfresh : forall y, In y table -> oil_tonnages.id y <> oil_tonnages.id x).
  { intros y Hy E. apply Hx. rewrite <- E. apply in_map, Hy. }
  destruct Hin as [->|Hin].
  - exists [], table. simpl. rewrite Z.eqb_refl. simpl.
    split; [reflexivity|]. split.
    + apply filter_all. intros y Hy. apply negb_true_iff, Z.eqb_neq, Hfresh, Hy.
    + f_equal. apply filter_none. intros y Hy. apply Z.eqb_neq, Hfresh, Hy.
  - destruct (IH ND' Hin) as (before & after & Ht & Hs & Hf).
    exists (x :: before), after. simpl.
    assert (N : (oil_tonnages.id x =? oil_tonnages.id r)%Z = false).
    { apply Z.eqb_neq. intros E. apply (Hfresh r Hin). symmetry. exact E. }
    rewrite N. simpl. rewrite Ht at 1. split; [reflexivity|].
    split; [f_equal; exact Hs | exact Hf].
Qed.

(** C9, as the code has it.  Deleting by id touches nothing but the
    history.  For an id within the [integer] type of the column: when no
    record has the id the answer is 404 and the store is as it was; when
    a record has it the answer is 200, the record is gone, and every
    record of another id is kept; ids being distinct, the history is the
    old one with that single record taken out.  An id beyond that type is
    refused by the store: the answer is 500 and the store is as it
    was. *)
Theorem delete_by_id (db : database) (id : Z) :
  vcftable_rows (snd (delete_calculation db id)) = vcftable_rows db
  /\ oil_tonnages_id_seq (snd (delete_calculation db id)) = oil_tonnages_id_seq db
  /\ ((-2147483648 <= id <= 2147483647)%Z ->
      (forall r, In r (oil_tonnages_rows db) -> oil_tonnages.id r <> id) ->
      delete_calculation db id = (Status404 "Calculation not found", db))
  /\ ((-2147483648 <= id <= 2147483647)%Z ->
      forall r, In r (oil_tonnages_rows db) -> oil_tonnages.id r = id ->
      fst (delete_calculation db id) = Status200 "Calculation deleted successfully"%string
      /\ ~ In r (oil_tonnages_rows (snd (delete_calculation db id)))
      /\ (forall r', oil_tonnages.id r' <> id ->
            (In r' (oil_tonnages_rows (snd (delete_calculation db id)))
             <-> In r' (oil_tonnages_rows db)))
      /\ (NoDup (map oil_tonnages.id (oil_tonnages_rows db)) ->
          exists before after,
            oil_tonnages_rows db = before ++ r :: after
            /\ oil_tonnages_rows (snd (delete_calculation db id)) = before ++ after))
  /\ ((id < -2147483648 \/ 2147483647 < id)%Z ->
      exists message,
        delete_calculation db id = (Status500 delete_failed message, db)).
Proof.
  unfold delete_calculation, delete_returning, SQL.where_, SQL.integer.
  destruct (Z.leb_spec (-2147483648) id) as [L|L];
    destruct (Z.leb_spec id 2147483647) as [U|U]; cbn [andb];
    try (repeat split; try reflexivity; intros;
         first [lia | eexists; reflexivity]).
  set (table := oil_tonnages_rows db).
  set (deleted := filter (fun r => (oil_tonnages.id r =? id)%Z) table).
  set (remaining := filter (fun r => negb (oil_tonnages.id r =? id)%Z) table).
  assert (Hrem : oil_tonnages_rows
                   (snd (match deleted with
                         | [] => (Status404 "Calculation not found", with_rows db remaining)
                         | _ :: _ =>
                             (Status200 "Calculation deleted successfully"%string,
                              with_rows db remaining)
                         end)) = remaining)
    by (destruct deleted; reflexivity).
  split; [destruct deleted; reflexivity|].
  split; [destruct deleted; reflexivity|].
  split; [|split; [|intros; lia]].
  - intros _ Hno.
    assert (D : deleted = []).
    { apply filter_none. intros x Hx. apply Z.eqb_neq, Hno, Hx. }
    assert (R : remaining = table).
    { apply filter_all. intros x Hx. apply negb_true_iff, Z.eqb_neq, Hno, Hx. }
    rewrite D, R. unfold table. rewrite with_rows_same. reflexivity.
  - intros _ r Hr Hid. rewrite Hrem.
    split; [|split; [|split]].
    + destruct deleted as [|x rest] eqn:D; [|reflexivity].
      exfalso. assert (Hin : In r deleted)
        by (apply filter_In; split; [exact Hr | apply Z.eqb_eq, Hid]).
      rewrite D in Hin. destruct Hin.
    + unfold remaining. rewrite filter_In. intros [_ H].
      apply negb_true_iff, Z.eqb_neq in H. contradiction.
    + intros r' Hne. unfold remaining. rewrite filter_In.
      split; [tauto|]. intros Hin. split; [exact Hin|].
      apply negb_true_iff, Z.eqb_neq, Hne.
    + intros ND. destruct (delete_one table r ND Hr) as (before & after & Ht & Hs & _).
      exists before, after. split; [exact Ht|].
      rewrite Hid in Hs. exact Hs.
Qed.

Lemma delete_by_id_witness :
  delete_calculation
    (mkDatabase []
       [oil_tonnages.mk 1 2500 890 30 (95 # 100) 890 30 (211375 # 100000)
          (SQL.mkTimestamp 2025 8 5 17 8 20 0)] 2) 7
  = (Status404 "Calculation not found",
     mkDatabase []
       [oil_tonnages.mk 1 2500 890 30 (95 # 100) 890 30 (211375 # 100000)
          (SQL.mkTimestamp 2025 8 5 17 8 20 0)] 2)
  /\ fst (delete_calculation
            (mkDatabase []
               [oil_tonnages.mk 1 2500 890 30 (95 # 100) 890 30 (211375 # 100000)
                  (SQL.mkTimestamp 2025 8 5 17 8 20 0)] 2) 1)
     = Status200 "Calculation deleted successfully"%string
  /\ exists message,
       delete_calculation
         (mkDatabase []
            [oil_tonnages.mk 1 2500 890 30 (95 # 100) 890 30 (211375 # 100000)
               (SQL.mkTimestamp 2025 8 5 17 8 20 0)] 2) 99999999999
       = (Status500 delete_failed message,
          mkDatabase []
            [oil_tonnages.mk 1 2500 890 30 (95 # 100) 890 30 (211375 # 100000)
               (SQL.mkTimestamp 2025 8 5 17 8 20 0)] 2).
Proof.
  split; [|split].
  - apply (delete_by_id
             (mkDatabase []
                [oil_tonnages.mk 1 2500 890 30 (95 # 100) 890 30 (211375 # 100000)
                   (SQL.mkTimestamp 2025 8 5 17 8 20 0)] 2) 7); [lia|].
    intros r [<-|[]]. discriminate.
  - destruct (delete_by_id
                (mkDatabase []
                   [oil_tonnages.mk 1 2500 890 30 (95 # 100) 890 30 (211375 # 100000)
                      (SQL.mkTimestamp 2025 8 5 17 8 20 0)] 2) 1)
      as (_ & _ & _ & H & _).
    apply (H ltac:(lia)
             (oil_tonnages.mk 1 2500 890 30 (95 # 100) 890 30 (211375 # 100000)
                (SQL.mkTimestamp 2025 8 5 17 8 20 0))).
    + left; reflexivity.
    + reflexivity.
  - destruct (delete_by_id
                (mkDatabase []
                   [oil_tonnages.mk 1 2500 890 30 (95 # 100) 890 30 (211375 # 100000)
                      (SQL.mkTimestamp 2025 8 5 17 8 20 0)] 2) 99999999999)
      as (_ & _ & _ & _ & H).
    apply H. lia.
Defined.

(** C9, as the specification words it, fails for an id beyond the [integer]
    type: no record has the id 2147483648, and the answer is 500, not
    404. *)
Lemma delete_beyond_integer_is_not_404 :
  (forall r,
      In r [oil_tonnages.mk 1 2500 890 30 (95 # 100) 890 30 (211375 # 100000)
              (SQL.mkTimestamp 2025 8 5 17 8 20 0)] ->
      oil_tonnages.id r <> 2147483648%Z)
  /\ (exists message,
        delete_calculation
          (mkDatabase []
             [oil_tonnages.mk 1 2500 890 30 (95 # 100) 890 30 (211375 # 100000)
                (SQL.mkTimestamp 2025 8 5 17 8 20 0)] 2) 2147483648
        = (Status500 delete_failed message,
           mkDatabase []
             [oil_tonnages.mk 1 2500 890 30 (95 # 100) 890 30 (211375 # 100000)
                (SQL.mkTimestamp 2025 8 5 17 8 20 0)] 2))
  /\ delete_calculation
       (mkDatabase []
          [oil_tonnages.mk 1 2500 890 30 (95 # 100) 890 30 (211375 # 100000)
             (SQL.mkTimestamp 2025 8 5 17 8 20 0)] 2) 2147483648
     <> (Status404 "Calculation not found",
         mkDatabase []
           [oil_tonnages.mk 1 2500 890 30 (95 # 100) 890 30 (211375 # 100000)
              (SQL.mkTimestamp 2025 8 5 17 8 20 0)] 2).
Proof.
  split; [|split; [eexists; reflexivity | discriminate]].
  intros r [<-|[]]. discriminate.
Qed.

(** ** Ids stay distinct *)

Lemma ids_distinct_calculate (now : SQL.timestamp) (db : database)
    (body : calculate_body) :
  ids_distinct db -> ids_distinct (snd (post_calculate now db body)).
Proof.
  intros [ND Hlt]. unfold post_calculate.
  destruct (validateCalculationInput body); [|split; assumption].
  destruct (body_volume body) as [v|]; [|split; assumption].
  destruct (body_density body) as [d|]; [|split; assumption].
  destruct (body_temperature body) as [t|]; [|split; assumption].
  unfold calculate.
  destruct (getVCFFromDatabase (vcftable_rows db) d t) as [res|]; [|split; assumption].
  destruct (compute v d (vcf res)) as [n|]; [|split; assumption].
  destruct (insert_row now db v d t (vcf res) (usedDensity res) (usedTemp res) n)
    as [[row|message] db'] eqn:I; simpl.
  - apply insert_row_ok in I.
    destruct I as (Hrows & _ & Hid & Hseq & _). unfold ids_distinct.
    rewrite Hrows, Hseq. split.
    + rewrite map_app. simpl.
      apply (Permutation_NoDup
               (l := oil_tonnages.id row :: map oil_tonnages.id (oil_tonnages_rows db))).
      * apply Permutation_cons_append.
      * constructor; [|exact ND]. rewrite in_map_iff. intros (x & Ex & Hx).
        specialize (Hlt x Hx). rewrite Ex, Hid in Hlt. lia.
    + intros r Hr. apply in_app_or in Hr. destruct Hr as [Hr|[<-|[]]].
      * specialize (Hlt r Hr). lia.
      * rewrite Hid. lia.
  - apply insert_row_error in I. subst db'. split; assumption.
Qed.

Lemma ids_distinct_delete (db : database) (id : Z) :
  ids_distinct db -> ids_distinct (snd (delete_calculation db id)).
Proof.
  intros [ND Hlt]. unfold delete_calculation, delete_returning, SQL.where_.
  destruct (SQL.integer id); [|split; assumption].
  assert (K : ids_distinct
                (with_rows db
                   (filter (fun r => negb (oil_tonnages.id r =? id)%Z)
                      (oil_tonnages_rows db)))).
  { split; simpl.
    - revert ND. generalize (oil_tonnages_rows db) as table.
      induction table as [|x table IH]; simpl; intros ND; [constructor|].
      inversion ND as [|? ? Hx ND']; subst.
      destruct (negb _); [|apply IH, ND'].
      simpl. constructor; [|apply IH, ND'].
      rewrite in_map_iff. intros (y & Ey & Hy). apply Hx.
      apply filter_In in Hy. rewrite <- Ey. apply in_map, Hy.
    - intros r Hr. apply filter_In in Hr. apply Hlt, Hr. }
  destruct (filter (fun r => (oil_tonnages.id r =? id)%Z) (oil_tonnages_rows db));
    exact K.
Qed.

Lemma ids_distinct_clear (db : database) :
  ids_distinct (snd (clear_calculations db)).
Proof.
  split; simpl; [constructor | intros r []].
Qed.

(** * Further properties of the code *)

(** ** [roundToNearest] *)

Lemma scaled_back (value step : Q) : ~ step == 0 -> value / step * step == value.
Proof. intros Hs. field. exact Hs. Qed.

Lemma positive_nonzero (step : Q) : 0 < step -> ~ step == 0.
Proof. intros Hs E. rewrite E in Hs. revert Hs. apply Qlt_irrefl. Qed.

Lemma grid_step_positive (step : Q) : grid_step step -> 0 < step.
Proof. intros [->| ->]; reflexivity. Qed.

(** X1.  On the grids of the server, of step 0.5 and 0.25, a value that
    is on the grid is returned as it is; so rounding twice is rounding
    once. *)
Theorem grid_points_are_fixed (step : Q) :
  grid_step step ->
  (forall k : Z,
      within_grid_range (inject_Z k * step) ->
      roundToNearest (inject_Z k * step) step = inject_Z k * step)
  /\ (forall value,
        within_grid_range value ->
        roundToNearest (roundToNearest value step) step
        = roundToNearest value step).
Proof.
  intros Hg. pose proof (positive_nonzero step (grid_step_positive step Hg)) as Hs.
  assert (G : forall k : Z,
             roundToNearest (inject_Z k * step) step = inject_Z k * step).
  { intros k. unfold roundToNearest. f_equal. f_equal.
    transitivity (JS.Math_round (inject_Z k)); [|apply Math_round_integer].
    unfold JS.Math_round. apply Qfloor_comp. field. exact Hs. }
  split; [intros k _; apply G|].
  intros value _. unfold roundToNearest at 2 3. apply G.
Qed.

Lemma grid_points_are_fixed_witness :
  roundToNearest (inject_Z 1701 * (1 # 2)) (1 # 2) = inject_Z 1701 * (1 # 2).
Proof.
  apply (grid_points_are_fixed (1 # 2)).
  - left. reflexivity.
  - vm_compute. discriminate.
Defined.

(** X2.  Rounding keeps the order of its inputs. *)
Theorem roundToNearest_monotone (v w step : Q) :
  0 < step -> v <= w -> roundToNearest v step <= roundToNearest w step.
Proof.
  intros Hs Hvw. unfold roundToNearest, JS.Math_round.
  apply Qmult_le_compat_r; [|apply Qlt_le_weak, Hs].
  rewrite <- Zle_Qle. apply Qfloor_resp_le.
  apply Qplus_le_compat; [|apply Qle_refl].
  unfold Qdiv. apply Qmult_le_compat_r; [exact Hvw|].
  apply Qlt_le_weak, Qinv_lt_0_compat, Hs.
Qed.

Lemma roundToNearest_monotone_witness :
  roundToNearest (84974 # 100) (1 # 2) <= roundToNearest (85026 # 100) (1 # 2).
Proof.
  apply roundToNearest_monotone; [reflexivity | discriminate].
Defined.

(** X3.  On the grids of the server, the inputs that round to the grid
    point [k * step] are those from half a step below it, included, to
    half a step above it, excluded. *)
Theorem roundToNearest_cell (value step : Q) (k : Z) :
  grid_step step -> within_grid_range value ->
  (roundToNearest value step = inject_Z k * step
   <-> inject_Z k * step - step * (1 # 2) <= value
       /\ value < inject_Z k * step + step * (1 # 2)).
Proof.
  intros Hg _. pose proof (grid_step_positive step Hg) as Hs.
  pose proof (positive_nonzero step Hs) as Hnz.
  pose proof (scaled_back value step Hnz) as Hv.
  set (x := value / step) in *.
  assert (Hcell : JS.Math_round x = k
                  <-> inject_Z k * step - step * (1 # 2) <= value
                      /\ value < inject_Z k * step + step * (1 # 2)).
  { unfold JS.Math_round. split.
    - intros <-.
      pose proof (Qfloor_le (x + (1 # 2))) as H1.
      pose proof (Qlt_floor (x + (1 # 2))) as H2.
      rewrite inject_Z_plus in H2. change (inject_Z 1) with 1 in H2.
      set (f := inject_Z (Qfloor (x + (1 # 2)))) in *.
      apply (Qmult_le_r _ _ step Hs) in H1.
      apply (Qmult_lt_r _ _ step Hs) in H2.
      assert (E1 : (x + (1 # 2)) * step == value + step * (1 # 2))
        by (rewrite <- Hv; ring).
      assert (E2 : (f + 1) * step == f * step + step) by ring.
      rewrite E1 in H1, H2. rewrite E2 in H2. split; lra.
    - intros [Hlo Hhi]. apply Qfloor_unique.
      + apply (Qmult_le_r _ _ step Hs).
        assert (E1 : (x + (1 # 2)) * step == value + step * (1 # 2))
          by (rewrite <- Hv; ring).
        rewrite E1. lra.
      + rewrite inject_Z_plus. change (inject_Z 1) with 1.
        apply (Qmult_lt_r _ _ step Hs).
        assert (E1 : (x + (1 # 2)) * step == value + step * (1 # 2))
          by (rewrite <- Hv; ring).
        assert (E2 : (inject_Z k + 1) * step == inject_Z k * step + step) by ring.
        rewrite E1, E2. lra. }
  rewrite <- Hcell. unfold roundToNearest. fold x. split.
  - intros E.
    assert (Q1 : inject_Z (JS.Math_round x) * step == inject_Z k * step)
      by (rewrite E; reflexivity).
    apply (proj1 (Qmult_inj_r _ _ step Hnz)) in Q1.
    exact (proj1 (inject_Z_injective _ _) Q1).
  - intros ->. reflexivity.
Qed.

Lemma roundToNearest_cell_witness :
  roundToNearest (85025 # 100) (1 # 2) = inject_Z 1701 * (1 # 2).
Proof.
  apply (roundToNearest_cell (85025 # 100) (1 # 2) 1701).
  - left. reflexivity.
  - vm_compute. discriminate.
  - split; [discriminate | reflexivity].
Defined.

(** X4.  On the grids of the server, no point of the grid is nearer to
    the input than the one returned. *)
Theorem roundToNearest_is_nearest (value step : Q) (k : Z) :
  grid_step step -> within_grid_range value ->
  Qabs (value - roundToNearest value step) <= Qabs (value - inject_Z k * step).
Proof.
  intros Hg _. pose proof (grid_step_positive step Hg) as Hs.
  destruct (roundToNearest_bounds value step Hs) as [Hlo Hhi].
  unfold roundToNearest in *.
  set (m := JS.Math_round (value / step)) in *.
  assert (Hnear : Qabs (value - inject_Z m * step) <= step * (1 # 2)).
  { apply Qabs_Qle_condition. split; lra. }
  destruct (Z.lt_trichotomy k m) as [Hk|[->|Hk]].
  - assert (Hkm : inject_Z k * step <= inject_Z m * step - step).
    { assert (E : inject_Z m * step - step == (inject_Z m - 1) * step) by ring.
      rewrite E. apply Qmult_le_compat_r; [|apply Qlt_le_weak, Hs].
      assert (Hz : (k <= m - 1)%Z) by lia.
      rewrite Zle_Qle in Hz. unfold Z.sub in Hz.
      rewrite inject_Z_plus, inject_Z_opp in Hz.
      change (inject_Z 1) with 1 in Hz. lra. }
    apply Qle_trans with (step * (1 # 2)); [exact Hnear|].
    apply Qabs_ge. lra.
  - apply Qle_refl.
  - assert (Hkm : inject_Z m * step + step <= inject_Z k * step).
    { assert (E : inject_Z m * step + step == (inject_Z m + 1) * step) by ring.
      rewrite E. apply Qmult_le_compat_r; [|apply Qlt_le_weak, Hs].
      assert (Hz : (m + 1 <= k)%Z) by lia.
      rewrite Zle_Qle in Hz. rewrite inject_Z_plus in Hz.
      change (inject_Z 1) with 1 in Hz. exact Hz. }
    apply Qle_trans with (step * (1 # 2)); [exact Hnear|].
    rewrite <- (Qabs_opp (value - inject_Z k * step)).
    apply Qabs_ge. lra.
Qed.

Lemma roundToNearest_is_nearest_witness :
  Qabs ((203 # 10) - roundToNearest (203 # 10) (1 # 4))
  <= Qabs ((203 # 10) - inject_Z 82 * (1 # 4)).
Proof.
  apply roundToNearest_is_nearest.
  - right. reflexivity.
  - vm_compute. discriminate.
Defined.

Lemma Math_round_le (x y : Q) : x <= y -> (JS.Math_round x <= JS.Math_round y)%Z.
Proof.
  intros H. unfold JS.Math_round. apply Qfloor_resp_le. lra.
Qed.

Lemma scaled_le (x y step : Q) : 0 < step -> x <= y -> x / step <= y / step.
Proof.
  intros Hs H. unfold Qdiv. apply Qmult_le_compat_r; [exact H|].
  apply Qlt_le_weak, Qinv_lt_0_compat, Hs.
Qed.

(** X5.  A density and a temperature that pass the validation are rounded
    to grid points that are still in the validated ranges. *)
Theorem validated_inputs_round_within_range (density temperature : Q) :
  700 <= density <= 1000 -> -20 <= temperature <= 60 ->
  700 <= roundToNearest density (1 # 2) <= 1000
  /\ -20 <= roundToNearest temperature (1 # 4) <= 60.
Proof.
  intros [Hd1 Hd2] [Ht1 Ht2]. unfold roundToNearest.
  assert (Sd : 0 < 1 # 2) by reflexivity.
  assert (St : 0 < 1 # 4) by reflexivity.
  pose proof (Math_round_le _ _ (scaled_le _ _ _ Sd Hd1)) as D1.
  pose proof (Math_round_le _ _ (scaled_le _ _ _ Sd Hd2)) as D2.
  pose proof (Math_round_le _ _ (scaled_le _ _ _ St Ht1)) as T1.
  pose proof (Math_round_le _ _ (scaled_le _ _ _ St Ht2)) as T2.
  change (JS.Math_round (700 / (1 # 2))) with 1400%Z in D1.
  change (JS.Math_round (1000 / (1 # 2))) with 2000%Z in D2.
  change (JS.Math_round (-20 / (1 # 4))) with (-80)%Z in T1.
  change (JS.Math_round (60 / (1 # 4))) with 240%Z in T2.
  rewrite Zle_Qle in D1, D2, T1, T2.
  change (inject_Z 1400) with 1400 in D1. change (inject_Z 2000) with 2000 in D2.
  change (inject_Z (-80)) with (-80) in T1. change (inject_Z 240) with 240 in T2.
  repeat split; lra.
Qed.

Lemma validated_inputs_round_within_range_witness :
  700 <= roundToNearest (99999 # 100) (1 # 2) <= 1000
  /\ -20 <= roundToNearest (- (1999 # 100)) (1 # 4) <= 60.
Proof.
  apply validated_inputs_round_within_range; split; discriminate.
Defined.

(** ** [validateCalculationInput] *)

(** X6.  A body whose fields are JSON numbers where it has them passes
    the validation exactly when it has all three, the volume positive,
    the density from 700 to 1000 and the temperature from -20 to 60, the
    ends included. *)
Theorem validation_accepts_exactly (body : calculate_body) :
  validateCalculationInput body = []
  <-> exists volume density temperature,
        body_volume body = Some volume /\ body_density body = Some density
        /\ body_temperature body = Some temperature
        /\ 0 < volume /\ 700 <= density <= 1000 /\ -20 <= temperature <= 60.
Proof.
  split; [apply validateCalculationInput_ok|].
  intros (v & d & t & E1 & E2 & E3 & Hv & [Hd1 Hd2] & [Ht1 Ht2]).
  unfold validateCalculationInput, volume_errors, density_errors, temperature_errors.
  rewrite E1, E2, E3.
  assert (B1 : Qle_bool v 0 = false).
  { destruct (Qle_bool v 0) eqn:E; [|reflexivity].
    apply Qle_bool_iff in E. lra. }
  apply Qle_bool_iff in Hd1, Hd2, Ht1, Ht2.
  rewrite B1, Hd1, Hd2, Ht1, Ht2. reflexivity.
Qed.

(** X7.  For a body whose fields are JSON numbers where it has them, the
    validation reports every field that fails, not only the first: each
    of the three messages is among the details exactly when its field is
    missing or out of its range. *)
Theorem validation_reports_each_field (body : calculate_body) :
  (In volume_error (validateCalculationInput body)
   <-> forall v, body_volume body = Some v -> v <= 0)
  /\ (In density_error (validateCalculationInput body)
      <-> forall d, body_density body = Some d -> d < 700 \/ 1000 < d)
  /\ (In temperature_error (validateCalculationInput body)
      <-> forall t, body_temperature body = Some t -> t < -20 \/ 60 < t).
Proof.
  unfold validateCalculationInput.
  assert (V : forall m, In m (volume_errors (body_volume body))
                        <-> m = volume_error
                            /\ forall v, body_volume body = Some v -> v <= 0).
  { intros m. unfold volume_errors. destruct (body_volume body) as [v|].
    - destruct (Qle_bool v 0) eqn:E; simpl.
      + apply Qle_bool_iff in E. split.
        * intros [<-|[]]. split; [reflexivity|]. intros v' [= <-]. exact E.
        * intros [-> _]. left; reflexivity.
      + split; [intros []|]. intros [_ H]. specialize (H v eq_refl).
        apply Qle_bool_iff in H. congruence.
    - simpl. split.
      + intros [<-|[]]. split; [reflexivity | discriminate].
      + intros [-> _]. left; reflexivity. }
  assert (D : forall m, In m (density_errors (body_density body))
                        <-> m = density_error
                            /\ forall d, body_density body = Some d ->
                                         d < 700 \/ 1000 < d).
  { intros m. unfold density_errors. destruct (body_density body) as [d|].
    - destruct (Qle_bool 700 d) eqn:E1; destruct (Qle_bool d 1000) eqn:E2; simpl;
        try (apply Qle_bool_iff in E1); try (apply Qle_bool_iff in E2).
      + split; [intros []|]. intros [_ H]. destruct (H d eq_refl); lra.
      + split.
        * intros [<-|[]]. split; [reflexivity|]. intros d' [= <-]. right.
          apply Qnot_le_lt. intros C. apply Qle_bool_iff in C. congruence.
        * intros [-> _]. left; reflexivity.
      + split.
        * intros [<-|[]]. split; [reflexivity|]. intros d' [= <-]. left.
          apply Qnot_le_lt. intros C. apply Qle_bool_iff in C. congruence.
        * intros [-> _]. left; reflexivity.
      + split.
        * intros [<-|[]]. split; [reflexivity|]. intros d' [= <-]. left.
          apply Qnot_le_lt. intros C. apply Qle_bool_iff in C. congruence.
        * intros [-> _]. left; reflexivity.
    - simpl. split.
      + intros [<-|[]]. split; [reflexivity | discriminate].
      + intros [-> _]. left; reflexivity. }
  assert (T : forall m, In m (temperature_errors (body_temperature body))
                        <-> m = temperature_error
                            /\ forall t, body_temperature body = Some t ->
                                         t < -20 \/ 60 < t).
  { intros m. unfold temperature_errors. destruct (body_temperature body) as [t|].
    - destruct (Qle_bool (-20) t) eqn:E1; destruct (Qle_bool t 60) eqn:E2; simpl;
        try (apply Qle_bool_iff in E1); try (apply Qle_bool_iff in E2).
      + split; [intros []|]. intros [_ H]. destruct (H t eq_refl); lra.
      + split.
        * intros [<-|[]]. split; [reflexivity|]. intros t' [= <-]. right.
          apply Qnot_le_lt. intros C. apply Qle_bool_iff in C. congruence.
        * intros [-> _]. left; reflexivity.
      + split.
        * intros [<-|[]]. split; [reflexivity|]. intros t' [= <-]. left.
          apply Qnot_le_lt. intros C. apply Qle_bool_iff in C. congruence.
        * intros [-> _]. left; reflexivity.
      + split.
        * intros [<-|[]]. split; [reflexivity|]. intros t' [= <-]. left.
          apply Qnot_le_lt. intros C. apply Qle_bool_iff in C. congruence.
        * intros [-> _]. left; reflexivity.
    - simpl. split.
      + intros [<-|[]]. split; [reflexivity | discriminate].
      + intros [-> _]. left; reflexivity. }
  rewrite !in_app_iff, !V, !D, !T.
  assert (N1 : volume_error <> density_error) by discriminate.
  assert (N2 : volume_error <> temperature_error) by discriminate.
  assert (N3 : density_error <> temperature_error) by discriminate.
  repeat split; intuition congruence.
Qed.

(** ** [getVCFFromDatabase] *)

(** X8.  Every answer of the resolver comes from the table: there is a
    row whose vcf is the one returned and whose density and temperature
    are the [usedDensity] and [usedTemp] returned. *)
Theorem resolved_vcf_is_stored
    (tbl : list vcftable.row) (density temperature : Q) (res : vcfData) :
  getVCFFromDatabase tbl density temperature = Ok res ->
  exists e,
    In e tbl /\ vcftable.vcf e = vcf res
    /\ vcftable.density e == usedDensity res
    /\ vcftable.temperature e == usedTemp res.
Proof.
  intros E. unfold getVCFFromDatabase in E.
  set (rd := roundToNearest density (1 # 2)) in *.
  set (rt := roundToNearest temperature (1 # 4)) in *.
  destruct (exactMatchQuery tbl rd rt) as [|e0 rest] eqn:X.
  - destruct tbl as [|x tbl]; [discriminate|].
    assert (Hne : x :: tbl <> []) by discriminate.
    destruct (closestDensityQuery_spec (x :: tbl) rd Hne) as (r & Er & Hr & _).
    destruct (closestTempQuery_spec (x :: tbl) (vcftable.density r) rt r Hr
                (Qeq_refl _)) as (e & Ee & He & Hed & _).
    rewrite Er, Ee in E. injection E as <-. simpl.
    exists e. split; [exact He|]. split; [reflexivity|].
    split; [exact Hed | apply Qeq_refl].
  - destruct (exactMatchQuery_cons _ _ _ _ _ X) as (_ & He0 & [Hd Ht]).
    injection E as <-. simpl.
    exists e0. split; [exact He0|]. split; [reflexivity|]. split; assumption.
Qed.

Lemma resolved_vcf_is_stored_witness :
  exists e,
    In e [vcftable.mk 700 60 (9 # 10); vcftable.mk (1403 # 2) 20 (95 # 100)]
    /\ vcftable.vcf e = 9 # 10.
Proof.
  destruct (resolved_vcf_is_stored
              [vcftable.mk 700 60 (9 # 10); vcftable.mk (1403 # 2) 20 (95 # 100)]
              (7004 # 10) 20
              {| vcf := 9 # 10; usedDensity := 700; usedTemp := 60 |})
    as (e & He & Hv & _).
  - reflexivity.
  - exists e. split; [exact He | exact Hv].
Defined.

(** ** [POST /api/calculate] *)

(** X9.  A successful calculate operation adds one row at the end of the
    history and changes nothing else but the sequence: the row takes the
    next value of the sequence, a value of the [integer] type, as id and
    the current time as creation time, the response reports that id, and
    the vcf and used density and temperature of the response are the
    resolver's answer for the density and the temperature of the
    request. *)
Theorem calculate_appends_one_record
    (now : SQL.timestamp) (db db' : database) (body : calculate_body)
    (data : calculation) :
  post_calculate now db body = (Status200 data, db') ->
  exists row,
    oil_tonnages_rows db' = oil_tonnages_rows db ++ [row]
    /\ vcftable_rows db' = vcftable_rows db
    /\ oil_tonnages_id_seq db' = (oil_tonnages_id_seq db + 1)%Z
    /\ oil_tonnages.id row = oil_tonnages_id_seq db
    /\ (-2147483648 <= oil_tonnages.id row <= 2147483647)%Z
    /\ data_id data = oil_tonnages.id row
    /\ oil_tonnages.created_at row = now
    /\ body_temperature body = Some (data_temperature data)
    /\ getVCFFromDatabase (vcftable_rows db) (data_density data)
         (data_temperature data)
       = Ok {| vcf := data_vcf data;
               usedDensity := data_usedDensity data;
               usedTemp := data_usedTemp data |}.
Proof.
  intros E.
  destruct (post_calculate_success _ _ _ _ _ E) as (v & d & t & _ & _ & E3 & C).
  destruct (calculate_success _ _ _ _ _ _ _ C) as (res & n & row & R & _ & I & ->).
  pose proof (insert_row_integer _ _ _ _ _ _ _ _ _ _ _ I) as Hint.
  apply insert_row_ok in I.
  destruct I as (Hrows & Hvcf & Hid & Hseq & Hnow & _).
  exists row. simpl.
  split; [assumption|]. split; [assumption|]. split; [assumption|].
  split; [assumption|]. split.
  { unfold SQL.integer in Hint. apply andb_true_iff in Hint.
    rewrite !Z.leb_le in Hint. exact Hint. }
  repeat (split; [assumption || reflexivity|]).
  rewrite R. destruct res; reflexivity.
Qed.

Lemma calculate_appends_one_record_witness :
  exists row,
    oil_tonnages.id row = 1%Z
    /\ oil_tonnages.created_at row = SQL.mkTimestamp 2025 8 5 17 8 20 0.
Proof.
  destruct (calculate_appends_one_record
              (SQL.mkTimestamp 2025 8 5 17 8 20 0)
              (mkDatabase [vcftable.mk 890 30 (95 # 100)] [] 1)
              (snd (post_calculate (SQL.mkTimestamp 2025 8 5 17 8 20 0)
                      (mkDatabase [vcftable.mk 890 30 (95 # 100)] [] 1)
                      (mkBody (Some 2500) (Some 890) (Some 30))))
              (mkBody (Some 2500) (Some 890) (Some 30))
              {| data_id := 1; data_volume := 2500; data_density := 890;
                 data_temperature := 30; data_vcf := 95 # 100;
                 data_usedDensity := roundToNearest 890 (1 # 2);
                 data_usedTemp := roundToNearest 30 (1 # 4);
                 data_tonnage := 1691 # 800;
                 data_timestamp := SQL.mkTimestamp 2025 8 5 17 8 20 0 |})
    as (row & _ & _ & _ & Hid & _ & _ & Hnow & _).
  - vm_compute. reflexivity.
  - exists row. split; [exact Hid | exact Hnow].
Defined.

(** X10.  Whenever the calculate operation does not answer 200, the
    history and the reference table are as they were. *)
Theorem failed_calculate_keeps_the_tables
    (now : SQL.timestamp) (db : database) (body : calculate_body) :
  (forall data, fst (post_calculate now db body) <> Status200 data) ->
  oil_tonnages_rows (snd (post_calculate now db body)) = oil_tonnages_rows db
  /\ vcftable_rows (snd (post_calculate now db body)) = vcftable_rows db.
Proof.
  intros Hfail. unfold post_calculate in *.
  destruct (validateCalculationInput body); [|split; reflexivity].
  destruct (body_volume body) as [v|]; [|split; reflexivity].
  destruct (body_density body) as [d|]; [|split; reflexivity].
  destruct (body_temperature body) as [t|]; [|split; reflexivity].
  unfold calculate in *.
  destruct (getVCFFromDatabase (vcftable_rows db) d t) as [res|];
    [|split; reflexivity].
  destruct (compute v d (vcf res)) as [n|]; [|split; reflexivity].
  destruct (insert_row now db v d t (vcf res) (usedDensity res) (usedTemp res) n)
    as [[row|message] db1] eqn:I.
  - exfalso. eapply Hfail. reflexivity.
  - simpl. apply insert_row_error in I. subst db1. split; reflexivity.
Qed.

Lemma failed_calculate_keeps_the_tables_witness :
  oil_tonnages_rows
    (snd (post_calculate (SQL.mkTimestamp 2025 8 5 17 8 20 0)
            (mkDatabase [vcftable.mk 890 30 (95 # 100)] [] 1)
            (mkBody (Some 2500) (Some 1200) None))) = [].
Proof.
  apply (failed_calculate_keeps_the_tables
           (SQL.mkTimestamp 2025 8 5 17 8 20 0)
           (mkDatabase [vcftable.mk 890 30 (95 # 100)] [] 1)
           (mkBody (Some 2500) (Some 1200) None)).
  intros data. discriminate.
Defined.

(** X11.  The row a successful calculate operation stores holds the
    request and the result as its decimal columns can: the volume, the
    density and the temperature within 0.005 of the request, the tonnage
    within 0.000000005 of the tonnage returned. *)
Theorem stored_record_is_close_to_the_response
    (now : SQL.timestamp) (db db' : database) (body : calculate_body)
    (data : calculation) :
  post_calculate now db body = (Status200 data, db') ->
  exists row,
    oil_tonnages_rows db' = oil_tonnages_rows db ++ [row]
    /\ Qabs (oil_tonnages.volume row - data_volume data) <= 1 # 200
    /\ Qabs (oil_tonnages.density row - data_density data) <= 1 # 200
    /\ Qabs (oil_tonnages.temperature row - data_temperature data) <= 1 # 200
    /\ Qabs (oil_tonnages.tonnage row - data_tonnage data) <= 1 # 200000000.
Proof.
  intros E.
  destruct (post_calculate_success _ _ _ _ _ E) as (v & d & t & _ & _ & _ & C).
  destruct (calculate_success _ _ _ _ _ _ _ C) as (res & n & row & _ & _ & I & ->).
  apply insert_row_ok in I.
  destruct I as (Hrows & _ & _ & _ & _ & Hv & Hd & Ht & _ & _ & _ & Hn).
  apply DECIMAL_close in Hv, Hd, Ht, Hn.
  change (inject_Z (10 ^ Z.of_nat 2)) with 100 in Hv, Hd, Ht.
  change (inject_Z (10 ^ Z.of_nat 8)) with 100000000 in Hn.
  exists row. cbn [data_volume data_density data_temperature data_tonnage].
  split; [exact Hrows|].
  set (a := Qabs (oil_tonnages.volume row - v)) in *.
  set (b := Qabs (oil_tonnages.density row - d)) in *.
  set (c := Qabs (oil_tonnages.temperature row - t)) in *.
  set (e := Qabs (oil_tonnages.tonnage row - n)) in *.
  repeat split; lra.
Qed.

Lemma stored_record_is_close_to_the_response_witness :
  exists row,
    Qabs (oil_tonnages.tonnage row - (6999993 # 10000000000))
    <= 1 # 200000000.
Proof.
  destruct (stored_record_is_close_to_the_response
              (SQL.mkTimestamp 2025 8 5 17 8 20 0)
              (mkDatabase [vcftable.mk 700 20 (999999 # 1000000)] [] 1)
              (snd (post_calculate (SQL.mkTimestamp 2025 8 5 17 8 20 0)
                      (mkDatabase [vcftable.mk 700 20 (999999 # 1000000)] [] 1)
                      (mkBody (Some 1) (Some 700) (Some 20))))
              (mkBody (Some 1) (Some 700) (Some 20))
              {| data_id := 1; data_volume := 1; data_density := 700;
                 data_temperature := 20; data_vcf := 999999 # 1000000;
                 data_usedDensity := roundToNearest 700 (1 # 2);
                 data_usedTemp := roundToNearest 20 (1 # 4);
                 data_tonnage := 6999993 # 10000000000;
                 data_timestamp := SQL.mkTimestamp 2025 8 5 17 8 20 0 |})
    as (row & _ & _ & _ & _ & Hn).
  - vm_compute. reflexivity.
  - exists row. exact Hn.
Defined.

(** X12.  The validation puts no upper bound on the volume, the column
    does: a request that passes the validation and resolves, with a
    volume of ten million millions or more, is answered 500 with the
    store's overflow message, and no record is added. *)
Theorem oversized_volume_is_refused
    (now : SQL.timestamp) (db : database) (body : calculate_body)
    (volume density temperature : Q) (res : vcfData) :
  validateCalculationInput body = [] ->
  body_volume body = Some volume -> body_density body = Some density ->
  body_temperature body = Some temperature ->
  getVCFFromDatabase (vcftable_rows db) density temperature = Ok res ->
  10000000000000 <= volume ->
  fst (post_calculate now db body)
  = Status500 calculate_failed SQL.numeric_overflow
  /\ oil_tonnages_rows (snd (post_calculate now db body)) = oil_tonnages_rows db.
Proof.
  intros V E1 E2 E3 R Hbig.
  rewrite (post_calculate_validated now db body _ _ _ V E1 E2 E3).
  unfold calculate. rewrite R.
  assert (O : SQL.DECIMAL 15 2 volume = Error SQL.numeric_overflow).
  { unfold SQL.DECIMAL.
    assert (U : (10 ^ Z.of_nat 15 <= SQL.unscaled 2 volume)%Z).
    { unfold SQL.unscaled, SQL.round_numeric.
      change (inject_Z (10 ^ Z.of_nat 2)) with 100.
      assert (P : Qle_bool 0 (volume * 100) = true) by (apply Qle_bool_iff; lra).
      rewrite P.
      change (10 ^ Z.of_nat 15)%Z with (Qfloor (inject_Z 1000000000000000)).
      apply Qfloor_resp_le.
      change (inject_Z 1000000000000000) with 1000000000000000. lra. }
    destruct (Z.ltb_spec (Z.abs (SQL.unscaled 2 volume)) (10 ^ Z.of_nat 15));
      [lia | reflexivity]. }
  destruct (compute volume density (vcf res)); [|split; reflexivity].
  unfold insert_row. rewrite O. simpl. split; reflexivity.
Qed.

Lemma oversized_volume_is_refused_witness :
  fst (post_calculate (SQL.mkTimestamp 2025 8 5 17 8 20 0)
         (mkDatabase [vcftable.mk 890 30 (95 # 100)] [] 1)
         (mkBody (Some 10000000000000) (Some 890) (Some 30)))
  = Status500 calculate_failed SQL.numeric_overflow.
Proof.
  apply (oversized_volume_is_refused (SQL.mkTimestamp 2025 8 5 17 8 20 0)
           (mkDatabase [vcftable.mk 890 30 (95 # 100)] [] 1)
           (mkBody (Some 10000000000000) (Some 890) (Some 30))
           10000000000000 890 30
           {| vcf := 95 # 100; usedDensity := roundToNearest 890 (1 # 2);
              usedTemp := roundToNearest 30 (1 # 4) |});
    try reflexivity. discriminate.
Defined.

(** ** [GET /api/calculations] *)

(** What a listing reports of the request and of the total. *)
Lemma get_calculations_pagination (db : database) (q : list_query) (l : listing) :
  get_calculations db q = Status200 l ->
  pagination_page l = page_of q
  /\ pagination_limit l = limit_of q
  /\ pagination_pages l
     = if (limit_of q =? 0)%Z then None
       else Some (Qceiling (inject_Z (pagination_total l) / inject_Z (limit_of q))).
Proof.
  unfold get_calculations.
  destruct (order_of q) as [order|]; [|discriminate].
  destruct (order_clause _ _) as [leb|]; [|discriminate].
  destruct (negb (SQL.text (search_of q))); [discriminate|].
  destruct (negb (SQL.bigint (limit_of q)) || negb (SQL.bigint (offset_of q)));
    [discriminate|].
  destruct (offset_of q <? 0)%Z; [discriminate|].
  destruct (limit_of q <? 0)%Z; [discriminate|].
  intros E. injection E as <-. simpl. repeat split; reflexivity.
Qed.

(** X13.  For a page and a limit within the safe integers of JavaScript,
    with an offset [(page - 1) * limit] that is one too, an order that
    is a string and a search the store takes as a text, the listing
    answers 200 exactly when the limit and the offset are not negative;
    page 0 with a positive limit, or a negative limit, is answered 500,
    and when both are negative it is the offset the store complains
    about. *)
Theorem listing_succeeds_exactly (db : database) (q : list_query) (order : string) :
  order_of q = Text order ->
  SQL.text (search_of q) = true ->
  safe_integer (page_of q) -> safe_integer (limit_of q) ->
  safe_integer ((page_of q - 1) * limit_of q) ->
  ((exists l, get_calculations db q = Status200 l)
   <-> (0 <= limit_of q)%Z /\ (0 <= (page_of q - 1) * limit_of q)%Z)
  /\ ((limit_of q < 0)%Z \/ ((page_of q - 1) * limit_of q < 0)%Z ->
      exists message, get_calculations db q = Status500 list_failed message)
  /\ (((page_of q - 1) * limit_of q < 0)%Z ->
      get_calculations db q
      = Status500 list_failed "OFFSET must not be negative")
  /\ ((0 <= (page_of q - 1) * limit_of q)%Z -> (limit_of q < 0)%Z ->
      get_calculations db q
      = Status500 list_failed "LIMIT must not be negative").
Proof.
  intros O Ht _ Sl So. unfold safe_integer, JS.MAX_SAFE_INTEGER in Sl, So.
  assert (F : forall message,
             get_calculations db q = Status500 list_failed message
             -> exists message, get_calculations db q = Status500 list_failed message)
    by (intros message E; exists message; exact E).
  assert (Hoff : ((page_of q - 1) * limit_of q < 0)%Z ->
                 get_calculations db q
                 = Status500 list_failed "OFFSET must not be negative").
  { intros Hneg. unfold get_calculations. rewrite O.
    destruct (order_clause_accepts (sortColumn (sort_of q)) (sortOrder order)
                (sortColumn_valid _) (sortOrder_valid _)) as [leb ->].
    assert (B1 : SQL.bigint (limit_of q) = true).
    { unfold SQL.bigint. apply andb_true_iff. rewrite !Z.leb_le. lia. }
    assert (B2 : SQL.bigint (offset_of q) = true).
    { unfold SQL.bigint, offset_of. apply andb_true_iff. rewrite !Z.leb_le. lia. }
    rewrite Ht, B1, B2. simpl.
    destruct (Z.ltb_spec (offset_of q) 0) as [_|H]; [reflexivity|].
    unfold offset_of in H. lia. }
  assert (Hlim : (0 <= (page_of q - 1) * limit_of q)%Z -> (limit_of q < 0)%Z ->
                 get_calculations db q
                 = Status500 list_failed "LIMIT must not be negative").
  { intros Hpos Hneg. unfold get_calculations. rewrite O.
    destruct (order_clause_accepts (sortColumn (sort_of q)) (sortOrder order)
                (sortColumn_valid _) (sortOrder_valid _)) as [leb ->].
    assert (B1 : SQL.bigint (limit_of q) = true).
    { unfold SQL.bigint. apply andb_true_iff. rewrite !Z.leb_le. lia. }
    assert (B2 : SQL.bigint (offset_of q) = true).
    { unfold SQL.bigint, offset_of. apply andb_true_iff. rewrite !Z.leb_le. lia. }
    rewrite Ht, B1, B2. simpl.
    destruct (Z.ltb_spec (offset_of q) 0) as [H|_]; [unfold offset_of in H; lia|].
    destruct (Z.ltb_spec (limit_of q) 0) as [_|H]; [reflexivity | lia]. }
  split; [split|split; [|split; assumption]].
  - intros [l E].
    destruct (get_calculations_ok db q l E) as (_ & _ & _ & _ & Hl & Ho & _).
    split; assumption.
  - intros [Hl Ho].
    destruct (get_calculations_shape db q order O Ht) as (leb & _ & E).
    + unfold JS.MAX_SAFE_INTEGER. lia.
    + unfold JS.MAX_SAFE_INTEGER, offset_of. lia.
    + eexists; exact E.
  - intros Hbad.
    destruct (Z.lt_ge_cases ((page_of q - 1) * limit_of q) 0) as [H|H].
    + eapply F, Hoff, H.
    + eapply F, Hlim; [exact H | lia].
Qed.

Lemma listing_succeeds_exactly_witness :
  (exists message,
      get_calculations (mkDatabase [] [] 1)
        (mkQuery (Some 0%Z) (Some 10%Z) None None None)
      = Status500 list_failed message)
  /\ get_calculations (mkDatabase [] [] 1)
       (mkQuery (Some 0%Z) (Some (-10)%Z) None None None)
     = Status500 list_failed "LIMIT must not be negative".
Proof.
  split.
  - destruct (listing_succeeds_exactly (mkDatabase [] [] 1)
                (mkQuery (Some 0%Z) (Some 10%Z) None None None) "DESC" eq_refl
                eq_refl ltac:(vm_compute; discriminate) ltac:(vm_compute; discriminate)
                ltac:(vm_compute; discriminate))
      as (_ & H & _).
    apply H. right. reflexivity.
  - destruct (listing_succeeds_exactly (mkDatabase [] [] 1)
                (mkQuery (Some 0%Z) (Some (-10)%Z) None None None) "DESC" eq_refl
                eq_refl ltac:(vm_compute; discriminate) ltac:(vm_compute; discriminate)
                ltac:(vm_compute; discriminate))
      as (_ & _ & _ & H).
    apply H; [vm_compute; discriminate | reflexivity].
Defined.

Lemma limit_length {A : Type} (n : nat) (l : list A) :
  (List.length (SQL.limit n l) <= n)%nat
  /\ (List.length (SQL.limit n l) <= List.length l)%nat.
Proof.
  unfold SQL.limit. rewrite length_firstn. lia.
Qed.

Lemma offset_length {A : Type} (n : nat) (l : list A) :
  List.length (SQL.offset n l) = (List.length l - n)%nat.
Proof.
  unfold SQL.offset. apply length_skipn.
Qed.

(** X14.  A page never holds more rows than the limit, nor more than the
    total; its rows are rows of the history that pass the filter, and
    the total counts all of those, on whatever page. *)
Theorem page_is_bounded (db : database) (q : list_query) (l : listing) :
  get_calculations db q = Status200 l ->
  (Z.of_nat (List.length (rows l)) <= limit_of q)%Z
  /\ (Z.of_nat (List.length (rows l)) <= pagination_total l)%Z
  /\ (forall r, In r (rows l) ->
        In r (oil_tonnages_rows db) /\ whereClause (search_of q) r = true)
  /\ pagination_total l
     = Z.of_nat (List.length (filter (whereClause (search_of q))
                                (oil_tonnages_rows db))).
Proof.
  intros E.
  destruct (get_calculations_ok db q l E)
    as (order & leb & _ & _ & Hl & _ & Hrows & Htotal).
  set (matching := SQL.where_ (whereClause (search_of q)) (oil_tonnages_rows db)) in *.
  split; [|split; [|split]].
  - rewrite Hrows.
    destruct (limit_length (Z.to_nat (limit_of q))
                (SQL.offset (Z.to_nat (offset_of q)) (SQL.order_by leb matching)))
      as [H _]. lia.
  - rewrite Hrows, Htotal.
    destruct (limit_length (Z.to_nat (limit_of q))
                (SQL.offset (Z.to_nat (offset_of q)) (SQL.order_by leb matching)))
      as [_ H].
    rewrite offset_length in H.
    rewrite (Permutation_length (order_by_perm leb matching)) in H. lia.
  - intros r Hr. rewrite Hrows in Hr. apply page_In in Hr.
    unfold matching, SQL.where_ in Hr. apply filter_In in Hr. exact Hr.
  - exact Htotal.
Qed.

Lemma page_is_bounded_witness :
  (Z.of_nat
     (List.length
        [oil_tonnages.mk 2 1000 850 20 1 850 20 (85 # 100)
           (SQL.mkTimestamp 2025 8 5 17 9 0 0)]) <= 1)%Z.
Proof.
  apply (page_is_bounded
           (mkDatabase []
              [oil_tonnages.mk 1 2500 890 30 (95 # 100) 890 30 (211375 # 100000)
                 (SQL.mkTimestamp 2025 8 5 17 8 20 0);
               oil_tonnages.mk 2 1000 850 20 1 850 20 (85 # 100)
                 (SQL.mkTimestamp 2025 8 5 17 9 0 0)] 3)
           (mkQuery (Some 1%Z) (Some 1%Z) None None None)
           {| rows := [oil_tonnages.mk 2 1000 850 20 1 850 20 (85 # 100)
                         (SQL.mkTimestamp 2025 8 5 17 9 0 0)];
              pagination_page := 1; pagination_limit := 1;
              pagination_total := 2; pagination_pages := Some 2%Z |}).
  reflexivity.
Defined.

Lemma firstn_plus {A : Type} (a b : nat) (l : list A) :
  firstn (a + b) l = firstn a l ++ firstn b (skipn a l).
Proof.
  revert l. induction a as [|a IH]; intros l; simpl; [reflexivity|].
  destruct l as [|x l]; simpl.
  - rewrite firstn_nil. reflexivity.
  - rewrite IH. reflexivity.
Qed.

Lemma pages_concat {A : Type} (size : nat) (l : list A) (n : nat) :
  List.concat (map (fun p => SQL.limit size (SQL.offset ((p - 1) * size) l)) (seq 1 n))
  = SQL.limit (n * size) l.
Proof.
  unfold SQL.limit, SQL.offset. induction n as [|n IH]; [reflexivity|].
  rewrite seq_S, map_app, concat_app, IH. simpl.
  rewrite app_nil_r, Nat.sub_0_r.
  rewrite (Nat.add_comm size (n * size)). symmetry. apply firstn_plus.
Qed.

Lemma sorted_permutation_unique {A : Type} (R : A -> A -> Prop) (l l' : list A) :
  (forall a b, In a l -> In b l -> R a b -> R b a -> a = b) ->
  StronglySorted R l -> StronglySorted R l' -> Permutation l l' -> l = l'.
Proof.
  revert l'. induction l as [|x l IH]; intros l' Anti S S' P.
  - apply Permutation_nil in P. symmetry. exact P.
  - destruct l' as [|y l'].
    + apply Permutation_sym, Permutation_nil in P. discriminate.
    + inversion S as [|? ? Sl Hx]; subst. inversion S' as [|? ? Sl' Hy]; subst.
      rewrite Forall_forall in Hx, Hy.
      assert (Hxin : In x (y :: l'))
        by (apply (Permutation_in _ P); left; reflexivity).
      assert (Hyin : In y (x :: l))
        by (apply (Permutation_in _ (Permutation_sym P)); left; reflexivity).
      assert (E : x = y).
      { destruct Hxin as [E|Hxin]; [symmetry; exact E|].
        destruct Hyin as [E|Hyin]; [exact E|].
        apply Anti; [left; reflexivity | right; exact Hyin | |].
        - apply Hx, Hyin.
        - apply Hy, Hxin. }
      subst y. f_equal. apply IH.
      * intros a b Ha Hb. apply Anti; right; assumption.
      * exact Sl.
      * exact Sl'.
      * apply Permutation_cons_inv in P. exact P.
Qed.

(** X15.  Pages do not overlap and leave nothing out: for an order that
    is a string, a search the store takes as a text and pages whose
    numbers and offsets stay within the safe integers, the pages 1 to
    [n] of a given size, one after the other,
    are the first page of [n] times that size.  The store leaves the
    order of records that tie in the sort key open; when no two records
    tie, that first page is the start of the one order the clause
    allows. *)
Theorem pages_tile_the_listing
    (db : database) (q : list_query) (order : string) (size : Z) (n : nat)
    (leb : oil_tonnages.row -> oil_tonnages.row -> bool) :
  (0 <= size)%Z ->
  (Z.of_nat n <= JS.MAX_SAFE_INTEGER)%Z ->
  (Z.of_nat n * size <= JS.MAX_SAFE_INTEGER)%Z ->
  order_of q = Text order ->
  SQL.text (search_of q) = true ->
  order_clause (sortColumn (sort_of q)) (sortOrder order) = Ok leb ->
  (forall a b, In a (oil_tonnages_rows db) -> In b (oil_tonnages_rows db) ->
               leb a b = true -> leb b a = true -> a = b) ->
  List.concat (map (fun p => rows_of (get_calculations db
                                        (with_paging q (Z.of_nat p) size)))
                 (seq 1 n))
  = rows_of (get_calculations db (with_paging q 1 (Z.of_nat n * size)))
  /\ forall ordered,
       Permutation ordered
         (filter (whereClause (search_of q)) (oil_tonnages_rows db)) ->
       StronglySorted (fun a b => leb a b = true) ordered ->
       rows_of (get_calculations db (with_paging q 1 (Z.of_nat n * size)))
       = firstn (n * Z.to_nat size) ordered.
Proof.
  intros Hsize _ Hsafe O Ht C Anti.
  set (all := SQL.order_by leb
                (SQL.where_ (whereClause (search_of q)) (oil_tonnages_rows db))).
  assert (P : forall p lim, (1 <= p)%Z -> (0 <= lim)%Z ->
              (lim <= JS.MAX_SAFE_INTEGER)%Z ->
              ((p - 1) * lim <= JS.MAX_SAFE_INTEGER)%Z ->
              rows_of (get_calculations db (with_paging q p lim))
              = SQL.limit (Z.to_nat lim)
                  (SQL.offset (Z.to_nat ((p - 1) * lim)) all)).
  { intros p lim Hp Hlim Hl Ho.
    destruct (get_calculations_shape db (with_paging q p lim) order)
      as (leb' & C' & E).
    - exact O.
    - exact Ht.
    - change (limit_of (with_paging q p lim)) with lim. lia.
    - change (offset_of (with_paging q p lim)) with ((p - 1) * lim)%Z.
      split; [apply Z.mul_nonneg_nonneg; lia | exact Ho].
    - change (sort_of (with_paging q p lim)) with (sort_of q) in C'.
      rewrite C in C'. injection C' as <-.
      rewrite E. reflexivity. }
  assert (Big : rows_of (get_calculations db
                           (with_paging q 1 (Z.of_nat n * size)))
                = SQL.limit (n * Z.to_nat size) all).
  { rewrite P by (try exact Hsafe; unfold JS.MAX_SAFE_INTEGER; lia).
    change (Z.to_nat ((1 - 1) * (Z.of_nat n * size))) with 0%nat.
    unfold SQL.offset. simpl skipn.
    replace (Z.to_nat (Z.of_nat n * size)) with (n * Z.to_nat size)%nat
      by (rewrite Z2Nat.inj_mul, Nat2Z.id by lia; reflexivity).
    reflexivity. }
  split.
  - rewrite Big, <- pages_concat. f_equal.
    apply map_ext_in. intros p Hp. apply in_seq in Hp.
    rewrite P by nia. f_equal. f_equal.
    rewrite Z2Nat.inj_mul by lia.
    replace (Z.to_nat (Z.of_nat p - 1)) with (p - 1)%nat by lia. reflexivity.
  - intros ordered Hperm Hsorted. rewrite Big. unfold SQL.limit. f_equal.
    destruct (order_clause_is_an_order _ _ _ C) as [T R].
    apply (sorted_permutation_unique (fun a b => leb a b = true)).
    + intros a b Ha Hb. unfold all in Ha, Hb.
      apply order_by_In in Ha, Hb. unfold SQL.where_ in Ha, Hb.
      apply filter_In in Ha, Hb. apply Anti; tauto.
    + apply order_by_sorted; assumption.
    + exact Hsorted.
    + apply Permutation_trans with
        (filter (whereClause (search_of q)) (oil_tonnages_rows db)).
      * apply order_by_perm.
      * apply Permutation_sym, Hperm.
Qed.

Lemma pages_tile_the_listing_witness :
  List.concat
    (map (fun p => rows_of (get_calculations
                              (mkDatabase []
                                 [oil_tonnages.mk 1 2500 890 30 (95 # 100) 890 30
                                    (211375 # 100000)
                                    (SQL.mkTimestamp 2025 8 5 17 8 20 0);
                                  oil_tonnages.mk 2 1000 850 20 1 850 20 (85 # 100)
                                    (SQL.mkTimestamp 2025 8 5 17 9 0 0)] 3)
                              (with_paging (mkQuery None None None None None)
                                 (Z.of_nat p) 1)))
       (seq 1 2))
  = rows_of (get_calculations
               (mkDatabase []
                  [oil_tonnages.mk 1 2500 890 30 (95 # 100) 890 30
                     (211375 # 100000)
                     (SQL.mkTimestamp 2025 8 5 17 8 20 0);
                   oil_tonnages.mk 2 1000 850 20 1 850 20 (85 # 100)
                     (SQL.mkTimestamp 2025 8 5 17 9 0 0)] 3)
               (with_paging (mkQuery None None None None None) 1
                  (Z.of_nat 2 * 1))).
Proof.
  refine (proj1 (pages_tile_the_listing
                   (mkDatabase []
                      [oil_tonnages.mk 1 2500 890 30 (95 # 100) 890 30
                         (211375 # 100000)
                         (SQL.mkTimestamp 2025 8 5 17 8 20 0);
                       oil_tonnages.mk 2 1000 850 20 1 850 20 (85 # 100)
                         (SQL.mkTimestamp 2025 8 5 17 9 0 0)] 3)
                   (mkQuery None None None None None) "DESC" 1 2
                   (fun a b => by_instant b a) _ _ _ _ _ _ _)).
  - lia.
  - vm_compute. discriminate.
  - vm_compute. discriminate.
  - reflexivity.
  - reflexivity.
  - reflexivity.
  - intros a b [<-|[<-|[]]] [<-|[<-|[]]] H1 H2;
      try reflexivity; vm_compute in H1, H2; discriminate.
Defined.

(** X16.  A page past the end, with a page number, a limit and an offset
    within the safe integers, is answered 200 with no rows and the same
    total. *)
Theorem page_past_the_end_is_empty (db : database) (q : list_query) (l : listing) :
  safe_integer (page_of q) -> safe_integer (limit_of q) ->
  safe_integer ((page_of q - 1) * limit_of q) ->
  get_calculations db q = Status200 l ->
  (pagination_total l <= (page_of q - 1) * limit_of q)%Z ->
  rows l = []
  /\ pagination_total l
     = Z.of_nat (List.length (filter (whereClause (search_of q))
                                (oil_tonnages_rows db))).
Proof.
  intros _ _ _ E Hpast.
  destruct (get_calculations_ok db q l E)
    as (order & leb & _ & _ & _ & Ho & Hrows & Htotal).
  split; [|exact Htotal].
  rewrite Hrows. unfold SQL.limit, SQL.offset.
  rewrite skipn_all2; [apply firstn_nil|].
  rewrite (Permutation_length (order_by_perm leb _)).
  rewrite Htotal in Hpast. unfold offset_of. lia.
Qed.

Lemma page_past_the_end_is_empty_witness :
  rows {| rows := []; pagination_page := 3; pagination_limit := 50;
          pagination_total := 1; pagination_pages := Some 1%Z |} = [].
Proof.
  apply (page_past_the_end_is_empty
           (mkDatabase []
              [oil_tonnages.mk 1 2500 890 30 (95 # 100) 890 30 (211375 # 100000)
                 (SQL.mkTimestamp 2025 8 5 17 8 20 0)] 2)
           (mkQuery (Some 3%Z) None None None None)).
  - vm_compute. discriminate.
  - vm_compute. discriminate.
  - vm_compute. discriminate.
  - reflexivity.
  - simpl. unfold page_of, limit_of. simpl. lia.
Defined.

(** X17.  With a positive limit the number of pages reported is the least
    number of pages of that size that hold the total. *)
Theorem pages_cover_the_total (db : database) (q : list_query) (l : listing) :
  get_calculations db q = Status200 l ->
  (0 < limit_of q)%Z ->
  exists n,
    pagination_pages l = Some n
    /\ (pagination_total l <= n * limit_of q)%Z
    /\ ((n - 1) * limit_of q < pagination_total l)%Z.
Proof.
  intros E Hl.
  destruct (get_calculations_pagination db q l E) as (_ & _ & Hpages).
  rewrite Hpages. clear Hpages E.
  destruct (Z.eqb_spec (limit_of q) 0) as [|_]; [lia|].
  set (total := pagination_total l).
  set (L := limit_of q) in *.
  exists (Qceiling (inject_Z total / inject_Z L)). split; [reflexivity|].
  assert (HL : 0 < inject_Z L).
  { change 0 with (inject_Z 0). rewrite <- Zlt_Qlt. exact Hl. }
  pose proof (Qle_ceiling (inject_Z total / inject_Z L)) as H1.
  pose proof (Qceiling_lt (inject_Z total / inject_Z L)) as H2.
  apply (Qmult_le_r _ _ (inject_Z L) HL) in H1.
  apply (Qmult_lt_r _ _ (inject_Z L) HL) in H2.
  rewrite scaled_back in H1, H2 by (apply positive_nonzero, HL).
  rewrite <- inject_Z_mult in H1, H2.
  rewrite <- Zle_Qle in H1. rewrite <- Zlt_Qlt in H2.
  split; assumption.
Qed.

Lemma pages_cover_the_total_witness :
  exists n,
    Some 2%Z = Some n /\ (2 <= n * 1)%Z /\ ((n - 1) * 1 < 2)%Z.
Proof.
  apply (pages_cover_the_total
           (mkDatabase []
              [oil_tonnages.mk 1 2500 890 30 (95 # 100) 890 30 (211375 # 100000)
                 (SQL.mkTimestamp 2025 8 5 17 8 20 0);
               oil_tonnages.mk 2 1000 850 20 1 850 20 (85 # 100)
                 (SQL.mkTimestamp 2025 8 5 17 9 0 0)] 3)
           (mkQuery (Some 1%Z) (Some 1%Z) None None None)
           {| rows := [oil_tonnages.mk 2 1000 850 20 1 850 20 (85 # 100)
                         (SQL.mkTimestamp 2025 8 5 17 9 0 0)];
              pagination_page := 1; pagination_limit := 1;
              pagination_total := 2; pagination_pages := Some 2%Z |}).
  - reflexivity.
  - reflexivity.
Defined.

Lemma numeric_column_order (column : string) (key : oil_tonnages.row -> Q) :
  numeric_column column = Some key ->
  sortColumn column = column /\ column_order column = Ok (SQL.asc key).
Proof.
  unfold numeric_column.
  destruct (String.eqb_spec column "volume") as [->|_];
    [intros [= <-]; split; reflexivity|].
  destruct (String.eqb_spec column "density") as [->|_];
    [intros [= <-]; split; reflexivity|].
  destruct (String.eqb_spec column "temperature") as [->|_];
    [intros [= <-]; split; reflexivity|].
  destruct (String.eqb_spec column "tonnage") as [->|_];
    [intros [= <-]; split; reflexivity|].
  discriminate.
Qed.

(** X18.  Sorted by volume, density, temperature or tonnage, the rows of
    a page are in that order: non-decreasing in the column when the
    order upper-cases to ASC, non-increasing for every other string. *)
Theorem listing_sorted_by_column
    (db : database) (q : list_query) (order : string) (l : listing)
    (key : oil_tonnages.row -> Q) :
  get_calculations db q = Status200 l ->
  order_of q = Text order ->
  numeric_column (sort_of q) = Some key ->
  (In order asc_spellings ->
   StronglySorted (fun a b => key a <= key b) (rows l))
  /\ (~ In order asc_spellings ->
      StronglySorted (fun a b => key b <= key a) (rows l)).
Proof.
  intros E O K. destruct (numeric_column_order _ _ K) as [Hc Ho].
  split; intros Hd.
  - assert (C : order_clause (sortColumn (sort_of q)) (sortOrder order)
                = Ok (SQL.asc key)).
    { rewrite Hc, (sortOrder_asc _ Hd). unfold order_clause. rewrite Ho. reflexivity. }
    pose proof (rows_sorted_by db q l order _ E O C) as S.
    revert S. apply strongly_sorted_weaken.
    intros a b H. apply Qle_bool_iff, H.
  - assert (C : order_clause (sortColumn (sort_of q)) (sortOrder order)
                = Ok (fun a b => SQL.asc key b a)).
    { rewrite Hc, (sortOrder_desc _ Hd). unfold order_clause. rewrite Ho. reflexivity. }
    pose proof (rows_sorted_by db q l order _ E O C) as S.
    revert S. apply strongly_sorted_weaken.
    intros a b H. apply Qle_bool_iff, H.
Qed.

Lemma listing_sorted_by_column_witness :
  StronglySorted
    (fun a b => oil_tonnages.tonnage b <= oil_tonnages.tonnage a)
    [oil_tonnages.mk 1 2500 890 30 (95 # 100) 890 30 (211375 # 100000)
       (SQL.mkTimestamp 2025 8 5 17 8 20 0);
     oil_tonnages.mk 2 1000 850 20 1 850 20 (85 # 100)
       (SQL.mkTimestamp 2025 8 5 17 9 0 0)].
Proof.
  apply (listing_sorted_by_column
           (mkDatabase []
              [oil_tonnages.mk 1 2500 890 30 (95 # 100) 890 30 (211375 # 100000)
                 (SQL.mkTimestamp 2025 8 5 17 8 20 0);
               oil_tonnages.mk 2 1000 850 20 1 850 20 (85 # 100)
                 (SQL.mkTimestamp 2025 8 5 17 9 0 0)] 3)
           (mkQuery None None None (Some "tonnage"%string) (Some (Text "desc")))
           "desc"%string
           {| rows :=
                [oil_tonnages.mk 1 2500 890 30 (95 # 100) 890 30 (211375 # 100000)
                   (SQL.mkTimestamp 2025 8 5 17 8 20 0);
                 oil_tonnages.mk 2 1000 850 20 1 850 20 (85 # 100)
                   (SQL.mkTimestamp 2025 8 5 17 9 0 0)];
              pagination_page := 1; pagination_limit := 50;
              pagination_total := 2; pagination_pages := Some 1%Z |}
           oil_tonnages.tonnage);
    try reflexivity.
  vm_compute. intros H.
  repeat (destruct H as [H|H]; [discriminate H|]). exact H.
Defined.

(** X19.  Sorted by creation time, which is also what a request sorts by
    when it names no column, the rows are the newest first unless the
    order upper-cases to ASC, and the oldest first when it does. *)
Theorem listing_sorted_by_time
    (db : database) (q : list_query) (order : string) (l : listing) :
  get_calculations db q = Status200 l ->
  order_of q = Text order ->
  sort_of q = "created_at"%string ->
  (~ In order asc_spellings -> descending_by_created_at (rows l))
  /\ (In order asc_spellings -> ascending_by_created_at (rows l)).
Proof.
  intros E O Hs. split; intros Hd.
  - assert (C : order_clause (sortColumn (sort_of q)) (sortOrder order)
                = Ok (fun a b => by_instant b a)).
    { rewrite Hs, (sortOrder_desc _ Hd). reflexivity. }
    pose proof (rows_sorted_by db q l order _ E O C) as S.
    revert S. apply strongly_sorted_weaken.
    intros a b H. apply Z.leb_le, H.
  - assert (C : order_clause (sortColumn (sort_of q)) (sortOrder order)
                = Ok by_instant).
    { rewrite Hs, (sortOrder_asc _ Hd). reflexivity. }
    pose proof (rows_sorted_by db q l order _ E O C) as S.
    revert S. apply strongly_sorted_weaken.
    intros a b H. apply Z.leb_le, H.
Qed.

Lemma listing_sorted_by_time_witness :
  descending_by_created_at
    [oil_tonnages.mk 2 1000 850 20 1 850 20 (85 # 100)
       (SQL.mkTimestamp 2025 8 5 17 9 0 0);
     oil_tonnages.mk 1 2500 890 30 (95 # 100) 890 30 (211375 # 100000)
       (SQL.mkTimestamp 2025 8 5 17 8 20 0)].
Proof.
  apply (listing_sorted_by_time
           (mkDatabase []
              [oil_tonnages.mk 1 2500 890 30 (95 # 100) 890 30 (211375 # 100000)
                 (SQL.mkTimestamp 2025 8 5 17 8 20 0);
               oil_tonnages.mk 2 1000 850 20 1 850 20 (85 # 100)
                 (SQL.mkTimestamp 2025 8 5 17 9 0 0)] 3)
           (mkQuery None None None None None)
           "DESC"%string
           {| rows :=
                [oil_tonnages.mk 2 1000 850 20 1 850 20 (85 # 100)
                   (SQL.mkTimestamp 2025 8 5 17 9 0 0);
                 oil_tonnages.mk 1 2500 890 30 (95 # 100) 890 30 (211375 # 100000)
                   (SQL.mkTimestamp 2025 8 5 17 8 20 0)];
              pagination_page := 1; pagination_limit := 50;
              pagination_total := 2; pagination_pages := Some 1%Z |});
    try reflexivity.
  vm_compute. intros H.
  repeat (destruct H as [H|H]; [discriminate H|]). exact H.
Defined.

Lemma where_nothing (table : list oil_tonnages.row) :
  SQL.where_ (whereClause "") table = table.
Proof.
  unfold SQL.where_. apply filter_all. intros r _. reflexivity.
Qed.

(** X20.  Without a search, or with an empty one, the listing is the
    whole history: the total is the number of records, and the first
    page holds them all when the limit is not below that number. *)
Theorem listing_without_search_is_the_history
    (db : database) (q : list_query) (l : listing) :
  get_calculations db q = Status200 l ->
  search_of q = ""%string ->
  pagination_total l = Z.of_nat (List.length (oil_tonnages_rows db))
  /\ (page_of q = 1%Z ->
      (Z.of_nat (List.length (oil_tonnages_rows db)) <= limit_of q)%Z ->
      Permutation (rows l) (oil_tonnages_rows db)).
Proof.
  intros E Hs.
  destruct (get_calculations_ok db q l E)
    as (order & leb & _ & _ & _ & _ & Hrows & Htotal).
  rewrite Hs, where_nothing in Hrows, Htotal.
  split; [exact Htotal|].
  intros Hp Hfit. rewrite Hrows. unfold offset_of. rewrite Hp. simpl Z.to_nat.
  apply first_page_whole. lia.
Qed.

Lemma listing_without_search_is_the_history_witness :
  pagination_total
    {| rows := [oil_tonnages.mk 1 2500 890 30 (95 # 100) 890 30 (211375 # 100000)
                  (SQL.mkTimestamp 2025 8 5 17 8 20 0)];
       pagination_page := 1; pagination_limit := 50;
       pagination_total := 1; pagination_pages := Some 1%Z |}
  = Z.of_nat (List.length
                [oil_tonnages.mk 1 2500 890 30 (95 # 100) 890 30 (211375 # 100000)
                   (SQL.mkTimestamp 2025 8 5 17 8 20 0)]).
Proof.
  apply (listing_without_search_is_the_history
           (mkDatabase []
              [oil_tonnages.mk 1 2500 890 30 (95 # 100) 890 30 (211375 # 100000)
                 (SQL.mkTimestamp 2025 8 5 17 8 20 0)] 2)
           (mkQuery None None (Some ""%string) None None));
    reflexivity.
Defined.

(** X21.  A record just calculated is found by the listing: asked
    without parameters after a successful calculate operation, the
    listing counts one record more than the history held, and, when the
    history held fewer than fifty, returns the new record, with the id
    the response reported, together with all the others. *)
Theorem calculated_record_is_listed
    (now : SQL.timestamp) (db db' : database) (body : calculate_body)
    (data : calculation) :
  post_calculate now db body = (Status200 data, db') ->
  exists l row,
    get_calculations db' (mkQuery None None None None None) = Status200 l
    /\ pagination_total l = (Z.of_nat (List.length (oil_tonnages_rows db)) + 1)%Z
    /\ oil_tonnages.id row = data_id data
    /\ ((List.length (oil_tonnages_rows db) < 50)%nat ->
        In row (rows l)
        /\ Permutation (rows l) (oil_tonnages_rows db ++ [row])).
Proof.
  intros E.
  destruct (post_calculate_success _ _ _ _ _ E) as (v & d & t & _ & _ & _ & C).
  destruct (calculate_success _ _ _ _ _ _ _ C) as (res & n & row & _ & _ & I & ->).
  apply insert_row_ok in I. destruct I as (Hrows & _).
  destruct (get_calculations_shape db' (mkQuery None None None None None) "DESC")
    as (leb & _ & S);
    [reflexivity | reflexivity | split; discriminate | split; discriminate |].
  eexists. exists row. split; [exact S|].
  change (search_of (mkQuery None None None None None)) with ""%string.
  cbn [pagination_total rows data_id].
  rewrite where_nothing, Hrows, length_app. simpl List.length.
  split; [lia|]. split; [reflexivity|].
  intros Hfew.
  assert (P : Permutation
                (SQL.limit (Z.to_nat (limit_of (mkQuery None None None None None)))
                   (SQL.offset
                      (Z.to_nat (offset_of (mkQuery None None None None None)))
                      (SQL.order_by leb (oil_tonnages_rows db ++ [row]))))
                (oil_tonnages_rows db ++ [row])).
  { apply first_page_whole. rewrite length_app. simpl.
    change (Z.to_nat (limit_of (mkQuery None None None None None))) with 50%nat.
    lia. }
  split; [|exact P].
  apply (Permutation_in _ (Permutation_sym P)). apply in_or_app. right. left.
  reflexivity.
Qed.

Lemma calculated_record_is_listed_witness :
  exists l row,
    get_calculations
      (snd (post_calculate (SQL.mkTimestamp 2025 8 5 17 8 20 0)
              (mkDatabase [vcftable.mk 890 30 (95 # 100)] [] 1)
              (mkBody (Some 2500) (Some 890) (Some 30))))
      (mkQuery None None None None None) = Status200 l
    /\ pagination_total l = 1%Z
    /\ oil_tonnages.id row = 1%Z.
Proof.
  destruct (calculated_record_is_listed
              (SQL.mkTimestamp 2025 8 5 17 8 20 0)
              (mkDatabase [vcftable.mk 890 30 (95 # 100)] [] 1)
              (snd (post_calculate (SQL.mkTimestamp 2025 8 5 17 8 20 0)
                      (mkDatabase [vcftable.mk 890 30 (95 # 100)] [] 1)
                      (mkBody (Some 2500) (Some 890) (Some 30))))
              (mkBody (Some 2500) (Some 890) (Some 30))
              {| data_id := 1; data_volume := 2500; data_density := 890;
                 data_temperature := 30; data_vcf := 95 # 100;
                 data_usedDensity := roundToNearest 890 (1 # 2);
                 data_usedTemp := roundToNearest 30 (1 # 4);
                 data_tonnage := 1691 # 800;
                 data_timestamp := SQL.mkTimestamp 2025 8 5 17 8 20 0 |})
    as (l & row & S & Ht & Hid & _).
  - vm_compute. reflexivity.
  - exists l, row. split; [exact S|]. split; [exact Ht | exact Hid].
Defined.

(** ** [DELETE /api/calculations/:id] and [DELETE /api/calculations] *)

Lemma integer_range (id : Z) :
  SQL.integer id = true <-> (-2147483648 <= id <= 2147483647)%Z.
Proof.
  unfold SQL.integer. rewrite andb_true_iff, !Z.leb_le. tauto.
Qed.

Lemma delete_calculation_state (db : database) (id : Z) :
  SQL.integer id = true ->
  snd (delete_calculation db id)
  = with_rows db
      (filter (fun r => negb (oil_tonnages.id r =? id)%Z) (oil_tonnages_rows db)).
Proof.
  intros R. unfold delete_calculation, delete_returning, SQL.where_. rewrite R.
  destruct (filter (fun r => (oil_tonnages.id r =? id)%Z) (oil_tonnages_rows db));
    reflexivity.
Qed.

Lemma delete_calculation_status (db : database) (id : Z) :
  SQL.integer id = true ->
  fst (delete_calculation db id)
  = match filter (fun r => (oil_tonnages.id r =? id)%Z) (oil_tonnages_rows db) with
    | [] => Status404 "Calculation not found"
    | _ :: _ => Status200 "Calculation deleted successfully"%string
    end.
Proof.
  intros R. unfold delete_calculation, delete_returning, SQL.where_. rewrite R.
  destruct (filter (fun r => (oil_tonnages.id r =? id)%Z) (oil_tonnages_rows db));
    reflexivity.
Qed.

(** X22.  Deleting the same id a second time, an id within the [integer]
    type of the column, is answered 404 and changes nothing, whatever the
    first delete found. *)
Theorem second_delete_is_not_found (db : database) (id : Z) :
  (-2147483648 <= id <= 2147483647)%Z ->
  delete_calculation (snd (delete_calculation db id)) id
  = (Status404 "Calculation not found", snd (delete_calculation db id)).
Proof.
  intros R. apply integer_range in R.
  rewrite (surjective_pairing (delete_calculation (snd (delete_calculation db id)) id)).
  rewrite delete_calculation_status, !delete_calculation_state by exact R.
  set (kept := filter (fun r => negb (oil_tonnages.id r =? id)%Z)
                 (oil_tonnages_rows db)).
  assert (Hkept : forall r, In r kept -> (oil_tonnages.id r =? id)%Z = false).
  { intros r Hr. unfold kept in Hr. apply filter_In in Hr.
    apply negb_true_iff. exact (proj2 Hr). }
  cbn [oil_tonnages_rows with_rows].
  rewrite (filter_none _ kept Hkept).
  rewrite (filter_all _ kept)
    by (intros r Hr; apply negb_true_iff, Hkept, Hr).
  reflexivity.
Qed.

Lemma second_delete_is_not_found_witness :
  delete_calculation
    (snd (delete_calculation
            (mkDatabase []
               [oil_tonnages.mk 1 2500 890 30 (95 # 100) 890 30 (211375 # 100000)
                  (SQL.mkTimestamp 2025 8 5 17 8 20 0)] 2) 1)) 1
  = (Status404 "Calculation not found",
     snd (delete_calculation
            (mkDatabase []
               [oil_tonnages.mk 1 2500 890 30 (95 # 100) 890 30 (211375 # 100000)
                  (SQL.mkTimestamp 2025 8 5 17 8 20 0)] 2) 1)).
Proof.
  apply (second_delete_is_not_found
           (mkDatabase []
              [oil_tonnages.mk 1 2500 890 30 (95 # 100) 890 30 (211375 # 100000)
                 (SQL.mkTimestamp 2025 8 5 17 8 20 0)] 2) 1).
  lia.
Defined.

(** X23.  Deleting the record a calculate operation has just created, by
    the id of the response, is answered 200 and brings the history back
    to what it was; the sequence stays one further. *)
Theorem delete_undoes_calculate
    (now : SQL.timestamp) (db db' : database) (body : calculate_body)
    (data : calculation) :
  ids_distinct db ->
  post_calculate now db body = (Status200 data, db') ->
  fst (delete_calculation db' (data_id data))
  = Status200 "Calculation deleted successfully"%string
  /\ oil_tonnages_rows (snd (delete_calculation db' (data_id data)))
     = oil_tonnages_rows db
  /\ oil_tonnages_id_seq (snd (delete_calculation db' (data_id data)))
     = (oil_tonnages_id_seq db + 1)%Z.
Proof.
  intros [_ Hlt] E.
  destruct (post_calculate_success _ _ _ _ _ E) as (v & d & t & _ & _ & _ & C).
  destruct (calculate_success _ _ _ _ _ _ _ C) as (res & n & row & _ & _ & I & ->).
  pose proof (insert_row_integer _ _ _ _ _ _ _ _ _ _ _ I) as R.
  apply insert_row_ok in I. destruct I as (Hrows & _ & Hid & Hseq & _).
  cbn [data_id].
  rewrite delete_calculation_status, delete_calculation_state by exact R.
  cbn [oil_tonnages_rows oil_tonnages_id_seq with_rows].
  rewrite Hrows, !filter_app. simpl filter. rewrite Z.eqb_refl. simpl.
  assert (Hold : forall r, In r (oil_tonnages_rows db) ->
                           (oil_tonnages.id r =? oil_tonnages.id row)%Z = false).
  { intros r Hr. apply Z.eqb_neq. specialize (Hlt r Hr). lia. }
  rewrite (filter_none _ _ Hold).
  rewrite (filter_all _ (oil_tonnages_rows db))
    by (intros r Hr; apply negb_true_iff, Hold, Hr).
  rewrite app_nil_r. repeat split. exact Hseq.
Qed.

Lemma delete_undoes_calculate_witness :
  oil_tonnages_rows
    (snd (delete_calculation
            (snd (post_calculate (SQL.mkTimestamp 2025 8 5 17 8 20 0)
                    (mkDatabase [vcftable.mk 890 30 (95 # 100)] [] 1)
                    (mkBody (Some 2500) (Some 890) (Some 30))))
            1)) = [].
Proof.
  apply (delete_undoes_calculate
           (SQL.mkTimestamp 2025 8 5 17 8 20 0)
           (mkDatabase [vcftable.mk 890 30 (95 # 100)] [] 1)
           (snd (post_calculate (SQL.mkTimestamp 2025 8 5 17 8 20 0)
                   (mkDatabase [vcftable.mk 890 30 (95 # 100)] [] 1)
                   (mkBody (Some 2500) (Some 890) (Some 30))))
           (mkBody (Some 2500) (Some 890) (Some 30))
           {| data_id := 1; data_volume := 2500; data_density := 890;
              data_temperature := 30; data_vcf := 95 # 100;
              data_usedDensity := roundToNearest 890 (1 # 2);
              data_usedTemp := roundToNearest 30 (1 # 4);
              data_tonnage := 1691 # 800;
              data_timestamp := SQL.mkTimestamp 2025 8 5 17 8 20 0 |}).
  - split; [constructor | intros r []].
  - vm_compute. reflexivity.
Defined.

(** X24.  After the history is cleared every listing that succeeds is
    empty with a total of zero and every delete, of an id within the
    [integer] type of the column, is answered 404; the reference table
    is untouched and the sequence is not reset, so the next record takes
    an id no earlier record had. *)
Theorem clear_empties_the_history (db : database) :
  vcftable_rows (snd (clear_calculations db)) = vcftable_rows db
  /\ oil_tonnages_rows (snd (clear_calculations db)) = []
  /\ (forall q l,
        get_calculations (snd (clear_calculations db)) q = Status200 l ->
        rows l = [] /\ pagination_total l = 0%Z)
  /\ (forall id,
        (-2147483648 <= id <= 2147483647)%Z ->
        fst (delete_calculation (snd (clear_calculations db)) id)
        = Status404 "Calculation not found")
  /\ (forall now body data db',
        post_calculate now (snd (clear_calculations db)) body
        = (Status200 data, db') ->
        data_id data = oil_tonnages_id_seq db).
Proof.
  split; [reflexivity|]. split; [reflexivity|]. split; [|split].
  - intros q l E.
    destruct (get_calculations_ok _ q l E)
      as (order & leb & _ & _ & _ & _ & Hrows & Htotal).
    simpl in Hrows, Htotal. split; [|exact Htotal].
    rewrite Hrows. unfold SQL.limit, SQL.offset.
    rewrite skipn_nil. apply firstn_nil.
  - intros id R. apply integer_range in R.
    rewrite delete_calculation_status by exact R. reflexivity.
  - intros now body data db' E.
    destruct (post_calculate_success _ _ _ _ _ E) as (v & d & t & _ & _ & _ & C).
    destruct (calculate_success _ _ _ _ _ _ _ C) as (res & n & row & _ & _ & I & ->).
    apply insert_row_ok in I. destruct I as (_ & _ & Hid & _).
    exact Hid.
Qed.

Lemma clear_empties_the_history_witness :
  fst (delete_calculation
         (snd (clear_calculations
                 (mkDatabase []
                    [oil_tonnages.mk 1 2500 890 30 (95 # 100) 890 30
                       (211375 # 100000)
                       (SQL.mkTimestamp 2025 8 5 17 8 20 0)] 2))) 1)
  = Status404 "Calculation not found".
Proof.
  destruct (clear_empties_the_history
              (mkDatabase []
                 [oil_tonnages.mk 1 2500 890 30 (95 # 100) 890 30
                    (211375 # 100000)
                    (SQL.mkTimestamp 2025 8 5 17 8 20 0)] 2))
    as (_ & _ & _ & H & _).
  apply H. lia.
Defined.

(** ** Any sequence of requests *)

Lemma post_calculate_frame (now : SQL.timestamp) (db : database)
    (body : calculate_body) :
  vcftable_rows (snd (post_calculate now db body)) = vcftable_rows db
  /\ (oil_tonnages_id_seq db
      <= oil_tonnages_id_seq (snd (post_calculate now db body)))%Z.
Proof.
  unfold post_calculate.
  destruct (validateCalculationInput body); [|split; [reflexivity | simpl; lia]].
  destruct (body_volume body) as [v|]; [|split; [reflexivity | simpl; lia]].
  destruct (body_density body) as [d|]; [|split; [reflexivity | simpl; lia]].
  destruct (body_temperature body) as [t|]; [|split; [reflexivity | simpl; lia]].
  unfold calculate.
  destruct (getVCFFromDatabase (vcftable_rows db) d t) as [res|];
    [|split; [reflexivity | simpl; lia]].
  destruct (compute v d (vcf res)) as [n|]; [|split; [reflexivity | simpl; lia]].
  destruct (insert_row now db v d t (vcf res) (usedDensity res) (usedTemp res) n)
    as [[row|message] db1] eqn:I; simpl.
  - apply insert_row_ok in I. destruct I as (_ & Hv & _ & Hs & _).
    split; [exact Hv | lia].
  - apply insert_row_error in I. subst db1. split; [reflexivity | lia].
Qed.

Lemma handle_frame (db : database) (r : request) :
  vcftable_rows (handle db r) = vcftable_rows db
  /\ (oil_tonnages_id_seq db <= oil_tonnages_id_seq (handle db r))%Z
  /\ (ids_distinct db -> ids_distinct (handle db r)).
Proof.
  destruct r as [now body|q|id|]; simpl.
  - destruct (post_calculate_frame now db body) as [H1 H2].
    split; [exact H1|]. split; [exact H2 | apply ids_distinct_calculate].
  - split; [reflexivity|]. split; [lia | tauto].
  - split; [|split; [|apply ids_distinct_delete]].
    + unfold delete_calculation.
      destruct (SQL.integer id); [|reflexivity].
      destruct (delete_returning id (oil_tonnages_rows db)) as [deleted remaining].
      destruct deleted; reflexivity.
    + unfold delete_calculation.
      destruct (SQL.integer id); [|simpl; lia].
      destruct (delete_returning id (oil_tonnages_rows db)) as [deleted remaining].
      destruct deleted; simpl; lia.
  - split; [reflexivity|]. split; [lia|].
    intros _. apply (ids_distinct_clear db).
Qed.

(** X25.  Whatever requests are served, in whatever order, the reference
    table is never changed, the sequence never goes back, and the
    records of the history keep distinct ids, all drawn from the
    sequence. *)
Theorem serving_keeps_the_store_sound (db : database) (requests : list request) :
  ids_distinct db ->
  ids_distinct (serve db requests)
  /\ vcftable_rows (serve db requests) = vcftable_rows db
  /\ (oil_tonnages_id_seq db <= oil_tonnages_id_seq (serve db requests))%Z.
Proof.
  unfold serve. revert db.
  induction requests as [|r requests IH]; intros db Hd; simpl.
  - split; [exact Hd|]. split; [reflexivity | lia].
  - destruct (handle_frame db r) as (Hv & Hs & Hi).
    destruct (IH (handle db r) (Hi Hd)) as (IH1 & IH2 & IH3).
    split; [exact IH1|]. split; [rewrite IH2; exact Hv | lia].
Qed.

Lemma serving_keeps_the_store_sound_witness :
  ids_distinct
    (serve (mkDatabase [vcftable.mk 890 30 (95 # 100)] [] 1)
       [PostCalculate (SQL.mkTimestamp 2025 8 5 17 8 20 0)
          (mkBody (Some 2500) (Some 890) (Some 30));
        DeleteCalculation 1;
        PostCalculate (SQL.mkTimestamp 2025 8 5 17 9 0 0)
          (mkBody (Some 1000) (Some 890) (Some 30));
        ClearCalculations]).
Proof.
  apply (serving_keeps_the_store_sound
           (mkDatabase [vcftable.mk 890 30 (95 # 100)] [] 1)).
  split; [constructor | intros r []].
Defined.

(** ** The set-up script *)

Lemma includes_In (a : list string) (s : string) :
  JS.includes a s = true <-> In s a.
Proof.
  unfold JS.includes. rewrite existsb_exists. split.
  - intros (x & Hx & E). apply String.eqb_eq in E. subst x. exact Hx.
  - intros H. exists s. split; [exact H | apply String.eqb_refl].
Qed.

Lemma missingColumns_In (existingColumns : list string) (c : string) :
  In c (missingColumns existingColumns)
  <-> In c requiredColumns /\ ~ In c existingColumns.
Proof.
  unfold missingColumns. rewrite filter_In, negb_true_iff.
  rewrite <- (includes_In existingColumns c).
  destruct (JS.includes existingColumns c).
  - split.
    + intros [_ H]. discriminate H.
    + intros [_ H]. exfalso. apply H. reflexivity.
  - split.
    + intros [H _]. split; [exact H | discriminate].
    + intros [H _]. split; [exact H | reflexivity].
Qed.

(** X26.  The set-up script reports the reference table as found, with
    its number of rows, exactly when the table exists and has the three
    columns the resolver reads; otherwise it reports the table as
    missing, or lists precisely the required columns the table lacks. *)
Theorem vcf_check_is_exact (entry : option (list string * nat)) :
  (check_vcftable entry = VcfTableNotFound <-> entry = None)
  /\ (forall count,
        check_vcftable entry = VcfTableFound count
        <-> exists existingColumns,
              entry = Some (existingColumns, count)
              /\ forall c, In c requiredColumns -> In c existingColumns)
  /\ (forall missing,
        check_vcftable entry = VcfColumnsMissing missing ->
        missing <> []
        /\ exists existingColumns count,
             entry = Some (existingColumns, count)
             /\ forall c, In c missing
                          <-> In c requiredColumns /\ ~ In c existingColumns).
Proof.
  destruct entry as [[cols n]|]; simpl.
  - destruct (missingColumns cols) as [|m ms] eqn:M.
    + assert (All : forall c, In c requiredColumns -> In c cols).
      { intros c Hc. apply includes_In.
        destruct (JS.includes cols c) eqn:I; [reflexivity|].
        exfalso. assert (Hin : In c (missingColumns cols)).
        { apply missingColumns_In. split; [exact Hc|].
          rewrite <- includes_In. congruence. }
        rewrite M in Hin. destruct Hin. }
      split; [split; discriminate|]. split.
      * intros count. split.
        -- intros [= <-]. exists cols. split; [reflexivity | exact All].
        -- intros (cols' & [= <- <-] & _). reflexivity.
      * intros missing. discriminate.
    + split; [split; discriminate|]. split.
      * intros count. split; [discriminate|].
        intros (cols' & [= <- <-] & All). exfalso.
        assert (Hin : In m (missingColumns cols)) by (rewrite M; left; reflexivity).
        apply missingColumns_In in Hin. destruct Hin as [Hr Hn].
        apply Hn, All, Hr.
      * intros missing [= <-]. split; [discriminate|].
        exists cols, n. split; [reflexivity|].
        intros c. rewrite <- M. apply missingColumns_In.
  - split; [split; reflexivity|]. split.
    + intros count. split; [discriminate|]. intros (cols & E & _). discriminate.
    + intros missing. discriminate.
Qed.
